(** * Support and resistance detector: the classes of [classes/classes.py]

    A shallow embedding of [getStockTimeSeries] (validation and numeric
    coercion of a fetched batch) and of [stockPriceSupportResistance]
    (the five-point extrema scan), with the properties of the
    specification proved about them.

    Python objects are modelled as the code uses them: a record of the
    batch is a [dict] in insertion order, a price is an IEEE binary64
    float (Rocq's primitive floats), an exception is a value of [exn]
    and a method that mutates the fetched list threads it as a store. *)

From Stdlib Require Import String Ascii ZArith List Bool Lia Floats.
Import ListNotations.

Local Open Scope string_scope.
Local Open Scope Z_scope.

(** ** Python values and built-ins *)

Module Py.

(** The values a field of a record holds: JSON null, text, and the two
    numeric types. *)
Inductive value : Type :=
| VNone
| VStr (s : string)
| VInt (z : Z)
| VFloat (f : float).

Inductive exn : Type :=
| ValueError (msg : string)
| TypeError
| KeyError (key : string)
| IndexError
| OverflowError
| RuntimeError (msg : string).

Inductive result (A : Type) : Type :=
| Ok (a : A)
| Raise (e : exn).
Arguments Ok {A} a.
Arguments Raise {A} e.

Definition is_ok {A} (r : result A) : bool :=
  match r with Ok _ => true | Raise _ => false end.

Definition is_ValueError {A} (r : result A) : bool :=
  match r with Raise (ValueError _) => true | _ => false end.

(** [value is None] *)
Definition is_None (v : value) : bool :=
  match v with VNone => true | _ => false end.

(** Exact comparison of an integer with a float, as Python compares an
    [int] with a [float]; [None] when the float is a NaN. *)
Definition Z_SF_compare (z : Z) (f : spec_float) : option comparison :=
  match f with
  | S754_nan => None
  | S754_infinity s => Some (if s then Gt else Lt)
  | S754_zero _ => Some (z ?= 0)
  | S754_finite s m e =>
      let v := if s then Z.neg m else Z.pos m in
      Some (if 0 <=? e then z ?= v * 2 ^ e else z * 2 ^ (- e) ?= v)
  end.

Definition is_Lt (c : option comparison) : bool :=
  match c with Some Lt => true | _ => false end.
Definition is_Gt (c : option comparison) : bool :=
  match c with Some Gt => true | _ => false end.
Definition is_Eq (c : option comparison) : bool :=
  match c with Some Eq => true | _ => false end.

(** [a == b]: never raises; values of unrelated types are unequal. *)
Definition eq (a b : value) : bool :=
  match a, b with
  | VNone, VNone => true
  | VStr s, VStr t => String.eqb s t
  | VInt x, VInt y => Z.eqb x y
  | VFloat x, VFloat y => PrimFloat.eqb x y
  | VInt x, VFloat y => is_Eq (Z_SF_compare x (Prim2SF y))
  | VFloat x, VInt y => is_Eq (Z_SF_compare y (Prim2SF x))
  | _, _ => false
  end.

(** [a < b]: text against text (by code point, which is the byte order
    of the encoded text), number against number, [TypeError] otherwise. *)
Definition lt (a b : value) : result bool :=
  match a, b with
  | VStr s, VStr t => Ok (String.ltb s t)
  | VInt x, VInt y => Ok (Z.ltb x y)
  | VFloat x, VFloat y => Ok (PrimFloat.ltb x y)
  | VInt x, VFloat y => Ok (is_Lt (Z_SF_compare x (Prim2SF y)))
  | VFloat x, VInt y => Ok (is_Gt (Z_SF_compare y (Prim2SF x)))
  | _, _ => Raise TypeError
  end.

(** [a > b] *)
Definition gt (a b : value) : result bool :=
  match a, b with
  | VStr s, VStr t => Ok (String.ltb t s)
  | VInt x, VInt y => Ok (Z.ltb y x)
  | VFloat x, VFloat y => Ok (PrimFloat.ltb y x)
  | VInt x, VFloat y => Ok (is_Gt (Z_SF_compare x (Prim2SF y)))
  | VFloat x, VInt y => Ok (is_Lt (Z_SF_compare y (Prim2SF x)))
  | _, _ => Raise TypeError
  end.

(** [v < w] on lists: the first position where the items differ (by
    [==]) decides; when one list is a prefix of the other the shorter one
    is smaller. The interpreter also takes an item to equal itself without
    calling [==], which differs from [==] only on a NaN met twice; no NaN
    reaches a comparison of levels, since a flagged price passed [<]. *)
Fixpoint list_lt (v w : list value) : result bool :=
  match v, w with
  | x :: v', y :: w' => if eq x y then list_lt v' w' else lt x y
  | [], _ :: _ => Ok true
  | _, [] => Ok false
  end.

(** [v > w] on lists. *)
Fixpoint list_gt (v w : list value) : result bool :=
  match v, w with
  | x :: v', y :: w' => if eq x y then list_gt v' w' else gt x y
  | _ :: _, [] => Ok true
  | [], _ => Ok false
  end.

(** [min] and [max] share one loop: the first item is the candidate, and
    a later item replaces it when [op item candidate] holds. *)
Fixpoint min_max_from (op : list value -> list value -> result bool)
    (best : list value) (items : list (list value)) : result (list value) :=
  match items with
  | [] => Ok best
  | item :: items' =>
      match op item best with
      | Ok b => min_max_from op (if b then item else best) items'
      | Raise e => Raise e
      end
  end.

Definition min_max (op : list value -> list value -> result bool)
    (name : string) (items : list (list value)) : result (list value) :=
  match items with
  | [] => Raise (ValueError (name ++ "() arg is an empty sequence"))
  | first :: items' => min_max_from op first items'
  end.

(** [min(items)] *)
Definition min : list (list value) -> result (list value) :=
  min_max list_lt "min".

(** [max(items)] *)
Definition max : list (list value) -> result (list value) :=
  min_max list_gt "max".

(** [float(z)] for an [int]: the nearest binary64 (ties to even), and
    [OverflowError] when that is beyond the largest finite float. *)
Definition float_of_int (z : Z) : result float :=
  match binary_normalize prec emax z 0 false with
  | S754_infinity _ => Raise OverflowError
  | sf => Ok (SF2Prim sf)
  end.

(** [int(f)] for a [float]: truncation towards zero. *)
Definition int_of_float (f : float) : result Z :=
  match Prim2SF f with
  | S754_nan => Raise (ValueError "cannot convert float NaN to integer")
  | S754_infinity _ => Raise OverflowError
  | S754_zero _ => Ok 0
  | S754_finite s m e =>
      let a := if 0 <=? e then Z.pos m * 2 ^ e else Z.pos m / 2 ^ (- e) in
      Ok (if s then - a else a)
  end.

Arguments float_of_int : simpl never.
Arguments int_of_float : simpl never.

(** [range(start, stop)] *)
Definition range (start stop : Z) : list Z :=
  map (fun k => start + Z.of_nat k) (seq 0 (Z.to_nat (stop - start))).

(** [l[i]] on a list, a negative index counting from the end. *)
Definition list_getitem {A} (l : list A) (i : Z) : result A :=
  let n := Z.of_nat (length l) in
  let j := if i <? 0 then i + n else i in
  if (j <? 0) || (n <=? j) then Raise IndexError
  else match nth_error l (Z.to_nat j) with
       | Some a => Ok a
       | None => Raise IndexError
       end.

(** A [dict] with text keys, as its entries in insertion order. *)
Definition dict : Type := list (string * value).

(** [d[key]] *)
Fixpoint dict_getitem (d : dict) (key : string) : result value :=
  match d with
  | [] => Raise (KeyError key)
  | (k, v) :: d' => if String.eqb k key then Ok v else dict_getitem d' key
  end.

(** [d[key] = v]: an existing key keeps its place, a new key goes last. *)
Fixpoint dict_setitem (d : dict) (key : string) (v : value) : dict :=
  match d with
  | [] => [(key, v)]
  | (k, w) :: d' =>
      if String.eqb k key then (k, v) :: d'
      else (k, w) :: dict_setitem d' key v
  end.

Definition keys (d : dict) : list string := map fst d.
Definition values (d : dict) : list value := map snd d.

(** A dict holds no key twice: the entries of a well-keyed list are those
    of a dict. *)
Fixpoint distinct (ks : list string) : bool :=
  match ks with
  | [] => true
  | k :: ks' => negb (existsb (String.eqb k) ks') && distinct ks'
  end.

Definition well_keyed (d : dict) : bool := distinct (keys d).

End Py.

(** ** Methods over a mutable object

    A method that reads or mutates an object [S] and may raise: the
    object is threaded through, and it is still there (as far as it was
    mutated) when an exception leaves the method. *)

Module State.
Import Py.

Definition M (S A : Type) : Type := S -> result A * S.

Definition ret {S A} (a : A) : M S A := fun s => (Ok a, s).

Definition raise {S A} (e : exn) : M S A := fun s => (Raise e, s).

Definition bind {S A B} (m : M S A) (k : A -> M S B) : M S B :=
  fun s =>
    match m s with
    | (Ok a, s') => k a s'
    | (Raise e, s') => (Raise e, s')
    end.

(** The value of an expression that touches no object. *)
Definition lift {S A} (r : result A) : M S A := fun s => (r, s).

(** The object itself. *)
Definition get {S} : M S S := fun s => (Ok s, s).

Definition put {S} (s : S) : M S unit := fun _ => (Ok tt, s).

(** [try: body  except ValueError: handler] *)
Definition try_except_ValueError {S A} (body handler : M S A) : M S A :=
  fun s =>
    match body s with
    | (Raise (ValueError _), s') => handler s'
    | r => r
    end.

(** [a and b] on conditions: [b] is evaluated only when [a] is true. *)
Definition and_then {S} (a b : M S bool) : M S bool :=
  bind a (fun x => if x then b else ret false).

(** [for x in xs: body], the body updating a local variable [acc]. *)
Fixpoint for_fold {S A B} (xs : list A) (body : A -> B -> M S B) (acc : B)
  : M S B :=
  match xs with
  | [] => ret acc
  | x :: xs' => bind (body x acc) (for_fold xs' body)
  end.

(** [for x in xs: body] *)
Definition for_each {S A} (xs : list A) (body : A -> M S unit) : M S unit :=
  for_fold xs (fun x _ => body x) tt.

(** [for entry in l: body], the body mutating the entry it is given; an
    exception leaves the entries after it as they were. *)
Fixpoint for_each_entry {S} (body : M S unit) (l : list S)
  : result unit * list S :=
  match l with
  | [] => (Ok tt, [])
  | entry :: l' =>
      match body entry with
      | (Ok _, entry') =>
          let (r, l'') := for_each_entry body l' in (r, entry' :: l'')
      | (Raise e, entry') => (Raise e, entry' :: l')
      end
  end.

(** A method that leaves the object as it found it. *)
Definition read_only {S A} (m : M S A) : Prop := forall s, snd (m s) = s.

End State.

Declare Scope method_scope.
Delimit Scope method_scope with method.
Notation "x <- m ;; k" := (State.bind m (fun x => k))
  (at level 61, m at next level, right associativity) : method_scope.
Notation "m ;; k" := (State.bind m (fun _ => k))
  (at level 61, right associativity) : method_scope.
Notation "a 'and' b" := (State.and_then a b)
  (at level 60, right associativity) : method_scope.

(** ** The classes *)

Section Classes.
Import Py State.
Local Open Scope method_scope.

(** Python's parsers of numeric text, [float(s)] and [int(s)] on a
    [str]: [None] stands for [ValueError]. *)
Variable float_of_str : string -> option float.
Variable int_of_str : string -> option Z.

(** [float(value)] *)
Definition py_float (v : value) : result float :=
  match v with
  | VNone => Raise TypeError
  | VStr s =>
      match float_of_str s with
      | Some f => Ok f
      | None => Raise (ValueError "could not convert string to float")
      end
  | VInt z => float_of_int z
  | VFloat f => Ok f
  end.

(** [int(value)] *)
Definition py_int (v : value) : result Z :=
  match v with
  | VNone => Raise TypeError
  | VStr s =>
      match int_of_str s with
      | Some z => Ok z
      | None => Raise (ValueError "invalid literal for int() with base 10")
      end
  | VInt z => Ok z
  | VFloat f => int_of_float f
  end.

(** The attributes of [getStockTimeSeries], which
    [stockPriceSupportResistance] inherits unchanged. *)
Record getStockTimeSeries : Type := {
  apikey : string;
  symbol : string;
  interval : string;
  outputsize : Z
}.

Definition stockPriceSupportResistance : Type := getStockTimeSeries.

Definition batch : Type := list dict.

(** What the data source answers to [fetch_data]: a failure of the
    client, or the decoded series (possibly [None]). *)
Inductive api_answer : Type :=
| ApiError (why : string)
| ApiData (raw_data : option batch).

Definition fetch_data (api : api_answer) : result (option batch) :=
  match api with
  | ApiError why =>
      Raise (RuntimeError
               ("No more minute API tokens are available, or " ++ why ++ "."))
  | ApiData raw_data => Ok raw_data
  end.

(** [entry[key] = v] *)
Definition setitem (key : string) (v : value) : M dict unit :=
  fun entry => (Ok tt, dict_setitem entry key v).

(** The body of the loop over [entry.items()]. *)
Definition convert_field (key : string) (value : value) : M dict unit :=
  if negb (String.eqb key "datetime") then
    try_except_ValueError
      (f <- lift (py_float value) ;; setitem key (VFloat f))
      (try_except_ValueError
         (z <- lift (py_int value) ;; setitem key (VInt z))
         (ret tt))
  else ret tt.

(** The body of the loop over [raw_data]. The items are those of the
    entry after the two assignments; the loop meets each key once and
    assigns to that key only, so the value it is handed is the one the
    entry holds for the key at that moment. *)
Definition convert_entry (self : getStockTimeSeries)
    (execution_timestamp : string) : M dict unit :=
  setitem "execution_timestamp" (VStr execution_timestamp) ;;
  setitem "ticker" (VStr (symbol self)) ;;
  items <- get ;;
  for_each items (fun kv => convert_field (fst kv) (snd kv)).

(** [execution_timestamp] is the text of [datetime.now().isoformat()],
    read once, before the loop. *)
Definition _convert_prices_to_numeric (self : getStockTimeSeries)
    (execution_timestamp : string) : M batch batch :=
  (fun raw_data =>
     for_each_entry (convert_entry self execution_timestamp) raw_data) ;;
  get.

Definition has_empty_value (entry : dict) : bool :=
  existsb (fun value => eq value (VStr "") || is_None value) (values entry).

Fixpoint check_entries (raw_data : batch) : result unit :=
  match raw_data with
  | [] => Ok tt
  | entry :: raw_data' =>
      if has_empty_value entry
      then Raise (ValueError "Empty data found in the dataset.")
      else check_entries raw_data'
  end.

Definition _check_for_empty_data : M batch unit :=
  raw_data <- get ;; lift (check_entries raw_data).

(** The result, and the fetched list as the call leaves it ([None] when
    no list was fetched). *)
Definition get_processed_data (self : getStockTimeSeries)
    (execution_timestamp : string) (api : api_answer)
  : result batch * option batch :=
  match fetch_data api with
  | Raise e => (Raise e, None)
  | Ok None => (Raise (ValueError "No data fetched from the API."), None)
  | Ok (Some raw_data) =>
      if Z.of_nat (length raw_data) =? 0
      then (Raise (ValueError "No data fetched from the API."), Some raw_data)
      else
        let (r, s) :=
          (_check_for_empty_data ;;
           _convert_prices_to_numeric self execution_timestamp) raw_data in
        (r, Some s)
  end.

(** [processed_data[i][key]] *)
Definition item (i : Z) (key : string) : M batch value :=
  processed_data <- get ;;
  entry <- lift (list_getitem processed_data i) ;;
  lift (dict_getitem entry key).

Definition item_lt (i j : Z) (key : string) : M batch bool :=
  a <- item i key ;; b <- item j key ;; lift (lt a b).

Definition item_gt (i j : Z) (key : string) : M batch bool :=
  a <- item i key ;; b <- item j key ;; lift (gt a b).

(** The condition of the loop of [find_support_levels]. *)
Definition support_condition (i : Z) : M batch bool :=
  item_lt i (i - 1) "low" and item_lt i (i - 2) "low"
  and item_lt i (i + 1) "low" and item_lt i (i + 2) "low".

(** The condition of the loop of [find_resistance_levels]. *)
Definition resistance_condition (i : Z) : M batch bool :=
  item_gt i (i - 1) "high" and item_gt i (i - 2) "high"
  and item_gt i (i + 1) "high" and item_gt i (i + 2) "high".

(** The loop of either method: the levels found, in the order they were
    appended. *)
Definition scan (condition : Z -> M batch bool) (key : string)
  : M batch (list (list value)) :=
  processed_data <- get ;;
  for_fold (range 2 (Z.of_nat (length processed_data) - 2))
    (fun i levels =>
       c <- condition i ;;
       if c then
         price <- item i key ;;
         datetime <- item i "datetime" ;;
         ret (levels ++ [[price; datetime]])%list
       else ret levels)
    [].

(** What the two methods return: the list of levels, or in global-only
    mode one level or [None]. *)
Inductive levels : Type :=
| Levels (all : list (list value))
| Level (one : list value)
| NoLevel.

(** [find_support_levels] from the line after [get_processed_data]. *)
Definition scan_support_levels (global_only : bool) : M batch levels :=
  support_levels <- scan support_condition "low" ;;
  if global_only then
    match support_levels with
    | [] => ret NoLevel
    | _ => l <- lift (min support_levels) ;; ret (Level l)
    end
  else ret (Levels support_levels).

(** [find_resistance_levels] from the line after [get_processed_data]. *)
Definition scan_resistance_levels (global_only : bool) : M batch levels :=
  resistance_levels <- scan resistance_condition "high" ;;
  if global_only then
    match resistance_levels with
    | [] => ret NoLevel
    | _ => l <- lift (max resistance_levels) ;; ret (Level l)
    end
  else ret (Levels resistance_levels).

Definition find_levels (scan_levels : M batch levels)
    (self : stockPriceSupportResistance) (execution_timestamp : string)
    (api : api_answer) : result levels :=
  match get_processed_data self execution_timestamp api with
  | (Ok processed_data, _) => fst (scan_levels processed_data)
  | (Raise e, _) => Raise e
  end.

Definition find_support_levels (global_only : bool) :=
  find_levels (scan_support_levels global_only).

Definition find_resistance_levels (global_only : bool) :=
  find_levels (scan_resistance_levels global_only).

End Classes.

(** ** The series of the specification

    A processed series is a sequence of price points; the rules below are
    written from the specification's sentences, over the columns of
    prices and timestamps of the series. *)

Module Series.
Import Py.
Local Open Scope float_scope.

(** A price point: a numeric low and high, and a text timestamp. *)
Definition price_point (e : dict) : bool :=
  match dict_getitem e "low", dict_getitem e "high",
        dict_getitem e "datetime" with
  | Ok (VFloat _), Ok (VFloat _), Ok (VStr _) => true
  | _, _, _ => false
  end.

Definition series (s : batch) : bool := forallb price_point s.

Definition low_of (e : dict) : float :=
  match dict_getitem e "low" with Ok (VFloat f) => f | _ => nan end.

Definition high_of (e : dict) : float :=
  match dict_getitem e "high" with Ok (VFloat f) => f | _ => nan end.

Definition timestamp_of (e : dict) : string :=
  match dict_getitem e "datetime" with Ok (VStr t) => t | _ => "" end.

Definition lows (s : batch) : list float := map low_of s.
Definition highs (s : batch) : list float := map high_of s.
Definition timestamps (s : batch) : list string := map timestamp_of s.

Definition price_at (prices : list float) (i : Z) : float :=
  nth (Z.to_nat i) prices nan.

Definition timestamp_at (ts : list string) (i : Z) : string :=
  nth (Z.to_nat i) ts "".

(** Index [i], with [2 <= i <= length - 3], is a support point when
    [low[i]] is strictly less than its four neighbours. *)
Definition is_support (low : list float) (i : Z) : bool :=
  (2 <=? i)%Z && (i <=? Z.of_nat (length low) - 3)%Z
  && (price_at low i <? price_at low (i - 2))
  && (price_at low i <? price_at low (i - 1))
  && (price_at low i <? price_at low (i + 1))
  && (price_at low i <? price_at low (i + 2)).

(** The resistance rule: [high[i]] strictly greater than the same four
    neighbours. *)
Definition is_resistance (high : list float) (i : Z) : bool :=
  (2 <=? i)%Z && (i <=? Z.of_nat (length high) - 3)%Z
  && (price_at high (i - 2) <? price_at high i)
  && (price_at high (i - 1) <? price_at high i)
  && (price_at high (i + 1) <? price_at high i)
  && (price_at high (i + 2) <? price_at high i).

(** The level of index [i]: its price and its timestamp. *)
Definition level (prices : list float) (ts : list string) (i : Z)
  : list value :=
  [VFloat (price_at prices i); VStr (timestamp_at ts i)].

(** The qualifying indices, in ascending order, and their levels. *)
Definition support_points (s : batch) : list Z :=
  filter (is_support (lows s)) (range 0 (Z.of_nat (length s))).

Definition resistance_points (s : batch) : list Z :=
  filter (is_resistance (highs s)) (range 0 (Z.of_nat (length s))).

Definition support_levels (s : batch) : list (list value) :=
  map (level (lows s) (timestamps s)) (support_points s).

Definition resistance_levels (s : batch) : list (list value) :=
  map (level (highs s) (timestamps s)) (resistance_points s).

End Series.

(** ** The order of the floats

    The comparison of two floats, neither a NaN, is the lexicographic
    comparison of their ranks: sign class, then exponent, then mantissa
    (the last two negated below zero). *)

Module Rank.

Definition is_nan (f : spec_float) : bool :=
  match f with S754_nan => true | _ => false end.

Definition rank (f : spec_float) : Z * Z * Z :=
  match f with
  | S754_nan => (0, 0, 0)
  | S754_zero _ => (0, 0, 0)
  | S754_infinity true => (-2, 0, 0)
  | S754_infinity false => (2, 0, 0)
  | S754_finite true m e => (-1, - e, Z.neg m)
  | S754_finite false m e => (1, e, Z.pos m)
  end.

Definition lex (t u : Z * Z * Z) : comparison :=
  let '(a, b, c) := t in
  let '(a', b', c') := u in
  match a ?= a' with
  | Eq => match b ?= b' with Eq => c ?= c' | r => r end
  | r => r
  end.

Definition lex_lt (t u : Z * Z * Z) : Prop :=
  let '(a, b, c) := t in
  let '(a', b', c') := u in
  a < a' \/ (a = a' /\ (b < b' \/ (b = b' /\ c < c'))).

Definition not_nan (x : float) : Prop := is_nan (Prim2SF x) = false.

Definition frank (x : float) : Z * Z * Z := rank (Prim2SF x).

(** A level with price [p] and timestamp [d] comes before another one:
    the lexicographic order on (price, timestamp). *)
Definition before (l m : float * string) : Prop :=
  lex_lt (frank (fst l)) (frank (fst m))
  \/ (frank (fst l) = frank (fst m) /\ String.compare (snd l) (snd m) = Lt).

(** A level as the list the scan builds for it. *)
Definition as_level (l : float * string) : list Py.value :=
  [Py.VFloat (fst l); Py.VStr (snd l)].

End Rank.

(** The shape of the condition of either loop, over the comparison it
    uses. *)
Definition four (c : Z -> Z -> State.M batch bool) (i : Z)
  : State.M batch bool :=
  (c i (i - 1) and c i (i - 2) and c i (i + 1) and c i (i + 2))%method.

(** ** The normalizer of the specification

    Written from the specification's sentences: every field but the
    timestamp goes through the coercion attempt (float, then integer,
    else the value as it is), after the retrieval timestamp and the
    symbol have been attached. *)

Section Normalizer.
Import Py.

Variable float_of_str : string -> option float.
Variable int_of_str : string -> option Z.

Definition coerced (v : value) : value :=
  match py_float float_of_str v with
  | Ok f => VFloat f
  | Raise _ =>
      match py_int int_of_str v with
      | Ok z => VInt z
      | Raise _ => v
      end
  end.

Definition normalize_field (kv : string * value) : string * value :=
  if String.eqb (fst kv) "datetime" then kv else (fst kv, coerced (snd kv)).

Definition attach (self : getStockTimeSeries) (retrieved_at : string)
    (e : dict) : dict :=
  dict_setitem (dict_setitem e "execution_timestamp" (VStr retrieved_at))
    "ticker" (VStr (symbol self)).

Definition normalize_entry (self : getStockTimeSeries)
    (retrieved_at : string) (e : dict) : dict :=
  map normalize_field (attach self retrieved_at e).

Definition normalize (self : getStockTimeSeries) (retrieved_at : string)
    (raw : batch) : batch :=
  map (normalize_entry self retrieved_at) raw.

(** A value that [float] reads as a number. *)
Definition numeric (v : value) : bool := is_ok (py_float float_of_str v).

(** A well-formed record of the data source: a text timestamp, and a low
    and a high that are numbers or numeric text. *)
Definition well_formed_record (e : dict) : bool :=
  match dict_getitem e "datetime", dict_getitem e "low",
        dict_getitem e "high" with
  | Ok (VStr _), Ok l, Ok h => numeric l && numeric h
  | _, _, _ => false
  end.

End Normalizer.

(** A value on which the coercion attempt raises nothing but the
    [ValueError] it handles: not [None], and not an integer beyond the
    floats. *)
Definition coercible (v : Py.value) : bool :=
  match v with
  | Py.VNone => false
  | Py.VInt z => Py.is_ok (Py.float_of_int z)
  | _ => true
  end.

Definition coercible_entry (e : Py.dict) : bool :=
  forallb (fun kv => String.eqb (fst kv) "datetime" || coercible (snd kv)) e.

(** A value the validation rejects: empty text or [None]. *)
Definition missing (v : Py.value) : Prop := v = Py.VStr "" \/ v = Py.VNone.

(** The series that [get_processed_data] hands to the scan. *)
Definition processed (float_of_str : string -> option float)
    (int_of_str : string -> option Z) (self : getStockTimeSeries)
    (execution_timestamp : string) (api : api_answer) (s : batch) : Prop :=
  fst (get_processed_data float_of_str int_of_str self execution_timestamp api)
  = Py.Ok s.

(** ** Sample data

    A reader of plain decimal literals standing for Python's parsers (it
    agrees with them on signed decimal literals of at most 15 digits and
    on the spellings of infinity and NaN; nothing is proved about other
    text), a client, and a few batches and series. *)

Module Sample.
Import Py.

Definition digit (c : ascii) : option Z :=
  let n := Z.of_N (N_of_ascii c) in
  if (48 <=? n) && (n <=? 57) then Some (n - 48) else None.

Fixpoint digits (s : string) (acc : Z) : option Z :=
  match s with
  | EmptyString => Some acc
  | String c s' =>
      match digit c with
      | Some d => digits s' (10 * acc + d)
      | None => None
      end
  end.

Fixpoint split_dot (s : string) : string * string :=
  match s with
  | EmptyString => (EmptyString, EmptyString)
  | String c s' =>
      if Ascii.eqb c "." then (EmptyString, s')
      else let (w, f) := split_dot s' in (String c w, f)
  end.

Definition lower (c : ascii) : ascii :=
  let n := N_of_ascii c in
  if (65 <=? n)%N && (n <=? 90)%N then ascii_of_N (n + 32) else c.

Fixpoint lowercase (s : string) : string :=
  match s with
  | EmptyString => EmptyString
  | String c s' => String (lower c) (lowercase s')
  end.

Definition decimal (s : string) : option float :=
  let (w, f) := split_dot s in
  let k := Z.of_nat (String.length f) in
  if String.eqb (w ++ f) "" then None
  else
    match digits (w ++ f) 0 with
    | Some m =>
        if (m <? 10 ^ 15) && (k <=? 22) then
          match float_of_int m, float_of_int (10 ^ k) with
          | Ok a, Ok b => Some (a / b)%float
          | _, _ => None
          end
        else None
    | None => None
    end.

Definition magnitude (s : string) : option float :=
  let l := lowercase s in
  if String.eqb l "inf" || String.eqb l "infinity" then Some infinity
  else if String.eqb l "nan" then Some nan
  else decimal s.

Definition float_of_str (s : string) : option float :=
  match s with
  | String "-" s' => option_map PrimFloat.opp (magnitude s')
  | String "+" s' => magnitude s'
  | _ => magnitude s
  end.

Definition natural (s : string) : option Z :=
  if String.eqb s "" then None else digits s 0.

Definition int_of_str (s : string) : option Z :=
  match s with
  | String "-" s' => option_map Z.opp (natural s')
  | String "+" s' => natural s'
  | _ => natural s
  end.

Definition apple : getStockTimeSeries :=
  {| apikey := "demo"; symbol := "AAPL"; interval := "1day"; outputsize := 8 |}.

(** Informa plc is listed in London under a symbol that [float] reads. *)
Definition informa : getStockTimeSeries :=
  {| apikey := "demo"; symbol := "INF"; interval := "1day"; outputsize := 8 |}.

Definition now : string := "2024-05-01T09:30:00.000000".

(** A record as the data source sends it: every value is text. *)
Definition record (datetime open high low close volume : string) : dict :=
  [("datetime", VStr datetime); ("open", VStr open); ("high", VStr high);
   ("low", VStr low); ("close", VStr close); ("volume", VStr volume)].

Definition raw_data : batch :=
  [record "2024-04-30" "5.5" "9.0" "5.0" "6" "1000";
   record "2024-04-29" "4.5" "9.5" "4.0" "5" "1200";
   record "2024-04-26" "2.5" "12.25" "1.5" "3" "900";
   record "2024-04-25" "4.5" "9.5" "4.0" "5" "1100";
   record "2024-04-24" "5.5" "9.0" "5.0" "6" "1300";
   record "2024-04-23" "2.5" "12.25" "1.5" "3" "700";
   record "2024-04-22" "6.5" "8.0" "6.0" "7" "800";
   record "2024-04-19" "7.5" "7.75" "7.0" "7.5" "950"].

(** The same batch with one empty field in its fourth record. *)
Definition raw_with_gap : batch :=
  [record "2024-04-30" "5.5" "9.0" "5.0" "6" "1000";
   record "2024-04-29" "4.5" "9.5" "4.0" "5" "1200";
   record "2024-04-26" "2.5" "12.25" "1.5" "3" "900";
   record "2024-04-25" "4.5" "9.5" "4.0" "" "1100";
   record "2024-04-24" "5.5" "9.0" "5.0" "6" "1300"].

(** The first batch with its numbers spelled differently. *)
Definition raw_respelled : batch :=
  [record "2024-04-30" "5.50" "9" "5" "6.0" "1000";
   record "2024-04-29" "4.50" "9.50" "4" "5.0" "1200";
   record "2024-04-26" "2.50" "12.250" "1.50" "3.0" "900";
   record "2024-04-25" "4.50" "9.50" "4" "5.0" "1100";
   record "2024-04-24" "5.50" "9" "5" "6.0" "1300";
   record "2024-04-23" "2.50" "12.250" "1.50" "3.0" "700";
   record "2024-04-22" "6.50" "8" "6" "7.0" "800";
   record "2024-04-19" "7.50" "7.750" "7" "7.50" "950"].

(** The first batch with a low that is not numeric text in its third
    record. *)
Definition raw_with_text_low : batch :=
  [record "2024-04-30" "5.5" "9.0" "5.0" "6" "1000";
   record "2024-04-29" "4.5" "9.5" "4.0" "5" "1200";
   record "2024-04-26" "2.5" "12.25" "n/a" "3" "900";
   record "2024-04-25" "4.5" "9.5" "4.0" "5" "1100";
   record "2024-04-24" "5.5" "9.0" "5.0" "6" "1300"].

(** What [get_processed_data] makes of the first batch. *)
Definition processed_data : batch :=
  Eval vm_compute in
    match fst (get_processed_data float_of_str int_of_str apple now
                 (ApiData (Some raw_data))) with
    | Ok s => s
    | Raise _ => []
    end.

(** A price point of a processed series. *)
Definition point (datetime : string) (low high : float) : dict :=
  [("datetime", VStr datetime); ("open", VFloat low); ("high", VFloat high);
   ("low", VFloat low); ("close", VFloat high); ("volume", VFloat 1000);
   ("execution_timestamp", VStr now); ("ticker", VStr "AAPL")].

(** Lows 5, 4, 3, 2, 3, 4, 5 and highs 1, 2, 3, 4, 3, 2, 1. *)
Definition valley_and_peak : batch :=
  [point "2024-04-22" 5 1; point "2024-04-23" 4 2; point "2024-04-24" 3 3;
   point "2024-04-25" 2 4; point "2024-04-26" 3 3; point "2024-04-29" 4 2;
   point "2024-04-30" 5 1].

(** Two support points at the same low, and two resistance points at the
    same high, three places apart. *)
Definition double_bottom : batch :=
  [point "2024-04-19" 5 1; point "2024-04-22" 4 2; point "2024-04-23" 1 9;
   point "2024-04-24" 4 2; point "2024-04-25" 5 1; point "2024-04-26" 1 9;
   point "2024-04-29" 6 0; point "2024-04-30" 7 0].

(** Four points only. *)
Definition short : batch :=
  [point "2024-04-25" 5 1; point "2024-04-26" 1 9; point "2024-04-29" 6 0;
   point "2024-04-30" 7 0].

(** A series whose third record kept a low that is text. *)
Definition mixed_low : batch :=
  [point "2024-04-22" 5 1; point "2024-04-23" 4 2;
   [("datetime", VStr "2024-04-24"); ("low", VStr "n/a"); ("high", VFloat 3)];
   point "2024-04-25" 2 4; point "2024-04-26" 3 3].

End Sample.

(** ** Text built-ins

    Text is read as a sequence of code points below 256, one per
    character of the string. *)

Module Str.

(** [s.startswith(sub)] *)
Fixpoint startswith (s sub : string) : bool :=
  match sub, s with
  | EmptyString, _ => true
  | String _ _, EmptyString => false
  | String a sub', String b s' => Ascii.eqb a b && startswith s' sub'
  end.

(** [s.find(sub)]: the least index at which [sub] occurs, or [-1]. *)
Fixpoint find (s sub : string) : Z :=
  if startswith s sub then 0
  else
    match s with
    | EmptyString => -1
    | String _ s' => let r := find s' sub in if r <? 0 then -1 else r + 1
    end.

(** [sub in s] *)
Definition contains (sub s : string) : bool := 0 <=? find s sub.

(** [s[start:stop]]: an index below zero counts from the end, and both
    are brought within the text. *)
Definition slice (s : string) (start stop : Z) : string :=
  let n := Z.of_nat (String.length s) in
  let clamp i := if i <? 0 then Z.max (i + n) 0 else Z.min i n in
  let a := clamp start in
  let b := clamp stop in
  String.substring (Z.to_nat a) (Z.to_nat (b - a)) s.

(** [c.isspace()] *)
Definition isspace (c : ascii) : bool :=
  let n := Z.of_N (N_of_ascii c) in
  ((9 <=? n) && (n <=? 13)) || ((28 <=? n) && (n <=? 32))
  || (n =? 133) || (n =? 160).

(** [s.lstrip()] *)
Fixpoint lstrip (s : string) : string :=
  match s with
  | EmptyString => EmptyString
  | String c s' => if isspace c then lstrip s' else s
  end.

(** [s.rstrip()] *)
Fixpoint rstrip (s : string) : string :=
  match s with
  | EmptyString => EmptyString
  | String c s' =>
      match rstrip s' with
      | EmptyString => if isspace c then EmptyString else String c EmptyString
      | r => String c r
      end
  end.

(** [s.strip()] *)
Definition strip (s : string) : string := rstrip (lstrip s).

End Str.

(** ** [StockFetcher] *)

Module Stocks.
Import Py.

(** What the client answers to [get_stocks_list(...).as_json()]: an
    exception whose text is [str(e)], or the list of stocks. *)
Inductive listing : Type :=
| ListingError (text : string)
| Listing (stocks : list dict).

(** What the [try] block of [fetch_stocks] can raise: an exception of the
    client, or the [KeyError] of a stock without one of the fields. *)
Inductive raised : Type :=
| ClientError (text : string)
| MissingKey (key : string).

(** [str(e)]; for [KeyError(key)] it is the key between quotes. *)
Definition str_raised (e : raised) : string :=
  match e with
  | ClientError text => text
  | MissingKey key => "'" ++ key ++ "'"
  end.

Definition get_stocks_list (answer : listing) : raised + list dict :=
  match answer with
  | ListingError text => inl (ClientError text)
  | Listing stocks => inr stocks
  end.

(** [stock[key]] *)
Definition field (stock : dict) (key : string) : raised + value :=
  match dict_getitem stock key with
  | Ok v => inr v
  | Raise _ => inl (MissingKey key)
  end.

(** The dict the comprehension builds for one stock; its values are
    read in the order they are written. *)
Definition filtered_stock (stock : dict) : raised + dict :=
  match field stock "symbol" with
  | inl e => inl e
  | inr symbol =>
      match field stock "name" with
      | inl e => inl e
      | inr name =>
          match field stock "currency" with
          | inl e => inl e
          | inr currency =>
              match field stock "exchange" with
              | inl e => inl e
              | inr exchange =>
                  inr [("symbol", symbol); ("name", name);
                       ("currency", currency); ("exchange", exchange)]
              end
          end
      end
  end.

Fixpoint filtered_stocks (combined_stocks : list dict) : raised + list dict :=
  match combined_stocks with
  | [] => inr []
  | stock :: rest =>
      match filtered_stock stock with
      | inl e => inl e
      | inr d =>
          match filtered_stocks rest with
          | inl e => inl e
          | inr ds => inr (d :: ds)
          end
      end
  end.

(** The [try] block: the United Kingdom is asked only after the USA
    answered. *)
Definition fetch_stocks_body (usa uk : listing) : raised + list dict :=
  match get_stocks_list usa with
  | inl e => inl e
  | inr usa_stocks =>
      match get_stocks_list uk with
      | inl e => inl e
      | inr uk_stocks => filtered_stocks (usa_stocks ++ uk_stocks)%list
      end
  end.

Definition error_record (e : raised) : dict :=
  [("error", VStr ("An unexpected error occurred: " ++ str_raised e))].

Definition fetch_stocks (usa uk : listing) : list dict :=
  match fetch_stocks_body usa uk with
  | inr filtered => filtered
  | inl e => [error_record e]
  end.

(** The four fields kept, in the order of the dict literal. *)
Definition kept : list string := ["symbol"; "name"; "currency"; "exchange"].

(** [key in d] *)
Definition has_key (d : dict) (key : string) : bool :=
  is_ok (dict_getitem d key).

(** A stock that has the four fields. *)
Definition complete (stock : dict) : bool := forallb (has_key stock) kept.

(** The first of the four fields that a stock lacks. *)
Definition first_missing (stock : dict) : option string :=
  List.find (fun key => negb (has_key stock key)) kept.

End Stocks.

(** ** The sidebar of [main.py] *)

Section Main.
Import Py Stocks.

(** Python's [str] on an [int] and on a [float]. *)
Variable str_of_number : value -> string.

(** [str(v)], which is how an f-string shows [v]. *)
Definition py_str (v : value) : string :=
  match v with
  | VStr s => s
  | VNone => "None"
  | _ => str_of_number v
  end.

(** [f'{d["name"]} ({d["symbol"]})'] *)
Definition stock_label (d : dict) : result string :=
  match dict_getitem d "name" with
  | Raise e => Raise e
  | Ok name =>
      match dict_getitem d "symbol" with
      | Raise e => Raise e
      | Ok symbol => Ok (py_str name ++ " (" ++ py_str symbol ++ ")")
      end
  end.

(** The options of the stock selector. *)
Fixpoint stock_options (all_tickers_dict : list dict) : result (list string) :=
  match all_tickers_dict with
  | [] => Ok []
  | d :: rest =>
      if has_key d "name" && has_key d "symbol" then
        match stock_label d with
        | Raise e => Raise e
        | Ok l =>
            match stock_options rest with
            | Raise e => Raise e
            | Ok ls => Ok (l :: ls)
            end
        end
      else stock_options rest
  end.

(** The title of either chart, [gap] being the blanks the method puts
    after the symbol; [execution_timestamp] is
    [processed_data[-1]["execution_timestamp"]]. *)
Definition chart_title (gap : string) (self : getStockTimeSeries)
    : State.M batch string :=
  (execution_timestamp <- item (-1) "execution_timestamp" ;;
   State.ret ("Candlestick Chart for " ++ symbol self ++ gap
              ++ "(Execution Time: " ++ py_str execution_timestamp ++ ")")
  )%method.

End Main.

(** The symbol that [main.py] reads back from the selected option. *)
Definition ticker (selected_stock : Py.value) : Py.result string :=
  match selected_stock with
  | Py.VStr s =>
      Py.Ok (if Str.contains "(" s && Str.contains ")" s
             then Str.strip (Str.slice s (Str.find s "(" + 1) (Str.find s ")"))
             else "")
  | _ => Py.Raise Py.TypeError
  end.

(** The label of a stock whose name and symbol are text. *)
Definition label_text (name symbol : string) : string :=
  name ++ " (" ++ symbol ++ ")".

(** No character of [s] is [c]. *)
Definition free_of (c : ascii) (s : string) : bool :=
  negb (Str.contains (String c EmptyString) s).

(** ** Sample listings *)

Module Listings.
Import Py Stocks.

Definition stock (symbol name currency exchange extra : string) : dict :=
  [("symbol", VStr symbol); ("name", VStr name); ("currency", VStr currency);
   ("exchange", VStr exchange); ("type", VStr extra)].

Definition usa : list dict :=
  [stock "AAPL" "Apple Inc" "USD" "NASDAQ" "Common Stock";
   stock "MSFT" "Microsoft Corp" "USD" "NASDAQ" "Common Stock"].

Definition uk : list dict :=
  [stock "INF" "Informa plc" "GBp" "LSE" "Common Stock"].

(** A listing whose second stock has neither a name nor an exchange. *)
Definition uk_incomplete : list dict :=
  [stock "INF" "Informa plc" "GBp" "LSE" "Common Stock";
   [("symbol", VStr "VOD"); ("currency", VStr "GBp")]].

(** Python's [str] on numbers is not needed for text fields. *)
Definition str_of_number (v : value) : string := "".

End Listings.

(** What the scan of the column [key] can raise: a comparison of values
    of unlike types, or a record without the column or without its
    timestamp. *)
Definition benign (key : string) (e : Py.exn) : Prop :=
  e = Py.TypeError \/ e = Py.KeyError key \/ e = Py.KeyError "datetime".

(** ** More sample series *)

Module Gaps.
Import Py.

(** A series whose third record has no low. *)
Definition no_low : batch :=
  [Sample.point "2024-04-22" 5 1; Sample.point "2024-04-23" 4 2;
   [("datetime", VStr "2024-04-24"); ("high", VFloat 3)];
   Sample.point "2024-04-25" 2 4; Sample.point "2024-04-26" 3 3].

(** A series whose support point has no timestamp. *)
Definition no_datetime : batch :=
  [Sample.point "2024-04-22" 5 1; Sample.point "2024-04-23" 4 2;
   [("low", VFloat 1); ("high", VFloat 3)];
   Sample.point "2024-04-25" 2 4; Sample.point "2024-04-26" 3 3].

(** Two support points at one low whose timestamps are of unlike types. *)
Definition unlike_timestamps : batch :=
  [Sample.point "2024-04-19" 5 1; Sample.point "2024-04-22" 4 2;
   Sample.point "2024-04-23" 1 9; Sample.point "2024-04-24" 4 2;
   Sample.point "2024-04-25" 5 1;
   [("datetime", VFloat 20240426); ("low", VFloat 1); ("high", VFloat 9)];
   Sample.point "2024-04-29" 6 0; Sample.point "2024-04-30" 7 0].


End Gaps.

(** The condition of a loop holds at index [i]. *)
Definition flagged (condition : Z -> State.M batch bool) (s : batch) (i : Z)
  : bool :=
  match fst (condition i s) with
  | Py.Ok true => true
  | _ => false
  end.

Local Open Scope list_scope.
(** ** Facts about the built-ins *)

Module PyFacts.
Import Py.

Lemma map_seq_shift {A} (f : nat -> A) (m n : nat) :
  map f (seq n m) = map (fun k => f (n + k)%nat) (seq 0 m).
Proof.
  revert n f. induction m as [|m IH]; intros n f; simpl; [reflexivity|].
  rewrite Nat.add_0_r. f_equal.
  rewrite (IH (S n) f), (IH 1%nat (fun k => f (n + k)%nat)).
  apply map_ext. intros k. f_equal. lia.
Qed.

Lemma in_range (a b i : Z) : In i (range a b) <-> a <= i < b.
Proof.
  unfold range. rewrite in_map_iff. split.
  - intros (k & <- & Hk). apply in_seq in Hk. lia.
  - intros H. exists (Z.to_nat (i - a)). split; [lia|].
    apply in_seq. lia.
Qed.

Lemma range_empty (a b : Z) : b <= a -> range a b = [].
Proof.
  intros H. unfold range. replace (Z.to_nat (b - a)) with 0%nat by lia.
  reflexivity.
Qed.

Lemma range_app (a c b : Z) :
  a <= c <= b -> range a b = (range a c ++ range c b)%list.
Proof.
  intros H. unfold range.
  replace (Z.to_nat (b - a)) with (Z.to_nat (c - a) + Z.to_nat (b - c))%nat
    by lia.
  rewrite seq_app, map_app. f_equal.
  rewrite map_seq_shift. apply map_ext. intros k. lia.
Qed.

Lemma filter_nothing {A} (p : A -> bool) (l : list A) :
  (forall x, In x l -> p x = false) -> filter p l = [].
Proof.
  induction l as [|x l IH]; intros H; simpl; [reflexivity|].
  rewrite (H x (or_introl eq_refl)). apply IH. intros y Hy. apply H.
  now right.
Qed.

(** Only the indices of [c .. d-1] can pass a test that fails outside. *)
Lemma filter_range_within (p : Z -> bool) (a b c d : Z) :
  a <= c -> d <= b ->
  (forall i, p i = true -> c <= i < d) ->
  filter p (range a b) = filter p (range c d).
Proof.
  intros Hac Hdb Hp.
  assert (Hout : forall l, (forall i, In i l -> ~ c <= i < d) ->
                           filter p l = []).
  { intros l Hl. apply filter_nothing. intros i Hi.
    destruct (p i) eqn:E; [|reflexivity]. destruct (Hl i Hi (Hp i E)). }
  destruct (Z_le_gt_dec c d) as [Hcd|Hcd].
  - rewrite (range_app a c b), (range_app c d b) by lia.
    rewrite !filter_app.
    rewrite (Hout (range a c)), (Hout (range d b)).
    + now rewrite app_nil_r.
    + intros i Hi. apply in_range in Hi. lia.
    + intros i Hi. apply in_range in Hi. lia.
  - rewrite (range_empty c d) by lia. simpl. apply Hout. lia.
Qed.

Lemma list_getitem_nth_error {A} (l : list A) (i : Z) :
  0 <= i < Z.of_nat (length l) ->
  exists a, nth_error l (Z.to_nat i) = Some a /\ list_getitem l i = Ok a.
Proof.
  intros H. unfold list_getitem.
  destruct (i <? 0) eqn:E1; [lia|].
  rewrite E1. destruct (Z.of_nat (length l) <=? i) eqn:E2; [lia|]. simpl.
  destruct (nth_error l (Z.to_nat i)) as [a|] eqn:E.
  - now exists a.
  - apply nth_error_None in E. lia.
Qed.

End PyFacts.

(** ** Facts about methods *)

Module StateFacts.
Import Py State.

Lemma read_only_ret {S A} (a : A) : read_only (@ret S A a).
Proof. intros s. reflexivity. Qed.

Lemma read_only_lift {S A} (r : result A) : read_only (@lift S A r).
Proof. intros s. reflexivity. Qed.

Lemma read_only_get {S} : read_only (@get S).
Proof. intros s. reflexivity. Qed.

Lemma read_only_bind {S A B} (m : M S A) (k : A -> M S B) :
  read_only m -> (forall a, read_only (k a)) -> read_only (bind m k).
Proof.
  intros Hm Hk s. unfold bind. specialize (Hm s).
  destruct (m s) as [[a|e] s']; simpl in *; subst; [apply Hk|reflexivity].
Qed.

Lemma read_only_and_then {S} (a b : M S bool) :
  read_only a -> read_only b -> read_only (and_then a b).
Proof.
  intros Ha Hb. apply read_only_bind; [exact Ha|].
  intros [|]; [exact Hb|apply read_only_ret].
Qed.

Lemma read_only_for_fold {S A B} (xs : list A) (body : A -> B -> M S B) :
  (forall x acc, read_only (body x acc)) ->
  forall acc, read_only (for_fold xs body acc).
Proof.
  intros Hb. induction xs as [|x xs IH]; intros acc; simpl.
  - apply read_only_ret.
  - apply read_only_bind; [apply Hb|exact IH].
Qed.

(** A read-only method is determined by the value it computes. *)
Lemma read_only_run {S A} (m : M S A) (s : S) :
  read_only m -> m s = (fst (m s), s).
Proof. intros H. specialize (H s). destruct (m s); simpl in *. now subst. Qed.

End StateFacts.

Create HintDb read_only.

#[export] Hint Resolve StateFacts.read_only_ret StateFacts.read_only_lift
  StateFacts.read_only_get StateFacts.read_only_bind
  StateFacts.read_only_and_then StateFacts.read_only_for_fold : read_only.

(** ** The scan over a processed series *)

Module ScanFacts.
Import Py State Series PyFacts StateFacts.
Local Open Scope method_scope.

Lemma read_only_item (i : Z) (key : string) : read_only (item i key).
Proof. unfold item. auto with read_only. Qed.

Lemma read_only_item_lt (i j : Z) (key : string) : read_only (item_lt i j key).
Proof. unfold item_lt. auto using read_only_item with read_only. Qed.

Lemma read_only_item_gt (i j : Z) (key : string) : read_only (item_gt i j key).
Proof. unfold item_gt. auto using read_only_item with read_only. Qed.

Lemma read_only_support_condition (i : Z) : read_only (support_condition i).
Proof.
  unfold support_condition. auto using read_only_item_lt with read_only.
Qed.

Lemma read_only_resistance_condition (i : Z) :
  read_only (resistance_condition i).
Proof.
  unfold resistance_condition. auto using read_only_item_gt with read_only.
Qed.

Lemma read_only_scan (condition : Z -> M batch bool) (key : string) :
  (forall i, read_only (condition i)) -> read_only (scan condition key).
Proof.
  intros Hc. unfold scan. apply read_only_bind; [apply read_only_get|].
  intros s. apply read_only_for_fold. intros i acc.
  apply read_only_bind; [apply Hc|].
  intros [|]; auto 6 using read_only_item with read_only.
Qed.

Lemma read_only_scan_support_levels (global_only : bool) :
  read_only (scan_support_levels global_only).
Proof.
  unfold scan_support_levels. apply read_only_bind.
  - apply read_only_scan, read_only_support_condition.
  - intros l. destruct global_only; [destruct l|]; auto with read_only.
Qed.

Lemma read_only_scan_resistance_levels (global_only : bool) :
  read_only (scan_resistance_levels global_only).
Proof.
  unfold scan_resistance_levels. apply read_only_bind.
  - apply read_only_scan, read_only_resistance_condition.
  - intros l. destruct global_only; [destruct l|]; auto with read_only.
Qed.

(** A series of fewer than five points gives the loop nothing to visit. *)
Lemma scan_short (condition : Z -> M batch bool) (key : string) (s : batch) :
  (length s < 5)%nat -> scan condition key s = (Ok [], s).
Proof.
  intros H. unfold scan, bind, get.
  rewrite range_empty by lia. reflexivity.
Qed.

(** *** Items of a series of price points *)

Section OnSeries.
Variable s : batch.
Hypothesis Hs : series s = true.

Lemma series_entry (i : Z) :
  0 <= i < Z.of_nat (length s) ->
  exists e, nth_error s (Z.to_nat i) = Some e /\ list_getitem s i = Ok e
            /\ price_point e = true.
Proof.
  intros Hi. destruct (list_getitem_nth_error s i Hi) as (e & Hn & Hg).
  exists e. repeat split; trivial.
  unfold series in Hs. rewrite forallb_forall in Hs.
  apply Hs. eapply nth_error_In; eassumption.
Qed.

Lemma column_at {A} (f : dict -> A) (d : A) (i : Z) (e : dict) :
  nth_error s (Z.to_nat i) = Some e -> nth (Z.to_nat i) (map f s) d = f e.
Proof.
  intros Hn. apply nth_error_nth. now apply map_nth_error.
Qed.

Lemma item_low (i : Z) :
  0 <= i < Z.of_nat (length s) ->
  item i "low" s = (Ok (VFloat (price_at (lows s) i)), s).
Proof.
  intros Hi. destruct (series_entry i Hi) as (e & Hn & Hg & Hp).
  unfold item, bind, get, lift. rewrite Hg.
  unfold price_at, lows. rewrite (column_at low_of _ i e Hn).
  unfold price_point in Hp. unfold low_of.
  destruct (dict_getitem e "low") as [[| | |f]|]; try discriminate Hp.
  reflexivity.
Qed.

Lemma item_high (i : Z) :
  0 <= i < Z.of_nat (length s) ->
  item i "high" s = (Ok (VFloat (price_at (highs s) i)), s).
Proof.
  intros Hi. destruct (series_entry i Hi) as (e & Hn & Hg & Hp).
  unfold item, bind, get, lift. rewrite Hg.
  unfold price_at, highs. rewrite (column_at high_of _ i e Hn).
  unfold price_point in Hp. unfold high_of.
  destruct (dict_getitem e "low") as [[| | |f]|]; try discriminate Hp.
  destruct (dict_getitem e "high") as [[| | |g]|]; try discriminate Hp.
  reflexivity.
Qed.

Lemma item_datetime (i : Z) :
  0 <= i < Z.of_nat (length s) ->
  item i "datetime" s = (Ok (VStr (timestamp_at (timestamps s) i)), s).
Proof.
  intros Hi. destruct (series_entry i Hi) as (e & Hn & Hg & Hp).
  unfold item, bind, get, lift. rewrite Hg.
  unfold timestamp_at, timestamps. rewrite (column_at timestamp_of _ i e Hn).
  unfold price_point in Hp. unfold timestamp_of.
  destruct (dict_getitem e "low") as [[| | |f]|]; try discriminate Hp.
  destruct (dict_getitem e "high") as [[| | |g]|]; try discriminate Hp.
  destruct (dict_getitem e "datetime") as [[|t| |]|]; try discriminate Hp.
  reflexivity.
Qed.

Lemma item_lt_low (i j : Z) :
  0 <= i < Z.of_nat (length s) -> 0 <= j < Z.of_nat (length s) ->
  item_lt i j "low" s
  = (Ok (price_at (lows s) i <? price_at (lows s) j)%float, s).
Proof.
  intros Hi Hj. unfold item_lt, bind.
  rewrite (item_low i Hi), (item_low j Hj). reflexivity.
Qed.

Lemma item_gt_high (i j : Z) :
  0 <= i < Z.of_nat (length s) -> 0 <= j < Z.of_nat (length s) ->
  item_gt i j "high" s
  = (Ok (price_at (highs s) j <? price_at (highs s) i)%float, s).
Proof.
  intros Hi Hj. unfold item_gt, bind.
  rewrite (item_high i Hi), (item_high j Hj). reflexivity.
Qed.

Lemma length_lows : length (lows s) = length s.
Proof. apply length_map. Qed.

Lemma length_highs : length (highs s) = length s.
Proof. apply length_map. Qed.

(** On the indices the loop visits, the condition of the code computes
    the rule of the specification. *)
Lemma support_condition_rule (i : Z) :
  2 <= i <= Z.of_nat (length s) - 3 ->
  support_condition i s = (Ok (is_support (lows s) i), s).
Proof.
  intros Hi. unfold support_condition, and_then, bind, is_support.
  rewrite length_lows.
  rewrite !item_lt_low by lia.
  replace (2 <=? i) with true by lia.
  replace (i <=? Z.of_nat (length s) - 3) with true by lia. simpl.
  destruct (price_at (lows s) i <? price_at (lows s) (i - 1))%float;
    simpl; [|now rewrite andb_false_r].
  rewrite !item_lt_low by lia. rewrite andb_true_r.
  destruct (price_at (lows s) i <? price_at (lows s) (i - 2))%float;
    simpl; [|reflexivity].
  rewrite !item_lt_low by lia.
  destruct (price_at (lows s) i <? price_at (lows s) (i + 1))%float;
    simpl; [|reflexivity].
  rewrite !item_lt_low by lia. reflexivity.
Qed.

Lemma resistance_condition_rule (i : Z) :
  2 <= i <= Z.of_nat (length s) - 3 ->
  resistance_condition i s = (Ok (is_resistance (highs s) i), s).
Proof.
  intros Hi. unfold resistance_condition, and_then, bind, is_resistance.
  rewrite length_highs.
  rewrite !item_gt_high by lia.
  replace (2 <=? i) with true by lia.
  replace (i <=? Z.of_nat (length s) - 3) with true by lia. simpl.
  destruct (price_at (highs s) (i - 1) <? price_at (highs s) i)%float;
    simpl; [|now rewrite andb_false_r].
  rewrite !item_gt_high by lia. rewrite andb_true_r.
  destruct (price_at (highs s) (i - 2) <? price_at (highs s) i)%float;
    simpl; [|reflexivity].
  rewrite !item_gt_high by lia.
  destruct (price_at (highs s) (i + 1) <? price_at (highs s) i)%float;
    simpl; [|reflexivity].
  rewrite !item_gt_high by lia. reflexivity.
Qed.

(** The loop appends the level of every index that passes the rule. *)
Lemma scan_loop (condition : Z -> M batch bool) (key : string)
    (rule : Z -> bool) (prices : list float) (xs : list Z) :
  (forall i, In i xs -> 2 <= i <= Z.of_nat (length s) - 3) ->
  (forall i, In i xs -> condition i s = (Ok (rule i), s)) ->
  (forall i, In i xs ->
             item i key s = (Ok (VFloat (price_at prices i)), s)) ->
  forall acc,
    for_fold xs
      (fun i levels =>
         c <- condition i ;;
         if c then
           price <- item i key ;;
           datetime <- item i "datetime" ;;
           ret (levels ++ [[price; datetime]])%list
         else ret levels) acc s
    = (Ok (acc ++ map (level prices (timestamps s)) (filter rule xs))%list, s).
Proof.
  intros Hin Hc Hk. induction xs as [|i xs IH]; intros acc; simpl.
  - now rewrite app_nil_r.
  - unfold bind at 1. unfold bind at 1.
    rewrite (Hc i (or_introl eq_refl)).
    assert (IH' := fun a => IH (fun j Hj => Hin j (or_intror Hj))
                              (fun j Hj => Hc j (or_intror Hj))
                              (fun j Hj => Hk j (or_intror Hj)) a).
    destruct (rule i).
    + unfold bind at 1. rewrite (Hk i (or_introl eq_refl)).
      unfold bind at 1. rewrite item_datetime
        by (specialize (Hin i (or_introl eq_refl)); lia).
      unfold ret at 1. rewrite IH'. simpl.
      now rewrite <- app_assoc.
    + unfold ret at 1. apply IH'.
Qed.

Lemma scan_support_series :
  scan support_condition "low" s = (Ok (support_levels s), s).
Proof.
  unfold scan. unfold bind at 1, get at 1.
  rewrite (scan_loop support_condition "low" (is_support (lows s)) (lows s)).
  - simpl. unfold support_levels, support_points. do 3 f_equal.
    symmetry. apply filter_range_within; try lia.
    intros i Hi. unfold is_support in Hi. rewrite length_lows in Hi. lia.
  - intros i Hi. apply in_range in Hi. lia.
  - intros i Hi. apply in_range in Hi. apply support_condition_rule. lia.
  - intros i Hi. apply in_range in Hi. apply item_low. lia.
Qed.

Lemma scan_resistance_series :
  scan resistance_condition "high" s = (Ok (resistance_levels s), s).
Proof.
  unfold scan. unfold bind at 1, get at 1.
  rewrite (scan_loop resistance_condition "high" (is_resistance (highs s))
             (highs s)).
  - simpl. unfold resistance_levels, resistance_points. do 3 f_equal.
    symmetry. apply filter_range_within; try lia.
    intros i Hi. unfold is_resistance in Hi. rewrite length_highs in Hi. lia.
  - intros i Hi. apply in_range in Hi. lia.
  - intros i Hi. apply in_range in Hi. apply resistance_condition_rule. lia.
  - intros i Hi. apply in_range in Hi. apply item_high. lia.
Qed.

End OnSeries.

End ScanFacts.

(** ** Facts about the order of floats and of text *)

Module OrderFacts.
Import Py Rank.

Lemma SFcompare_rank (x y : spec_float) :
  SFcompare x y
  = if is_nan x || is_nan y then None else Some (lex (rank x) (rank y)).
Proof.
  destruct x as [sx|sx| |sx mx ex], y as [sy|sy| |sy my ey];
    try destruct sx; try destruct sy; simpl; try reflexivity.
  rewrite Z.compare_opp, (Z.compare_antisym ex ey).
  destruct (ex ?= ey); reflexivity.
Qed.

Lemma lex_Lt (t u : Z * Z * Z) : lex t u = Lt <-> lex_lt t u.
Proof.
  destruct t as [[a b] c], u as [[a' b'] c']. unfold lex, lex_lt.
  destruct (Z.compare_spec a a'), (Z.compare_spec b b'),
    (Z.compare_spec c c'); split; intros Hyp; try discriminate;
    try reflexivity; lia.
Qed.

Lemma lex_Gt (t u : Z * Z * Z) : lex t u = Gt <-> lex_lt u t.
Proof.
  destruct t as [[a b] c], u as [[a' b'] c']. unfold lex, lex_lt.
  destruct (Z.compare_spec a a'), (Z.compare_spec b b'),
    (Z.compare_spec c c'); split; intros Hyp; try discriminate;
    try reflexivity; lia.
Qed.

Lemma lex_Eq (t u : Z * Z * Z) : lex t u = Eq <-> t = u.
Proof.
  destruct t as [[a b] c], u as [[a' b'] c']. unfold lex.
  destruct (Z.compare_spec a a'), (Z.compare_spec b b'),
    (Z.compare_spec c c'); split; intros Hyp; try discriminate;
    try reflexivity; try (injection Hyp; lia); subst; reflexivity.
Qed.

Lemma lex_lt_trans (t u v : Z * Z * Z) : lex_lt t u -> lex_lt u v -> lex_lt t v.
Proof.
  destruct t as [[a b] c], u as [[a' b'] c'], v as [[a'' b''] c''].
  unfold lex_lt. lia.
Qed.

Lemma lex_lt_irrefl (t : Z * Z * Z) : ~ lex_lt t t.
Proof. destruct t as [[a b] c]. unfold lex_lt. lia. Qed.

Lemma lex_lt_total (t u : Z * Z * Z) : lex_lt t u \/ t = u \/ lex_lt u t.
Proof.
  destruct t as [[a b] c], u as [[a' b'] c']. unfold lex_lt.
  destruct (Z.lt_total a a') as [|[|]], (Z.lt_total b b') as [|[|]],
    (Z.lt_total c c') as [|[|]]; subst; auto; lia.
Qed.

(** *** Floats *)

Lemma ltb_iff (x y : float) :
  PrimFloat.ltb x y = true
  <-> not_nan x /\ not_nan y /\ lex_lt (frank x) (frank y).
Proof.
  rewrite ltb_spec. unfold SFltb, not_nan, frank. rewrite SFcompare_rank.
  destruct (is_nan (Prim2SF x)), (is_nan (Prim2SF y)); simpl;
    try (split; [discriminate|intros (? & ? & ?); discriminate]).
  rewrite <- lex_Lt.
  destruct (lex (rank (Prim2SF x)) (rank (Prim2SF y)));
    split; try discriminate; auto; intros (_ & _ & H); discriminate.
Qed.

Lemma eqb_iff (x y : float) :
  PrimFloat.eqb x y = true
  <-> not_nan x /\ not_nan y /\ frank x = frank y.
Proof.
  rewrite eqb_spec. unfold SFeqb, not_nan, frank. rewrite SFcompare_rank.
  destruct (is_nan (Prim2SF x)), (is_nan (Prim2SF y)); simpl;
    try (split; [discriminate|intros (? & ? & ?); discriminate]).
  rewrite <- lex_Eq.
  destruct (lex (rank (Prim2SF x)) (rank (Prim2SF y)));
    split; try discriminate; auto; intros (_ & _ & H); discriminate.
Qed.

Lemma leb_iff (x y : float) :
  PrimFloat.leb x y = true
  <-> not_nan x /\ not_nan y
      /\ (lex_lt (frank x) (frank y) \/ frank x = frank y).
Proof.
  rewrite leb_spec. unfold SFleb, not_nan, frank. rewrite SFcompare_rank.
  destruct (is_nan (Prim2SF x)), (is_nan (Prim2SF y)); simpl;
    try (split; [discriminate|intros (? & ? & ?); discriminate]).
  rewrite <- lex_Lt, <- lex_Eq.
  destruct (lex (rank (Prim2SF x)) (rank (Prim2SF y)));
    split; try discriminate; auto; intros (_ & _ & [H|H]); discriminate.
Qed.

Lemma ltb_asym (x y : float) :
  PrimFloat.ltb x y = true -> PrimFloat.ltb y x = true -> False.
Proof.
  rewrite !ltb_iff. intros (_ & _ & H1) (_ & _ & H2).
  exact (lex_lt_irrefl _ (lex_lt_trans _ _ _ H1 H2)).
Qed.

(** *** Text *)

Lemma ascii_compare_Lt (a b : ascii) :
  Ascii.compare a b = Lt <-> (N_of_ascii a < N_of_ascii b)%N.
Proof. unfold Ascii.compare. apply N.compare_lt_iff. Qed.

Lemma ascii_compare_Eq (a b : ascii) : Ascii.compare a b = Eq <-> a = b.
Proof.
  split; [apply Ascii.compare_eq_iff|].
  intros ->. unfold Ascii.compare. apply N.compare_refl.
Qed.

Lemma string_compare_refl (s : string) : String.compare s s = Eq.
Proof.
  induction s as [|a s IH]; simpl; [reflexivity|].
  now rewrite (proj2 (ascii_compare_Eq a a) eq_refl).
Qed.

Lemma string_compare_Eq (s t : string) : String.compare s t = Eq <-> s = t.
Proof.
  split; [apply String.compare_eq_iff|]. intros ->. apply string_compare_refl.
Qed.

Lemma string_compare_trans (s t u : string) :
  String.compare s t = Lt -> String.compare t u = Lt ->
  String.compare s u = Lt.
Proof.
  revert t u. induction s as [|a s IH]; intros [|b t] [|c u]; simpl;
    try discriminate; try reflexivity.
  destruct (Ascii.compare a b) eqn:Eab; try discriminate;
    destruct (Ascii.compare b c) eqn:Ebc; try discriminate; intros H1 H2.
  - apply ascii_compare_Eq in Eab, Ebc. subst.
    rewrite (proj2 (ascii_compare_Eq c c) eq_refl). eapply IH; eassumption.
  - apply ascii_compare_Eq in Eab. subst. now rewrite Ebc.
  - apply ascii_compare_Eq in Ebc. subst. now rewrite Eab.
  - apply ascii_compare_Lt in Eab, Ebc.
    assert (E : Ascii.compare a c = Lt) by (apply ascii_compare_Lt; eapply N.lt_trans; eassumption).
    now rewrite E.
Qed.

Lemma string_compare_Gt (s t : string) :
  String.compare s t = Gt <-> String.compare t s = Lt.
Proof.
  rewrite (String.compare_antisym t s).
  destruct (String.compare s t); simpl; split; congruence.
Qed.

Lemma string_ltb_asym (s t : string) :
  String.ltb s t = true -> String.ltb t s = true -> False.
Proof.
  unfold String.ltb. rewrite (String.compare_antisym t s).
  destruct (String.compare s t); simpl; discriminate.
Qed.

(** *** Values: [<] and [>] never hold both ways *)

Lemma lt_asym (a b : value) : lt a b = Ok true -> lt b a = Ok true -> False.
Proof.
  destruct a as [|s|x|x], b as [|t|y|y]; simpl; try discriminate;
    intros H1 H2; injection H1 as H1; injection H2 as H2.
  - eapply string_ltb_asym; eassumption.
  - lia.
  - destruct (Z_SF_compare x (Prim2SF y)) as [[| |]|]; discriminate.
  - destruct (Z_SF_compare y (Prim2SF x)) as [[| |]|]; discriminate.
  - eapply ltb_asym; eassumption.
Qed.

Lemma gt_lt (a b : value) : gt a b = lt b a.
Proof. destruct a, b; reflexivity. Qed.

End OrderFacts.

(** ** The order of levels, and [min] and [max] over them *)

Module LevelFacts.
Import Py Rank OrderFacts.

Lemma before_trans (l m n : float * string) :
  before l m -> before m n -> before l n.
Proof.
  unfold before. intros [H1|[E1 H1]] [H2|[E2 H2]].
  - left. eapply lex_lt_trans; eassumption.
  - left. now rewrite <- E2.
  - left. now rewrite E1.
  - right. split; [congruence|]. eapply string_compare_trans; eassumption.
Qed.

Lemma before_irrefl (l : float * string) : ~ before l l.
Proof.
  unfold before. intros [H|[_ H]].
  - exact (lex_lt_irrefl _ H).
  - rewrite string_compare_refl in H. discriminate.
Qed.

(** When [l] is before [n], any [m] is after [l] or before [n]. *)
Lemma before_between (l m n : float * string) :
  before l n -> before l m \/ before m n.
Proof.
  unfold before. intros H.
  destruct (lex_lt_total (frank (fst l)) (frank (fst m))) as [Hlm|[Hlm|Hlm]].
  - left. now left.
  - destruct (String.compare (snd l) (snd m)) eqn:Hc.
    + apply string_compare_Eq in Hc. right. rewrite <- Hlm, <- Hc. exact H.
    + left. right. now split.
    + apply string_compare_Gt in Hc. right. destruct H as [H|[E H]].
      * left. now rewrite <- Hlm.
      * right. split; [congruence|]. eapply string_compare_trans; eassumption.
  - right. left. destruct H as [H|[E H]].
    + eapply lex_lt_trans; eassumption.
    + now rewrite <- E.
Qed.

Lemma string_ltb_Lt (s t : string) :
  String.ltb s t = true <-> String.compare s t = Lt.
Proof.
  unfold String.ltb. destruct (String.compare s t); split; congruence.
Qed.

Lemma list_lt_level (l m : float * string) :
  not_nan (fst l) -> not_nan (fst m) ->
  exists b, list_lt (as_level l) (as_level m) = Ok b /\ (b = true <-> before l m).
Proof.
  destruct l as [p d], m as [q t]. unfold as_level, before. simpl.
  intros Hp Hq.
  destruct (PrimFloat.eqb p q) eqn:E.
  - apply eqb_iff in E. destruct E as (_ & _ & E).
    destruct (String.eqb d t) eqn:Edt.
    + apply String.eqb_eq in Edt. subst t. exists false. split; [reflexivity|].
      split; [discriminate|]. intros [H|[_ H]].
      * rewrite E in H. destruct (lex_lt_irrefl _ H).
      * rewrite string_compare_refl in H. discriminate.
    + exists (String.ltb d t). split; [reflexivity|].
      rewrite string_ltb_Lt. split; [now right|].
      intros [H|[_ H]]; [|exact H].
      rewrite E in H. destruct (lex_lt_irrefl _ H).
  - exists (PrimFloat.ltb p q). split; [reflexivity|].
    rewrite ltb_iff. split.
    + intros (_ & _ & H). now left.
    + intros [H|[H _]]; [now repeat split|].
      assert (PrimFloat.eqb p q = true) by (apply eqb_iff; now repeat split).
      congruence.
Qed.

Lemma list_gt_level (l m : float * string) :
  not_nan (fst l) -> not_nan (fst m) ->
  exists b, list_gt (as_level l) (as_level m) = Ok b /\ (b = true <-> before m l).
Proof.
  destruct l as [p d], m as [q t]. unfold as_level, before. simpl.
  intros Hp Hq.
  destruct (PrimFloat.eqb p q) eqn:E.
  - apply eqb_iff in E. destruct E as (_ & _ & E).
    destruct (String.eqb d t) eqn:Edt.
    + apply String.eqb_eq in Edt. subst t. exists false. split; [reflexivity|].
      split; [discriminate|]. intros [H|[_ H]].
      * rewrite E in H. destruct (lex_lt_irrefl _ H).
      * rewrite string_compare_refl in H. discriminate.
    + exists (String.ltb t d). split; [reflexivity|].
      rewrite string_ltb_Lt. split; [now right|].
      intros [H|[_ H]]; [|exact H].
      rewrite E in H. destruct (lex_lt_irrefl _ H).
  - exists (PrimFloat.ltb q p). split; [reflexivity|].
    rewrite ltb_iff. split.
    + intros (_ & _ & H). now left.
    + intros [H|[H _]]; [now repeat split|].
      assert (PrimFloat.eqb p q = true) by (apply eqb_iff; now repeat split).
      congruence.
Qed.

(** The shared loop of [min] and [max] returns an item that no item of
    the list beats, when [op] decides a strict order that is total up to
    equivalence. *)
Section MinMax.
Variable op : list value -> list value -> result bool.
Variable R : float * string -> float * string -> Prop.
Hypothesis op_R : forall l m,
  not_nan (fst l) -> not_nan (fst m) ->
  exists b, op (as_level l) (as_level m) = Ok b /\ (b = true <-> R l m).
Hypothesis R_trans : forall l m n, R l m -> R m n -> R l n.
Hypothesis R_irrefl : forall l, ~ R l l.
Hypothesis R_between : forall l m n, R l n -> R l m \/ R m n.

Lemma min_max_from_best (items : list (float * string)) :
  forall best,
    (forall x, In x (best :: items) -> not_nan (fst x)) ->
    exists m,
      min_max_from op (as_level best) (map as_level items) = Ok (as_level m)
      /\ In m (best :: items)
      /\ forall l, In l (best :: items) -> ~ R l m.
Proof.
  induction items as [|item items IH]; intros best Hn.
  - exists best. simpl. repeat split; auto.
    intros l [<-|[]]. apply R_irrefl.
  - simpl.
    destruct (op_R item best) as (b & Hop & Hb);
      [apply Hn; simpl; auto|apply Hn; simpl; auto|].
    rewrite Hop. destruct b.
    + destruct (IH item) as (m & Hm & Hin & Hmin).
      { intros x Hx. apply Hn. now right. }
      exists m. split; [exact Hm|]. split; [now right|].
      intros l [<-|Hl]; [|now apply Hmin].
      intros Hbm. apply (Hmin item (or_introl eq_refl)).
      eapply R_trans; [apply Hb; reflexivity|exact Hbm].
    + destruct (IH best) as (m & Hm & Hin & Hmin).
      { intros x [<-|Hx]; apply Hn; simpl; auto. }
      exists m. split; [exact Hm|]. split.
      { destruct Hin as [<-|Hin]; simpl; auto. }
      intros l [<-|[<-|Hl]].
      * apply Hmin. now left.
      * intros Him. destruct (R_between item best m Him) as [H|H].
        -- apply Hb in H. discriminate.
        -- exact (Hmin best (or_introl eq_refl) H).
      * apply Hmin. now right.
Qed.

End MinMax.

Lemma min_levels (first : float * string) (items : list (float * string)) :
  (forall x, In x (first :: items) -> not_nan (fst x)) ->
  exists m, min (map as_level (first :: items)) = Ok (as_level m)
            /\ In m (first :: items)
            /\ forall l, In l (first :: items) -> ~ before l m.
Proof.
  intros Hn. simpl. unfold min, min_max.
  apply (min_max_from_best list_lt before list_lt_level before_trans
           before_irrefl before_between items first Hn).
Qed.

Lemma max_levels (first : float * string) (items : list (float * string)) :
  (forall x, In x (first :: items) -> not_nan (fst x)) ->
  exists m, max (map as_level (first :: items)) = Ok (as_level m)
            /\ In m (first :: items)
            /\ forall l, In l (first :: items) -> ~ before m l.
Proof.
  intros Hn. simpl. unfold max, min_max.
  apply (min_max_from_best list_gt (fun l m => before m l) list_gt_level).
  - intros l m n H1 H2. eapply before_trans; eassumption.
  - intros l. apply before_irrefl.
  - intros l m n H. destruct (before_between n m l H); auto.
  - exact Hn.
Qed.

(** What "no level is before [m]" says in terms of prices and
    timestamps. *)
Lemma not_before_le (l m : float * string) :
  not_nan (fst l) -> not_nan (fst m) -> ~ before l m ->
  PrimFloat.leb (fst m) (fst l) = true
  /\ (PrimFloat.eqb (fst m) (fst l) = true ->
      String.leb (snd m) (snd l) = true).
Proof.
  intros Hl Hm Hb. unfold before in Hb. split.
  - apply leb_iff. repeat split; trivial.
    destruct (lex_lt_total (frank (fst l)) (frank (fst m))) as [H|[H|H]];
      auto. destruct Hb. now left.
  - intros E. apply eqb_iff in E. destruct E as (_ & _ & E).
    unfold String.leb. destruct (String.compare (snd m) (snd l)) eqn:Hc;
      trivial. apply string_compare_Gt in Hc. destruct Hb. right. now split.
Qed.

End LevelFacts.

(** ** Global-only mode on a series, and the spacing of flagged indices *)

Module GlobalFacts.
Import Py State Series Rank PyFacts StateFacts ScanFacts OrderFacts LevelFacts.
Local Open Scope method_scope.

Lemma levels_as_level (prices : list float) (ts : list string) (l : list Z) :
  map (level prices ts) l
  = map as_level (map (fun i => (price_at prices i, timestamp_at ts i)) l).
Proof. now rewrite map_map. Qed.

Lemma support_not_nan (low : list float) (i : Z) :
  is_support low i = true -> not_nan (price_at low i).
Proof.
  unfold is_support. rewrite !andb_true_iff.
  intros (((((_ & _) & H) & _) & _) & _). now apply ltb_iff in H.
Qed.

Lemma resistance_not_nan (high : list float) (i : Z) :
  is_resistance high i = true -> not_nan (price_at high i).
Proof.
  unfold is_resistance. rewrite !andb_true_iff.
  intros (((((_ & _) & H) & _) & _) & _). now apply ltb_iff in H.
Qed.

Lemma levels_not_nan (rule : Z -> bool) (prices : list float)
    (ts : list string) (l : list Z) :
  (forall i, rule i = true -> not_nan (price_at prices i)) ->
  forall x,
    In x (map (fun i => (price_at prices i, timestamp_at ts i))
            (filter rule l)) ->
    not_nan (fst x).
Proof.
  intros Hr x Hx. apply in_map_iff in Hx. destruct Hx as (i & <- & Hi).
  apply filter_In in Hi. simpl. apply Hr, Hi.
Qed.

(** In global-only mode the scan of a series returns [None] when nothing
    qualifies, and otherwise one qualifying level that no qualifying
    level comes before. *)
Lemma scan_support_global (s : batch) :
  series s = true ->
  match support_levels s with
  | [] => scan_support_levels true s = (Ok NoLevel, s)
  | _ :: _ =>
      exists m, scan_support_levels true s = (Ok (Level (as_level m)), s)
                /\ In (as_level m) (support_levels s)
                /\ not_nan (fst m)
                /\ forall l, In (as_level l) (support_levels s) ->
                             not_nan (fst l) /\ ~ before l m
  end.
Proof.
  intros Hs. unfold scan_support_levels, bind.
  rewrite (scan_support_series s Hs).
  unfold support_levels. rewrite levels_as_level.
  assert (Hn := levels_not_nan (is_support (lows s)) (lows s) (timestamps s)
                  (range 0 (Z.of_nat (length s)))
                  (support_not_nan (lows s))).
  fold (support_points s) in Hn.
  destruct (map _ (support_points s)) as [|first items]; [reflexivity|].
  destruct (min_levels first items Hn) as (m & Hm & Hin & Hmin).
  exists m. change (map as_level (first :: items))
    with (as_level first :: map as_level items) in Hm |- *.
  cbv beta iota. unfold lift. rewrite Hm. split; [reflexivity|].
  split; [now apply (in_map as_level) in Hin|]. split; [now apply Hn|].
  intros l Hl. change (In (as_level l) (map as_level (first :: items))) in Hl.
  apply in_map_iff in Hl. destruct Hl as (l' & E & Hl').
  assert (l' = l) as ->.
  { destruct l, l'. unfold as_level in E. simpl in E. congruence. }
  split; [now apply Hn|now apply Hmin].
Qed.

Lemma scan_resistance_global (s : batch) :
  series s = true ->
  match resistance_levels s with
  | [] => scan_resistance_levels true s = (Ok NoLevel, s)
  | _ :: _ =>
      exists m, scan_resistance_levels true s = (Ok (Level (as_level m)), s)
                /\ In (as_level m) (resistance_levels s)
                /\ not_nan (fst m)
                /\ forall l, In (as_level l) (resistance_levels s) ->
                             not_nan (fst l) /\ ~ before m l
  end.
Proof.
  intros Hs. unfold scan_resistance_levels, bind.
  rewrite (scan_resistance_series s Hs).
  unfold resistance_levels. rewrite levels_as_level.
  assert (Hn := levels_not_nan (is_resistance (highs s)) (highs s)
                  (timestamps s) (range 0 (Z.of_nat (length s)))
                  (resistance_not_nan (highs s))).
  fold (resistance_points s) in Hn.
  destruct (map _ (resistance_points s)) as [|first items]; [reflexivity|].
  destruct (max_levels first items Hn) as (m & Hm & Hin & Hmax).
  exists m. change (map as_level (first :: items))
    with (as_level first :: map as_level items) in Hm |- *.
  cbv beta iota. unfold lift. rewrite Hm. split; [reflexivity|].
  split; [now apply (in_map as_level) in Hin|]. split; [now apply Hn|].
  intros l Hl. change (In (as_level l) (map as_level (first :: items))) in Hl.
  apply in_map_iff in Hl. destruct Hl as (l' & E & Hl').
  assert (l' = l) as ->.
  { destruct l, l'. unfold as_level in E. simpl in E. congruence. }
  split; [now apply Hn|now apply Hmax].
Qed.

(** *** Spacing *)

Lemma and_then_true (a b : M batch bool) (s : batch) :
  read_only a -> fst ((a and b) s) = Ok true ->
  fst (a s) = Ok true /\ fst (b s) = Ok true.
Proof.
  intros Ha. unfold and_then, bind. rewrite (read_only_run a s Ha).
  destruct (fst (a s)) as [[|]|e]; simpl; try discriminate. auto.
Qed.

Lemma four_apart (c : Z -> Z -> M batch bool) (s : batch) (i j : Z) :
  (forall a b, read_only (c a b)) ->
  (forall a b, fst (c a b s) = Ok true -> fst (c b a s) = Ok true -> False) ->
  fst (four c i s) = Ok true -> fst (four c j s) = Ok true ->
  i <> j -> 3 <= Z.abs (i - j).
Proof.
  intros Hro Hasym Hi Hj Hij. unfold four in Hi, Hj.
  apply and_then_true in Hi; [|apply Hro]. destruct Hi as (I1 & Hi).
  apply and_then_true in Hi; [|apply Hro]. destruct Hi as (I2 & Hi).
  apply and_then_true in Hi; [|apply Hro]. destruct Hi as (I3 & I4).
  apply and_then_true in Hj; [|apply Hro]. destruct Hj as (J1 & Hj).
  apply and_then_true in Hj; [|apply Hro]. destruct Hj as (J2 & Hj).
  apply and_then_true in Hj; [|apply Hro]. destruct Hj as (J3 & J4).
  assert (C : j = i + 1 \/ j = i + 2 \/ j = i - 1 \/ j = i - 2
              \/ 3 <= Z.abs (i - j)) by lia.
  destruct C as [->|[->|[->|[->|C]]]]; [exfalso..|exact C].
  - replace (i + 1 - 1) with i in J1 by lia. exact (Hasym _ _ I3 J1).
  - replace (i + 2 - 2) with i in J2 by lia. exact (Hasym _ _ I4 J2).
  - replace (i - 1 + 1) with i in J3 by lia. exact (Hasym _ _ I1 J3).
  - replace (i - 2 + 2) with i in J4 by lia. exact (Hasym _ _ I2 J4).
Qed.

Lemma item_lt_asym (key : string) (s : batch) (a b : Z) :
  fst (item_lt a b key s) = Ok true -> fst (item_lt b a key s) = Ok true ->
  False.
Proof.
  assert (Ea := read_only_run _ s (read_only_item a key)).
  assert (Eb := read_only_run _ s (read_only_item b key)).
  set (ra := fst (item a key s)) in *. set (rb := fst (item b key s)) in *.
  clearbody ra rb. unfold item_lt, bind. rewrite Ea, Eb.
  destruct ra as [x|e], rb as [y|e']; try rewrite Ea; try rewrite Eb; simpl;
    try discriminate.
  apply lt_asym.
Qed.

Lemma item_gt_asym (key : string) (s : batch) (a b : Z) :
  fst (item_gt a b key s) = Ok true -> fst (item_gt b a key s) = Ok true ->
  False.
Proof.
  assert (Ea := read_only_run _ s (read_only_item a key)).
  assert (Eb := read_only_run _ s (read_only_item b key)).
  set (ra := fst (item a key s)) in *. set (rb := fst (item b key s)) in *.
  clearbody ra rb. unfold item_gt, bind. rewrite Ea, Eb.
  destruct ra as [x|e], rb as [y|e']; try rewrite Ea; try rewrite Eb; simpl;
    try discriminate.
  rewrite !gt_lt. intros H1 H2. exact (lt_asym _ _ H2 H1).
Qed.

Lemma support_apart (s : batch) (i j : Z) :
  fst (support_condition i s) = Ok true ->
  fst (support_condition j s) = Ok true ->
  i <> j -> 3 <= Z.abs (i - j).
Proof.
  apply (four_apart (fun a b => item_lt a b "low")).
  - intros a b. apply read_only_item_lt.
  - apply item_lt_asym.
Qed.

Lemma resistance_apart (s : batch) (i j : Z) :
  fst (resistance_condition i s) = Ok true ->
  fst (resistance_condition j s) = Ok true ->
  i <> j -> 3 <= Z.abs (i - j).
Proof.
  apply (four_apart (fun a b => item_gt a b "high")).
  - intros a b. apply read_only_item_gt.
  - apply item_gt_asym.
Qed.

End GlobalFacts.

(** ** Facts about dicts *)

Module DictFacts.
Import Py.

Lemma distinct_NoDup (ks : list string) : distinct ks = true <-> NoDup ks.
Proof.
  induction ks as [|k ks IH]; simpl.
  - split; [constructor|reflexivity].
  - rewrite andb_true_iff, negb_true_iff, IH. split.
    + intros [Hk Hks]. constructor; [|exact Hks]. intros Hin.
      assert (existsb (String.eqb k) ks = true); [|congruence].
      apply existsb_exists. exists k. split; [exact Hin|apply String.eqb_refl].
    + intros H. inversion H as [|? ? Hk Hks]; subst. split; [|exact Hks].
      destruct (existsb (String.eqb k) ks) eqn:E; [|reflexivity].
      apply existsb_exists in E. destruct E as (k' & Hin & E).
      apply String.eqb_eq in E. subst k'. contradiction.
Qed.

Lemma getitem_setitem_same (d : dict) (k : string) (v : value) :
  dict_getitem (dict_setitem d k v) k = Ok v.
Proof.
  induction d as [|[k0 w] d IH]; simpl.
  - now rewrite String.eqb_refl.
  - destruct (String.eqb k0 k) eqn:E; simpl; rewrite E; [reflexivity|exact IH].
Qed.

Lemma getitem_setitem_other (d : dict) (k k' : string) (v : value) :
  k <> k' -> dict_getitem (dict_setitem d k v) k' = dict_getitem d k'.
Proof.
  intros Hk. induction d as [|[k0 w] d IH]; simpl.
  - apply String.eqb_neq in Hk. now rewrite Hk.
  - destruct (String.eqb k0 k) eqn:E; simpl.
    + apply String.eqb_eq in E. subst k0.
      apply String.eqb_neq in Hk. now rewrite Hk.
    + now rewrite IH.
Qed.

(** Assigning to a key that is in the dict changes the value in its
    place. *)
Lemma setitem_in_place (done rest : dict) (k : string) (v v' : value) :
  ~ In k (keys done) ->
  dict_setitem (done ++ (k, v) :: rest) k v' = (done ++ (k, v') :: rest)%list.
Proof.
  induction done as [|[k0 w] done IH]; simpl; intros Hk.
  - now rewrite String.eqb_refl.
  - destruct (String.eqb k0 k) eqn:E.
    + apply String.eqb_eq in E. subst k0. destruct Hk. now left.
    + rewrite IH; [reflexivity|]. intros H. apply Hk. now right.
Qed.

Lemma keys_setitem (d : dict) (k : string) (v : value) :
  keys (dict_setitem d k v)
  = if existsb (String.eqb k) (keys d) then keys d else (keys d ++ [k])%list.
Proof.
  induction d as [|[k0 w] d IH]; simpl; [reflexivity|].
  rewrite (String.eqb_sym k k0).
  destruct (String.eqb k0 k) eqn:E; simpl; [reflexivity|].
  rewrite IH. now destruct (existsb (String.eqb k) (keys d)).
Qed.

Lemma well_keyed_setitem (d : dict) (k : string) (v : value) :
  well_keyed d = true -> well_keyed (dict_setitem d k v) = true.
Proof.
  unfold well_keyed. rewrite keys_setitem.
  destruct (existsb (String.eqb k) (keys d)) eqn:E; [trivial|].
  rewrite !distinct_NoDup. intros H.
  apply NoDup_rev in H. rewrite <- (rev_involutive (keys d ++ [k])).
  apply NoDup_rev. rewrite rev_app_distr. simpl. constructor; [|exact H].
  rewrite <- in_rev. intros Hin.
  assert (existsb (String.eqb k) (keys d) = true); [|congruence].
  apply existsb_exists. exists k. split; [exact Hin|apply String.eqb_refl].
Qed.

Lemma values_setitem_all (P : value -> Prop) (d : dict) (k : string)
    (v : value) :
  P v -> (forall kv, In kv d -> P (snd kv)) ->
  forall kv, In kv (dict_setitem d k v) -> P (snd kv).
Proof.
  intros Hv. induction d as [|[k0 w] d IH]; simpl; intros Hd kv Hin.
  - destruct Hin as [<-|[]]. exact Hv.
  - destruct (String.eqb k0 k).
    + destruct Hin as [<-|Hin]; [exact Hv|]. apply Hd. now right.
    + destruct Hin as [<-|Hin]; [apply (Hd (k0, w)); now left|].
      apply IH; [|exact Hin]. intros x Hx. apply Hd. now right.
Qed.

End DictFacts.

(** ** The validation and the coercion of a batch *)

Module NormalizeFacts.
Import Py State PyFacts StateFacts DictFacts.
Local Open Scope method_scope.

Lemma float_of_int_not_ValueError (z : Z) :
  is_ValueError (float_of_int z) = false.
Proof. unfold float_of_int. now destruct (binary_normalize prec emax z 0 false). Qed.

Lemma has_empty_value_iff (e : dict) :
  has_empty_value e = true <-> exists v, In v (values e) /\ missing v.
Proof.
  unfold has_empty_value, missing. rewrite existsb_exists.
  split; intros (v & Hin & Hv); exists v; (split; [exact Hin|]).
  - apply orb_true_iff in Hv. destruct Hv as [Hv|Hv].
    + left. destruct v as [|s| |]; try discriminate Hv. simpl in Hv.
      apply String.eqb_eq in Hv. now subst.
    + right. now destruct v.
  - destruct Hv as [->| ->]; reflexivity.
Qed.

Lemma check_entries_cases (raw : batch) :
  (check_entries raw = Ok tt
   /\ forall e, In e raw -> has_empty_value e = false)
  \/ (check_entries raw = Raise (ValueError "Empty data found in the dataset.")
      /\ exists e, In e raw /\ has_empty_value e = true).
Proof.
  induction raw as [|e raw IH]; simpl.
  - left. split; [reflexivity|]. intros e [].
  - destruct (has_empty_value e) eqn:E.
    + right. split; [reflexivity|]. exists e. auto.
    + destruct IH as [[H1 H2]|[H1 (e' & Hin & H2)]].
      * left. split; [exact H1|]. intros x [<-|Hx]; auto.
      * right. split; [exact H1|]. exists e'. auto.
Qed.

Lemma coercible_entry_setitem (d : dict) (k t : string) :
  coercible_entry d = true ->
  coercible_entry (dict_setitem d k (VStr t)) = true.
Proof.
  unfold coercible_entry. induction d as [|[k0 w] d IH]; simpl.
  - intros _. now rewrite orb_true_r.
  - rewrite andb_true_iff. intros [H1 H2].
    destruct (String.eqb k0 k); simpl.
    + now rewrite H2, orb_true_r.
    + now rewrite H1, IH.
Qed.

Section WithParsers.
Variable float_of_str : string -> option float.
Variable int_of_str : string -> option Z.
Variable self : getStockTimeSeries.
Variable now : string.

Local Abbreviation convert_field := (convert_field float_of_str int_of_str).
Local Abbreviation convert_entry := (convert_entry float_of_str int_of_str).
Local Abbreviation normalize_field := (normalize_field float_of_str int_of_str).
Local Abbreviation normalize_entry := (normalize_entry float_of_str int_of_str).
Local Abbreviation normalize := (normalize float_of_str int_of_str).
Local Abbreviation coerced := (coerced float_of_str int_of_str).

(** One step of the loop over the fields: the field is normalized in its
    place, or the step raises something other than [ValueError] on a
    value that is not coercible. *)
Lemma convert_field_step (done rest : dict) (k : string) (v : value) :
  ~ In k (keys done) ->
  convert_field k v (done ++ (k, v) :: rest)
  = (Ok tt, (done ++ normalize_field (k, v) :: rest)%list)
  \/ (is_ok (fst (convert_field k v (done ++ (k, v) :: rest))) = false
      /\ is_ValueError (fst (convert_field k v (done ++ (k, v) :: rest)))
         = false
      /\ String.eqb k "datetime" || coercible v = false).
Proof.
  intros Hk. unfold convert_field, normalize_field. simpl fst. simpl snd.
  destruct (String.eqb k "datetime"); simpl; [now left|].
  unfold try_except_ValueError, bind, lift, setitem, ret, coerced.
  destruct v as [|s|z|f]; simpl.
  - right. auto.
  - destruct (float_of_str s) as [f|].
    + left. now rewrite setitem_in_place.
    + destruct (int_of_str s) as [z|]; left;
        [now rewrite setitem_in_place|reflexivity].
  - assert (Hz := float_of_int_not_ValueError z).
    destruct (float_of_int z) as [f|[]]; try discriminate Hz;
      try (right; auto; fail).
    left. now rewrite setitem_in_place.
  - left. now rewrite setitem_in_place.
Qed.

Lemma fst_normalize_field (kv : string * value) :
  fst (normalize_field kv) = fst kv.
Proof. unfold normalize_field. now destruct (String.eqb (fst kv) "datetime"). Qed.

Lemma keys_normalize (d : dict) : keys (map normalize_field d) = keys d.
Proof.
  unfold keys. rewrite map_map. apply map_ext, fst_normalize_field.
Qed.

(** The loop over the fields of one record. *)
Lemma convert_fields_run (items : dict) :
  forall done,
    NoDup (keys (done ++ items)) ->
    let r := for_each items (fun kv => convert_field (fst kv) (snd kv))
               (done ++ items) in
    r = (Ok tt, done ++ map normalize_field items)
    \/ (is_ok (fst r) = false /\ is_ValueError (fst r) = false
        /\ coercible_entry items = false).
Proof.
  induction items as [|[k v] items IH]; intros done Hnd r; subst r.
  - left. reflexivity.
  - unfold for_each. simpl for_fold. unfold bind. simpl fst. simpl snd.
    assert (Hk : ~ In k (keys done)).
    { unfold keys in *. rewrite map_app in Hnd. simpl in Hnd.
      apply NoDup_remove_2 in Hnd. intros H. apply Hnd, in_or_app. now left. }
    destruct (convert_field_step done items k v Hk) as [E|(E1 & E2 & E3)].
    + rewrite E.
      assert (Hnd' : NoDup (keys ((done ++ [normalize_field (k, v)]) ++ items))).
      { rewrite <- app_assoc. simpl. unfold keys in *.
        rewrite map_app in *. simpl in *.
        now rewrite fst_normalize_field. }
      specialize (IH _ Hnd'). cbv zeta in IH.
      rewrite <- app_assoc in IH. simpl app in IH. unfold for_each in IH.
      destruct IH as [IH|(I1 & I2 & I3)].
      * left. rewrite IH. now rewrite <- app_assoc.
      * right. split; [exact I1|]. split; [exact I2|].
        change (coercible_entry ((k, v) :: items))
          with ((String.eqb k "datetime" || coercible v)
                && coercible_entry items).
        rewrite I3. apply andb_false_r.
    + right.
      destruct (convert_field k v (done ++ (k, v) :: items)) as [[[]|e] d'];
        simpl in *; try discriminate.
      repeat split; trivial.
      change (coercible_entry ((k, v) :: items))
        with ((String.eqb k "datetime" || coercible v)
              && coercible_entry items).
      now rewrite E3.
Qed.

(** The body of the loop over the records. *)
Lemma convert_entry_run (e : dict) :
  well_keyed e = true ->
  let r := convert_entry self now e in
  r = (Ok tt, normalize_entry self now e)
  \/ (is_ok (fst r) = false /\ is_ValueError (fst r) = false
      /\ coercible_entry e = false).
Proof.
  intros Hwk r. subst r. unfold convert_entry, normalize_entry.
  unfold bind, setitem, get. fold (attach self now e).
  assert (Hnd : NoDup (keys ([] ++ attach self now e))).
  { apply distinct_NoDup. unfold attach. now do 2 apply well_keyed_setitem. }
  destruct (convert_fields_run (attach self now e) [] Hnd)
    as [E|(E1 & E2 & E3)]; simpl app in *.
  - left. exact E.
  - right. repeat split; trivial.
    destruct (coercible_entry e) eqn:Ec; [|reflexivity].
    assert (coercible_entry (attach self now e) = true); [|congruence].
    unfold attach. now do 2 apply coercible_entry_setitem.
Qed.

Lemma for_each_entry_run (raw : batch) :
  forallb well_keyed raw = true ->
  let r := for_each_entry (convert_entry self now) raw in
  r = (Ok tt, normalize self now raw)
  \/ (is_ok (fst r) = false /\ is_ValueError (fst r) = false
      /\ forallb coercible_entry raw = false).
Proof.
  induction raw as [|e raw IH]; simpl; intros Hwk.
  - now left.
  - apply andb_true_iff in Hwk. destruct Hwk as [He Hraw].
    destruct (convert_entry_run e He) as [E|(E1 & E2 & E3)].
    + rewrite E. destruct (IH Hraw) as [E'|(E1 & E2 & E3)]; cbv zeta in *.
      * left. now rewrite E'.
      * right. destruct (for_each_entry (convert_entry self now) raw)
          as [r raw']. simpl in *. repeat split; trivial.
        rewrite E3. apply andb_false_r.
    + right.
      destruct (convert_entry self now e) as [[[]|x] e']; simpl in *;
        try discriminate.
      repeat split; trivial. now rewrite E3.
Qed.

(** [_convert_prices_to_numeric] returns the list it was given, every
    record normalized, or raises something other than [ValueError]. *)
Lemma convert_run (raw : batch) :
  forallb well_keyed raw = true ->
  let r := _convert_prices_to_numeric float_of_str int_of_str self now raw in
  r = (Ok (normalize self now raw), normalize self now raw)
  \/ (is_ok (fst r) = false /\ is_ValueError (fst r) = false
      /\ forallb coercible_entry raw = false).
Proof.
  intros Hwk r. subst r. unfold _convert_prices_to_numeric, bind.
  destruct (for_each_entry_run raw Hwk) as [E|(E1 & E2 & E3)].
  - left. now rewrite E.
  - right.
    destruct (for_each_entry (convert_entry self now) raw) as [[[]|x] raw'];
      simpl in *; try discriminate. auto.
Qed.

(** The coercion never lets a [ValueError] out, whatever the dicts. *)
Lemma convert_field_no_ValueError (k : string) (v : value) (d : dict) :
  is_ValueError (fst (convert_field k v d)) = false.
Proof.
  unfold convert_field. destruct (negb (String.eqb k "datetime")); [|reflexivity].
  unfold try_except_ValueError, bind, lift, setitem, ret.
  destruct v as [|s|z|f]; simpl; try reflexivity.
  - destruct (float_of_str s); [reflexivity|].
    now destruct (int_of_str s).
  - assert (Hz := float_of_int_not_ValueError z).
    destruct (float_of_int z) as [f|[]]; try discriminate Hz; reflexivity.
Qed.

Lemma convert_fields_no_ValueError (items : dict) (d : dict) :
  is_ValueError
    (fst (for_each items (fun kv => convert_field (fst kv) (snd kv)) d))
  = false.
Proof.
  revert d. unfold for_each.
  induction items as [|[k v] items IH]; intros d; simpl; [reflexivity|].
  unfold bind. assert (H := convert_field_no_ValueError k v d).
  destruct (convert_field k v d) as [[[]|x] d']; simpl in *; [apply IH|exact H].
Qed.

Lemma convert_no_ValueError (raw : batch) :
  is_ValueError
    (fst (_convert_prices_to_numeric float_of_str int_of_str self now raw))
  = false.
Proof.
  unfold _convert_prices_to_numeric, bind.
  assert (H : is_ValueError
                (fst (for_each_entry (convert_entry self now) raw)) = false).
  { induction raw as [|e raw IH]; simpl; [reflexivity|].
    assert (He : is_ValueError (fst (convert_entry self now e)) = false).
    { unfold convert_entry, bind, setitem, get.
      apply convert_fields_no_ValueError. }
    destruct (convert_entry self now e) as [[[]|x] e']; simpl in *; [|exact He].
    now destruct (for_each_entry (convert_entry self now) raw). }
  destruct (for_each_entry (convert_entry self now) raw) as [[[]|x] raw'];
    simpl in *; [reflexivity|exact H].
Qed.

(** *** The fields of a normalized record *)

Lemma getitem_normalized (d : dict) (k : string) :
  dict_getitem (map normalize_field d) k
  = match dict_getitem d k with
    | Ok v => Ok (if String.eqb k "datetime" then v else coerced v)
    | Raise x => Raise x
    end.
Proof.
  induction d as [|[k0 w] d IH]; simpl; [reflexivity|].
  unfold normalize_field at 1. simpl fst. simpl snd.
  destruct (String.eqb k0 k) eqn:E.
  - apply String.eqb_eq in E. subst k0.
    destruct (String.eqb k "datetime"); simpl; now rewrite String.eqb_refl.
  - destruct (String.eqb k0 "datetime"); simpl; now rewrite E.
Qed.

Lemma getitem_attach (e : dict) (k : string) :
  k <> "execution_timestamp" -> k <> "ticker" ->
  dict_getitem (attach self now e) k = dict_getitem e k.
Proof.
  intros H1 H2. unfold attach.
  rewrite !getitem_setitem_other; auto.
Qed.

Lemma ticker_attached (e : dict) :
  dict_getitem (attach self now e) "ticker" = Ok (VStr (symbol self)).
Proof. unfold attach. apply getitem_setitem_same. Qed.

Lemma timestamp_attached (e : dict) :
  dict_getitem (attach self now e) "execution_timestamp" = Ok (VStr now).
Proof.
  unfold attach. rewrite getitem_setitem_other by discriminate.
  apply getitem_setitem_same.
Qed.

End WithParsers.
End NormalizeFacts.

(** ** From the fetched batch to the scan *)

Module PipelineFacts.
Import Py State Series PyFacts StateFacts DictFacts NormalizeFacts ScanFacts.

Section WithParsers.
Variable float_of_str : string -> option float.
Variable int_of_str : string -> option Z.
Variable self : getStockTimeSeries.
Variable now : string.

Local Abbreviation normalize_entry := (normalize_entry float_of_str int_of_str).
Local Abbreviation normalize := (normalize float_of_str int_of_str).
Local Abbreviation coerced := (coerced float_of_str int_of_str).
Local Abbreviation get_processed_data :=
  (get_processed_data float_of_str int_of_str).

Lemma find_levels_processed (scan_levels : M batch levels)
    (api : api_answer) (s : batch) :
  processed float_of_str int_of_str self now api s ->
  find_levels float_of_str int_of_str scan_levels self now api
  = fst (scan_levels s).
Proof.
  unfold processed, find_levels.
  destruct (get_processed_data self now api) as [[p|e] st]; simpl;
    [|discriminate].
  now intros [= ->].
Qed.

(** The three outcomes of [get_processed_data] on a fetched list: empty,
    a record with a missing value, or the validation passed and the
    coercion ran. *)
Lemma get_processed_data_cases (raw : batch) :
  (raw = []
   /\ get_processed_data self now (ApiData (Some raw))
      = (Raise (ValueError "No data fetched from the API."), Some raw))
  \/ (raw <> [] /\ (exists e, In e raw /\ has_empty_value e = true)
      /\ get_processed_data self now (ApiData (Some raw))
         = (Raise (ValueError "Empty data found in the dataset."), Some raw))
  \/ (raw <> [] /\ (forall e, In e raw -> has_empty_value e = false)
      /\ get_processed_data self now (ApiData (Some raw))
         = (fst (_convert_prices_to_numeric float_of_str int_of_str self now
                   raw),
            Some (snd (_convert_prices_to_numeric float_of_str int_of_str
                         self now raw)))).
Proof.
  destruct raw as [|e raw']; [left; split; reflexivity|right].
  assert (Hne : e :: raw' <> []) by discriminate.
  assert (Hlen : (Z.of_nat (length (e :: raw')) =? 0) = false)
    by (apply Z.eqb_neq; simpl length; lia).
  revert Hne Hlen. generalize (e :: raw'). clear e raw'. intros raw Hne Hlen.
  unfold get_processed_data, fetch_data. rewrite Hlen.
  unfold _check_for_empty_data. unfold State.bind, get, lift.
  destruct (check_entries_cases raw) as [[H1 H2]|[H1 H2]]; rewrite H1.
  - right. split; [exact Hne|]. split; [exact H2|].
    now destruct (_convert_prices_to_numeric float_of_str int_of_str self
                    now raw).
  - left. split; [exact Hne|]. split; [exact H2|reflexivity].
Qed.

(** An accepted batch comes back with every record normalized. *)
Lemma accepted_normalized (raw p : batch) :
  forallb well_keyed raw = true ->
  processed float_of_str int_of_str self now (ApiData (Some raw)) p ->
  p = normalize self now raw /\ raw <> []
  /\ forall e, In e raw -> has_empty_value e = false.
Proof.
  intros Hwk. unfold processed.
  destruct (get_processed_data_cases raw)
    as [[_ E]|[(_ & _ & E)|(Hne & Hok & E)]]; rewrite E; simpl;
    try discriminate.
  destruct (convert_run float_of_str int_of_str self now raw Hwk)
    as [E'|(E1 & _)]; cbv zeta in *.
  - rewrite E'. simpl. intros [= <-]. auto.
  - intros H. rewrite H in E1. discriminate.
Qed.

Lemma well_formed_price_point (e : dict) :
  well_formed_record float_of_str e = true ->
  price_point (normalize_entry self now e) = true.
Proof.
  unfold well_formed_record, price_point, normalize_entry.
  rewrite !getitem_normalized, !getitem_attach by discriminate.
  destruct (dict_getitem e "datetime") as [[|t| |]|]; try discriminate.
  destruct (dict_getitem e "low") as [l|]; try discriminate.
  destruct (dict_getitem e "high") as [h|]; try discriminate.
  unfold numeric. simpl String.eqb. cbv iota. unfold coerced.
  rewrite andb_true_iff. intros [Hl Hh].
  destruct (py_float float_of_str l); [|discriminate].
  destruct (py_float float_of_str h); [|discriminate]. reflexivity.
Qed.

Lemma normalized_series (raw : batch) :
  forallb (well_formed_record float_of_str) raw = true ->
  series (normalize self now raw) = true.
Proof.
  unfold series, normalize. intros H. rewrite forallb_forall in *.
  intros e' He'. apply in_map_iff in He'. destruct He' as (e & <- & He).
  apply well_formed_price_point, H, He.
Qed.

(** The scan of a series, in either mode, returns levels. *)
Lemma scan_series_ok (s : batch) :
  series s = true ->
  fst (scan_support_levels false s) = Ok (Levels (support_levels s))
  /\ fst (scan_resistance_levels false s) = Ok (Levels (resistance_levels s))
  /\ (support_levels s = []
        /\ fst (scan_support_levels true s) = Ok NoLevel
      \/ exists l, In l (support_levels s)
                   /\ fst (scan_support_levels true s) = Ok (Level l))
  /\ (resistance_levels s = []
        /\ fst (scan_resistance_levels true s) = Ok NoLevel
      \/ exists l, In l (resistance_levels s)
                   /\ fst (scan_resistance_levels true s) = Ok (Level l)).
Proof.
  intros Hs. repeat split.
  - unfold scan_support_levels, State.bind.
    now rewrite (scan_support_series s Hs).
  - unfold scan_resistance_levels, State.bind.
    now rewrite (scan_resistance_series s Hs).
  - assert (H := GlobalFacts.scan_support_global s Hs).
    destruct (support_levels s) as [|l0 ls].
    + left. now rewrite H.
    + right. destruct H as (m & E & Hin & _). exists (Rank.as_level m).
      now rewrite E.
  - assert (H := GlobalFacts.scan_resistance_global s Hs).
    destruct (resistance_levels s) as [|l0 ls].
    + left. now rewrite H.
    + right. destruct H as (m & E & Hin & _). exists (Rank.as_level m).
      now rewrite E.
Qed.

End WithParsers.
End PipelineFacts.

(** ** Facts about text *)

Module StrFacts.
Import Str.
Local Open Scope string_scope.

Lemma find_lower (s sub : string) : -1 <= find s sub.
Proof.
  induction s as [|b s IH]; cbn [find].
  - destruct (startswith "" sub); lia.
  - destruct (startswith (String b s) sub); [lia|].
    cbv zeta. destruct (find s sub <? 0)%Z eqn:E; lia.
Qed.

Lemma startswith_empty (s : string) : startswith s "" = true.
Proof. now destruct s. Qed.

Lemma free_of_cons (c b : ascii) (s : string) :
  free_of c (String b s) = negb (Ascii.eqb c b) && free_of c s.
Proof.
  unfold free_of, contains. cbn [find startswith].
  rewrite startswith_empty, andb_true_r.
  destruct (Ascii.eqb c b); simpl negb; [reflexivity|]. cbv zeta.
  assert (H := find_lower s (String c "")).
  destruct (find s (String c "") <? 0)%Z eqn:E.
  - replace (0 <=? find s (String c ""))%Z with false by lia. reflexivity.
  - replace (0 <=? find s (String c "") + 1)%Z with true by lia.
    replace (0 <=? find s (String c ""))%Z with true by lia. reflexivity.
Qed.

Lemma free_of_app (c : ascii) (s t : string) :
  free_of c (s ++ t) = free_of c s && free_of c t.
Proof.
  induction s as [|b s IH]; simpl.
  - reflexivity.
  - rewrite !free_of_cons, IH. now rewrite andb_assoc.
Qed.

(** The first occurrence of a character is right after a prefix that is
    free of it. *)
Lemma find_after_free (c : ascii) (a rest : string) :
  free_of c a = true ->
  find (a ++ String c rest) (String c "") = Z.of_nat (String.length a).
Proof.
  induction a as [|b a IH]; intros H.
  - cbn [String.append find startswith].
    now rewrite Ascii.eqb_refl, startswith_empty.
  - rewrite free_of_cons in H. apply andb_true_iff in H. destruct H as [Hb Ha].
    apply negb_true_iff in Hb. specialize (IH Ha).
    change (find (String b a ++ String c rest) (String c ""))
      with (if Ascii.eqb c b && startswith (a ++ String c rest) ""
            then 0
            else let r := find (a ++ String c rest) (String c "") in
                 if (r <? 0)%Z then -1 else r + 1).
    rewrite Hb, IH. simpl andb. cbv zeta.
    destruct (Z.of_nat (String.length a) <? 0)%Z eqn:E; [lia|].
    change (String.length (String b a)) with (S (String.length a)). lia.
Qed.

Lemma contains_found (c : ascii) (a rest : string) :
  free_of c a = true -> contains (String c "") (a ++ String c rest) = true.
Proof.
  intros H. unfold contains. rewrite (find_after_free c a rest H).
  apply Z.leb_le, Nat2Z.is_nonneg.
Qed.

Lemma append_assoc (s t u : string) : (s ++ t) ++ u = s ++ t ++ u.
Proof. induction s as [|x s IH]; simpl; [reflexivity|now rewrite IH]. Qed.

Lemma length_app (s t : string) :
  String.length (s ++ t) = (String.length s + String.length t)%nat.
Proof. induction s; simpl; auto. Qed.

Lemma substring_prefix (b c : string) :
  String.substring 0 (String.length b) (b ++ c) = b.
Proof.
  induction b as [|x b IH]; simpl.
  - now destruct c.
  - now rewrite IH.
Qed.

Lemma substring_middle (a b c : string) :
  String.substring (String.length a) (String.length b) (a ++ b ++ c) = b.
Proof.
  induction a as [|x a IH]; simpl; [apply substring_prefix|exact IH].
Qed.

Lemma substring_nothing (n : nat) (s : string) : String.substring n 0 s = "".
Proof.
  revert n. induction s as [|x s IH]; intros [|n]; simpl; auto.
Qed.

(** A slice between two indices within the text. *)
Lemma slice_middle (a b c : string) :
  slice (a ++ b ++ c) (Z.of_nat (String.length a))
    (Z.of_nat (String.length a) + Z.of_nat (String.length b)) = b.
Proof.
  unfold slice. rewrite !length_app.
  set (la := String.length a). set (lb := String.length b).
  set (lc := String.length c).
  replace (Z.of_nat la <? 0)%Z with false by lia.
  replace (Z.of_nat la + Z.of_nat lb <? 0)%Z with false by lia.
  replace (Z.to_nat (Z.min (Z.of_nat la) (Z.of_nat (la + (lb + lc))))) with la
    by lia.
  replace (Z.to_nat (Z.min (Z.of_nat la + Z.of_nat lb)
                       (Z.of_nat (la + (lb + lc)))
                     - Z.min (Z.of_nat la) (Z.of_nat (la + (lb + lc)))))
    with lb by lia.
  apply substring_middle.
Qed.

(** A slice whose end is not after its start is empty. *)
Lemma slice_backwards (s : string) (start stop : Z) :
  0 <= start -> 0 <= stop -> stop <= start -> slice s start stop = "".
Proof.
  intros H1 H2 H3. unfold slice.
  replace (start <? 0)%Z with false by lia.
  replace (stop <? 0)%Z with false by lia.
  replace (Z.to_nat (Z.min stop (Z.of_nat (String.length s))
                     - Z.min start (Z.of_nat (String.length s))))
    with 0%nat by lia.
  apply substring_nothing.
Qed.

(** The text between the first pair of parentheses. *)
Lemma ticker_between (a b rest : string) :
  free_of "(" a = true -> free_of ")" a = true -> free_of ")" b = true ->
  ticker (Py.VStr (a ++ "(" ++ b ++ ")" ++ rest)) = Py.Ok (strip b).
Proof.
  intros Ha1 Ha2 Hb. unfold ticker.
  assert (F1 : find (a ++ "(" ++ b ++ ")" ++ rest) "("
               = Z.of_nat (String.length a))
    by (apply (find_after_free "(" a (b ++ ")" ++ rest) Ha1)).
  assert (E : a ++ "(" ++ b ++ ")" ++ rest
              = (a ++ "(" ++ b) ++ String ")" rest).
  { rewrite !append_assoc. reflexivity. }
  assert (Hfree : free_of ")" (a ++ "(" ++ b) = true).
  { rewrite !free_of_app, Ha2, Hb. reflexivity. }
  assert (F2 : find (a ++ "(" ++ b ++ ")" ++ rest) ")"
               = Z.of_nat (String.length a) + 1
                 + Z.of_nat (String.length b)).
  { rewrite E, (find_after_free ")" _ rest Hfree), !length_app.
    change (String.length "(") with 1%nat. lia. }
  unfold contains. rewrite F1, F2.
  replace (0 <=? Z.of_nat (String.length a))%Z with true by lia.
  replace (0 <=? Z.of_nat (String.length a) + 1
                 + Z.of_nat (String.length b))%Z with true by lia.
  simpl andb.
  replace (a ++ "(" ++ b ++ ")" ++ rest) with ((a ++ "(") ++ b ++ ")" ++ rest)
    by (rewrite !append_assoc; reflexivity).
  replace (Z.of_nat (String.length a) + 1)
    with (Z.of_nat (String.length (a ++ "(")))
    by (rewrite length_app; change (String.length "(") with 1%nat; lia).
  now rewrite slice_middle.
Qed.

End StrFacts.

(** ** Facts about [fetch_stocks] and the stock selector *)

Module StocksFacts.
Import Py Stocks.

(** One stock: its four fields in order, or the first field it lacks. *)
Lemma filtered_stock_cases (stock : dict) :
  (complete stock = true
   /\ exists d, filtered_stock stock = inr d /\ keys d = kept
                /\ forall k, In k kept -> dict_getitem d k = dict_getitem stock k)
  \/ (complete stock = false
      /\ exists k, first_missing stock = Some k /\ In k kept
                   /\ filtered_stock stock = inl (MissingKey k)).
Proof.
  unfold complete, first_missing, filtered_stock, field, has_key, kept.
  cbn [forallb List.find].
  destruct (dict_getitem stock "symbol") as [v1|] eqn:E1; cbn [is_ok negb andb].
  2: { right. split; [reflexivity|]. exists "symbol".
       split; [reflexivity|]. split; [now left|reflexivity]. }
  destruct (dict_getitem stock "name") as [v2|] eqn:E2; cbn [is_ok negb andb].
  2: { right. split; [reflexivity|]. exists "name".
       split; [reflexivity|]. split; [right; now left|reflexivity]. }
  destruct (dict_getitem stock "currency") as [v3|] eqn:E3;
    cbn [is_ok negb andb].
  2: { right. split; [reflexivity|]. exists "currency".
       split; [reflexivity|]. split; [do 2 right; now left|reflexivity]. }
  destruct (dict_getitem stock "exchange") as [v4|] eqn:E4;
    cbn [is_ok negb andb].
  2: { right. split; [reflexivity|]. exists "exchange".
       split; [reflexivity|]. split; [do 3 right; now left|reflexivity]. }
  left. split; [reflexivity|]. eexists. split; [reflexivity|].
  split; [reflexivity|].
  intros k [<-|[<-|[<-|[<-|[]]]]]; simpl; congruence.
Qed.

Lemma filtered_stocks_complete (l : list dict) :
  forallb complete l = true ->
  exists l', filtered_stocks l = inr l' /\ length l' = length l
    /\ forall i stock, nth_error l i = Some stock ->
         exists d, nth_error l' i = Some d /\ keys d = kept
           /\ forall k, In k kept -> dict_getitem d k = dict_getitem stock k.
Proof.
  induction l as [|stock l IH]; simpl; intros H.
  - exists []. repeat split. intros [|i] stock Hi; discriminate.
  - apply andb_true_iff in H. destruct H as [Hc Hl].
    destruct (filtered_stock_cases stock) as [(_ & d & Ed & Hd)|(F & _)];
      [|congruence].
    destruct (IH Hl) as (l' & El & Hlen & Hnth).
    exists (d :: l'). rewrite Ed, El. split; [reflexivity|].
    split; [simpl; now rewrite Hlen|].
    intros [|i] stock' Hi; simpl in *.
    + injection Hi as <-. exists d. now split.
    + now apply Hnth.
Qed.

Lemma filtered_stocks_incomplete (l : list dict) :
  forallb complete l = false ->
  exists good bad rest k,
    l = good ++ bad :: rest /\ forallb complete good = true
    /\ first_missing bad = Some k /\ In k kept
    /\ filtered_stocks l = inl (MissingKey k).
Proof.
  induction l as [|stock l IH]; simpl; intros H; [discriminate|].
  destruct (filtered_stock_cases stock)
    as [(Hc & d & Ed & _)|(Hc & k & Hk & Hin & Ek)].
  - rewrite Hc in H. simpl in H.
    destruct (IH H) as (good & bad & rest & k & -> & Hg & Hk & Hin & E).
    exists (stock :: good), bad, rest, k. simpl. rewrite Hc, Hg, Ed, E.
    repeat split; auto.
  - exists [], stock, l, k. rewrite Ek. repeat split; auto.
Qed.

Section Options.
Variable str_of_number : value -> string.

(** The guard of the comprehension keeps the two lookups of a label from
    failing: the selector is built from any list of dicts. *)
Lemma stock_options_total (l : list dict) :
  exists o, stock_options str_of_number l = Ok o
            /\ (length o <= length l)%nat.
Proof.
  induction l as [|d l (o & E & Hlen)]; simpl.
  - exists []. auto.
  - unfold has_key, stock_label.
    destruct (dict_getitem d "name") as [name|]; simpl;
      [|exists o; split; [exact E|lia]].
    destruct (dict_getitem d "symbol") as [symbol|]; simpl;
      [|exists o; split; [exact E|lia]].
    rewrite E. eexists. split; [reflexivity|]. simpl. lia.
Qed.

Lemma stock_options_complete (l l' : list dict) :
  length l' = length l ->
  (forall i stock, nth_error l i = Some stock ->
     exists d, nth_error l' i = Some d /\ keys d = kept
       /\ forall k, In k kept -> dict_getitem d k = dict_getitem stock k) ->
  (forall stock, In stock l -> complete stock = true) ->
  exists o, stock_options str_of_number l' = Ok o /\ length o = length l
    /\ forall i stock name symbol,
         nth_error l i = Some stock ->
         dict_getitem stock "name" = Ok name ->
         dict_getitem stock "symbol" = Ok symbol ->
         nth_error o i
         = Some (py_str str_of_number name ++ " ("
                 ++ py_str str_of_number symbol ++ ")")%string.
Proof.
  revert l'. induction l as [|stock l IH]; intros [|d l'] Hlen Hnth Hc;
    try discriminate.
  - exists []. repeat split. intros [|i] ? ? ? H; discriminate.
  - destruct (Hnth 0%nat stock eq_refl) as (d0 & Ed0 & _ & Hget).
    injection Ed0 as <-.
    assert (Hcs := Hc stock (or_introl eq_refl)).
    unfold complete, kept, has_key in Hcs. simpl in Hcs.
    destruct (dict_getitem stock "symbol") as [symbol|] eqn:Es;
      [|discriminate].
    destruct (dict_getitem stock "name") as [name|] eqn:En; [|discriminate].
    destruct (IH l') as (o & Eo & Ho & Hlab).
    + simpl in Hlen. lia.
    + intros i s Hi. exact (Hnth (S i) s Hi).
    + intros s Hs. apply Hc. now right.
    + simpl. unfold has_key, stock_label.
      rewrite (Hget "name"), (Hget "symbol"), En, Es, Eo
        by (unfold kept; simpl; auto).
      simpl. eexists. split; [reflexivity|]. split; [simpl; now rewrite Ho|].
      intros [|i] s n sy Hi Hn Hsy; simpl in *.
      * injection Hi as <-. congruence.
      * eapply Hlab; eassumption.
Qed.

End Options.

End StocksFacts.

(** ** What the scan can raise *)

Module RaiseFacts.
Import Py State PyFacts StateFacts ScanFacts.
Local Open Scope method_scope.

Lemma dict_getitem_raises (d : dict) (k : string) (e : exn) :
  dict_getitem d k = Raise e -> e = KeyError k.
Proof.
  induction d as [|[k0 v] d IH]; simpl.
  - now intros [= <-].
  - destruct (String.eqb k0 k); [discriminate|exact IH].
Qed.

Lemma lt_raises (a b : value) (e : exn) : lt a b = Raise e -> e = TypeError.
Proof. destruct a, b; simpl; intros H; congruence. Qed.

Lemma gt_raises (a b : value) (e : exn) : gt a b = Raise e -> e = TypeError.
Proof. destruct a, b; simpl; intros H; congruence. Qed.

Lemma list_lt_raises (v w : list value) (e : exn) :
  list_lt v w = Raise e -> e = TypeError.
Proof.
  revert w. induction v as [|x v IH]; intros [|y w]; simpl; try discriminate.
  destruct (eq x y); [apply IH|apply lt_raises].
Qed.

Lemma list_gt_raises (v w : list value) (e : exn) :
  list_gt v w = Raise e -> e = TypeError.
Proof.
  revert w. induction v as [|x v IH]; intros [|y w]; simpl; try discriminate.
  destruct (eq x y); [apply IH|apply gt_raises].
Qed.

(** The shared loop of [min] and [max] returns an item of the list, and
    raises only what the comparison raises. *)
Lemma min_max_from_cases (op : list value -> list value -> result bool)
    (items : list (list value)) :
  forall best,
    match min_max_from op best items with
    | Ok m => In m (best :: items)
    | Raise e => exists v w, op v w = Raise e
    end.
Proof.
  induction items as [|item items IH]; intros best; simpl; [now left|].
  destruct (op item best) as [b|e] eqn:E; [|now exists item, best].
  specialize (IH (if b then item else best)).
  destruct (min_max_from op (if b then item else best) items); [|exact IH].
  destruct b; destruct IH as [<-|H]; simpl; auto.
Qed.

(** A method that only reads is run in two steps. *)
Lemma bind_cases {A B} (m : M batch A) (k : A -> M batch B) (s : batch) :
  read_only m ->
  fst (bind m k s)
  = match fst (m s) with
    | Ok a => fst (k a s)
    | Raise e => Raise e
    end.
Proof.
  intros Hm. unfold bind. rewrite (read_only_run m s Hm).
  now destruct (fst (m s)).
Qed.

Lemma item_raises (s : batch) (i : Z) (key : string) (e : exn) :
  0 <= i < Z.of_nat (length s) ->
  fst (item i key s) = Raise e -> e = KeyError key.
Proof.
  intros Hi. destruct (list_getitem_nth_error s i Hi) as (d & _ & Hd).
  unfold item, bind, get, lift. rewrite Hd. simpl. apply dict_getitem_raises.
Qed.

Lemma item_lt_raises (s : batch) (i j : Z) (key : string) (e : exn) :
  0 <= i < Z.of_nat (length s) -> 0 <= j < Z.of_nat (length s) ->
  fst (item_lt i j key s) = Raise e -> benign key e.
Proof.
  intros Hi Hj. unfold item_lt, benign.
  rewrite bind_cases by apply read_only_item.
  destruct (fst (item i key s)) as [a|x] eqn:Ea.
  - rewrite bind_cases by apply read_only_item.
    destruct (fst (item j key s)) as [b|y] eqn:Eb.
    + unfold lift. simpl. intros H. left. eapply lt_raises, H.
    + intros [= <-]. right. left. apply (item_raises s j); assumption.
  - intros [= <-]. right. left. apply (item_raises s i); assumption.
Qed.

Lemma item_gt_raises (s : batch) (i j : Z) (key : string) (e : exn) :
  0 <= i < Z.of_nat (length s) -> 0 <= j < Z.of_nat (length s) ->
  fst (item_gt i j key s) = Raise e -> benign key e.
Proof.
  intros Hi Hj. unfold item_gt, benign.
  rewrite bind_cases by apply read_only_item.
  destruct (fst (item i key s)) as [a|x] eqn:Ea.
  - rewrite bind_cases by apply read_only_item.
    destruct (fst (item j key s)) as [b|y] eqn:Eb.
    + unfold lift. simpl. intros H. left. eapply gt_raises, H.
    + intros [= <-]. right. left. apply (item_raises s j); assumption.
  - intros [= <-]. right. left. apply (item_raises s i); assumption.
Qed.

Lemma and_then_raises (Q : exn -> Prop) (a b : M batch bool) (s : batch)
    (e : exn) :
  read_only a ->
  (forall x, fst (a s) = Raise x -> Q x) ->
  (forall x, fst (b s) = Raise x -> Q x) ->
  fst ((a and b) s) = Raise e -> Q e.
Proof.
  intros Ha Qa Qb. unfold and_then. rewrite bind_cases by exact Ha.
  destruct (fst (a s)) as [[|]|x] eqn:E.
  - apply Qb.
  - discriminate.
  - intros [= <-]. now apply Qa.
Qed.

Lemma four_raises (Q : exn -> Prop) (c : Z -> Z -> M batch bool)
    (s : batch) (i : Z) (e : exn) :
  (forall a b, read_only (c a b)) ->
  (forall j x, i - 2 <= j <= i + 2 -> fst (c i j s) = Raise x -> Q x) ->
  fst (four c i s) = Raise e -> Q e.
Proof.
  intros Hro Hq. unfold four. revert e.
  do 3 (intros ?; apply and_then_raises;
        [apply Hro|intros ?; apply Hq; lia|]).
  intros ?. apply Hq. lia.
Qed.

(** A loop of read-only steps raises what one of its steps raises. *)
Lemma for_fold_raises {A B} (Q : exn -> Prop) (s : batch) (xs : list A)
    (body : A -> B -> M batch B) :
  (forall x acc, read_only (body x acc)) ->
  (forall x acc e, In x xs -> fst (body x acc s) = Raise e -> Q e) ->
  forall acc e, fst (for_fold xs body acc s) = Raise e -> Q e.
Proof.
  intros Hro. induction xs as [|x xs IH]; intros Hq acc e; simpl.
  - discriminate.
  - rewrite bind_cases by apply Hro.
    destruct (fst (body x acc s)) as [acc'|y] eqn:E.
    + apply IH. intros x' a' e' Hin. apply Hq. now right.
    + intros [= <-]. eapply Hq; [now left|exact E].
Qed.

Lemma scan_raises (condition : Z -> M batch bool) (key : string) (s : batch)
    (e : exn) :
  (forall i, read_only (condition i)) ->
  (forall i x, 2 <= i <= Z.of_nat (length s) - 3 ->
               fst (condition i s) = Raise x -> benign key x) ->
  fst (scan condition key s) = Raise e -> benign key e.
Proof.
  intros Hro Hc. unfold scan. rewrite bind_cases by apply read_only_get.
  simpl fst at 1. cbv iota beta.
  apply (for_fold_raises (benign key)).
  - intros i acc. apply read_only_bind; [apply Hro|].
    intros [|]; auto 6 using read_only_item with read_only.
  - intros i acc x Hi. apply in_range in Hi. unfold benign.
    rewrite bind_cases by apply Hro.
    destruct (fst (condition i s)) as [[|]|y] eqn:E.
    + rewrite bind_cases by apply read_only_item.
      destruct (fst (item i key s)) as [p|y] eqn:Ep.
      * rewrite bind_cases by apply read_only_item.
        destruct (fst (item i "datetime" s)) as [d|y] eqn:Ed;
          [discriminate|].
        intros [= <-]. right. right. apply (item_raises s i); [lia|exact Ed].
      * intros [= <-]. right. left. apply (item_raises s i); [lia|exact Ep].
    + discriminate.
    + intros [= <-]. apply (Hc i); [lia|exact E].
Qed.

Lemma support_condition_raises (s : batch) (i : Z) (e : exn) :
  2 <= i <= Z.of_nat (length s) - 3 ->
  fst (support_condition i s) = Raise e -> benign "low" e.
Proof.
  intros Hi. apply (four_raises _ (fun a b => item_lt a b "low")).
  - intros a b. apply read_only_item_lt.
  - intros j x Hj. apply item_lt_raises; lia.
Qed.

Lemma resistance_condition_raises (s : batch) (i : Z) (e : exn) :
  2 <= i <= Z.of_nat (length s) - 3 ->
  fst (resistance_condition i s) = Raise e -> benign "high" e.
Proof.
  intros Hi. apply (four_raises _ (fun a b => item_gt a b "high")).
  - intros a b. apply read_only_item_gt.
  - intros j x Hj. apply item_gt_raises; lia.
Qed.

(** Global-only mode against all-levels mode, for either method. *)
Lemma modes_agree (levels_of : M batch (list (list value)))
    (op : list value -> list value -> result bool) (name : string)
    (s : batch) :
  read_only levels_of ->
  (forall v w e, op v w = Raise e -> e = TypeError) ->
  let global :=
    fst ((l <- levels_of ;;
          match l with
          | [] => ret NoLevel
          | _ => m <- lift (min_max op name l) ;; ret (Level m)
          end) s) in
  match fst (levels_of s) with
  | Raise e => global = Raise e
  | Ok [] => global = Ok NoLevel
  | Ok (first :: rest) =>
      (exists m, global = Ok (Level m) /\ In m (first :: rest))
      \/ global = Raise TypeError
  end.
Proof.
  intros Hro Hop global. subst global. rewrite bind_cases by exact Hro.
  destruct (fst (levels_of s)) as [[|first rest]|e]; try reflexivity.
  unfold bind, lift, ret, min_max. simpl.
  assert (H := min_max_from_cases op rest first).
  destruct (min_max_from op first rest) as [m|e].
  - left. now exists m.
  - right. destruct H as (v & w & H). now rewrite (Hop v w e H).
Qed.

End RaiseFacts.

(** ** What the coercion can raise *)

Module CoercionFacts.
Import Py State DictFacts NormalizeFacts.



Section WithParsers.
Variable float_of_str : string -> option float.
Variable int_of_str : string -> option Z.
Variable self : getStockTimeSeries.
Variable now : string.





End WithParsers.
End CoercionFacts.

(** ** The chart title, and the number of levels *)

Module TitleFacts.
Import Py State PyFacts NormalizeFacts.

Section WithParsers.
Variable float_of_str : string -> option float.
Variable int_of_str : string -> option Z.
Variable self : getStockTimeSeries.
Variable now : string.

(** The last record of a normalized batch carries the retrieval
    timestamp, as every record does. *)
Lemma last_execution_timestamp (raw : batch) :
  raw <> [] ->
  fst (item (-1) "execution_timestamp"
         (normalize float_of_str int_of_str self now raw))
  = Ok (coerced float_of_str int_of_str (VStr now)).
Proof.
  intros Hne. set (p := normalize float_of_str int_of_str self now raw).
  assert (Hlen : length p = length raw) by apply length_map.
  assert (Hpos : (0 < length raw)%nat)
    by (destruct raw; [congruence|simpl; lia]).
  unfold item, bind, get, lift, list_getitem.
  replace (-1 <? 0) with true by reflexivity.
  replace ((-1 + Z.of_nat (length p) <? 0)
           || (Z.of_nat (length p) <=? -1 + Z.of_nat (length p)))
    with false by lia.
  destruct (nth_error p (Z.to_nat (-1 + Z.of_nat (length p)))) as [d|] eqn:E.
  - apply nth_error_In in E. unfold p, normalize in E.
    apply in_map_iff in E. destruct E as (e & <- & _).
    cbv beta iota. simpl fst. unfold normalize_entry.
    now rewrite getitem_normalized, timestamp_attached.
  - apply nth_error_None in E. lia.
Qed.

End WithParsers.
End TitleFacts.

Module CountFacts.
Import Py State PyFacts StateFacts ScanFacts RaiseFacts.
Local Open Scope method_scope.

Lemma range_cons (a b : Z) : a < b -> range a b = a :: range (a + 1) b.
Proof.
  intros H. rewrite (range_app a (a + 1) b) by lia.
  unfold range at 1. replace (Z.to_nat (a + 1 - a)) with 1%nat by lia.
  simpl. now rewrite Z.add_0_r.
Qed.

(** Indices that are pairwise three apart are few. *)
Lemma spaced_count (P : Z -> bool) (b : Z) :
  (forall i j, P i = true -> P j = true -> i <> j -> 3 <= Z.abs (i - j)) ->
  forall n a, Z.to_nat (b - a) = n ->
    3 * Z.of_nat (length (filter P (range a b))) <= Z.max 0 (b - a + 2).
Proof.
  intros Hsp n. induction n as [n IH] using lt_wf_ind. intros a Hn.
  destruct (Z_lt_ge_dec a b) as [Hab|Hab].
  - rewrite (range_cons a b Hab). simpl filter.
    destruct (P a) eqn:Ea.
    + assert (Hc : a + 1 <= Z.min (a + 3) b <= b) by lia.
      rewrite (range_app (a + 1) (Z.min (a + 3) b) b Hc), filter_app.
      rewrite (filter_nothing P (range (a + 1) (Z.min (a + 3) b))).
      * simpl length.
        assert (H := IH (Z.to_nat (b - Z.min (a + 3) b)) ltac:(lia)
                       (Z.min (a + 3) b) eq_refl).
        lia.
      * intros i Hi. apply in_range in Hi.
        destruct (P i) eqn:Ei; [|reflexivity].
        assert (H := Hsp a i Ea Ei ltac:(lia)). lia.
    + assert (H := IH (Z.to_nat (b - (a + 1))) ltac:(lia) (a + 1) eq_refl).
      lia.
  - rewrite range_empty by lia. simpl. lia.
Qed.

(** The loop returns one level per flagged index. *)
Lemma scan_loop_length (condition : Z -> M batch bool) (key : string)
    (s : batch) (xs : list Z) :
  (forall i, read_only (condition i)) ->
  forall acc l,
    fst (for_fold xs
           (fun i levels =>
              c <- condition i ;;
              if c then
                price <- item i key ;;
                datetime <- item i "datetime" ;;
                ret (levels ++ [[price; datetime]])%list
              else ret levels) acc s) = Ok l ->
    length l = (length acc + length (filter (flagged condition s) xs))%nat.
Proof.
  intros Hro. induction xs as [|i xs IH]; intros acc l; simpl for_fold.
  - unfold ret. simpl. intros [= <-]. lia.
  - rewrite bind_cases.
    2: { apply read_only_bind; [apply Hro|].
         intros [|]; auto 6 using read_only_item with read_only. }
    rewrite bind_cases by apply Hro. simpl filter. unfold flagged at 1.
    destruct (fst (condition i s)) as [[|]|e]; try discriminate.
    + rewrite bind_cases by apply read_only_item.
      destruct (fst (item i key s)) as [p|e]; [|discriminate].
      rewrite bind_cases by apply read_only_item.
      destruct (fst (item i "datetime" s)) as [d|e]; [|discriminate].
      unfold ret at 1. simpl fst at 1. intros H. rewrite (IH _ _ H).
      rewrite length_app. simpl. lia.
    + unfold ret at 1. simpl fst at 1. intros H. now rewrite (IH _ _ H).
Qed.

Lemma scan_length (condition : Z -> M batch bool) (key : string)
    (s : batch) (l : list (list value)) :
  (forall i, read_only (condition i)) ->
  (forall i j, flagged condition s i = true -> flagged condition s j = true ->
               i <> j -> 3 <= Z.abs (i - j)) ->
  fst (scan condition key s) = Ok l ->
  3 * Z.of_nat (length l) <= Z.max 0 (Z.of_nat (length s) - 2).
Proof.
  intros Hro Hsp. unfold scan. rewrite bind_cases by apply read_only_get.
  simpl fst at 1. cbv beta iota. intros H.
  rewrite (scan_loop_length condition key s _ Hro [] l H). simpl length.
  assert (B := spaced_count (flagged condition s) (Z.of_nat (length s) - 2)
                 Hsp _ 2 eq_refl).
  simpl Nat.add. lia.
Qed.

End CountFacts.

(** ** The scan of a reversed series *)

Module ReverseFacts.
Import Py Series PyFacts.
Local Open Scope float_scope.

Lemma nth_rev_Z {A} (l : list A) (d : A) (i : Z) :
  (0 <= i < Z.of_nat (length l))%Z ->
  nth (Z.to_nat i) (rev l) d
  = nth (Z.to_nat (Z.of_nat (length l) - 1 - i)) l d.
Proof.
  intros H. rewrite rev_nth by lia. f_equal. lia.
Qed.

Lemma range_shift (a b : Z) :
  range (a + 1) (b + 1) = map Z.succ (range a b).
Proof.
  unfold range. replace (Z.to_nat (b + 1 - (a + 1))) with (Z.to_nat (b - a))
    by lia.
  rewrite map_map. apply map_ext. intros k. lia.
Qed.

Lemma rev_range (n : nat) :
  rev (range 0 (Z.of_nat n))
  = map (fun i => Z.of_nat n - 1 - i)%Z (range 0 (Z.of_nat n)).
Proof.
  induction n as [|n IH].
  - reflexivity.
  - rewrite (range_app 0 (Z.of_nat n) (Z.of_nat (S n))) at 1 by lia.
    rewrite rev_app_distr.
    rewrite (CountFacts.range_cons (Z.of_nat n) (Z.of_nat (S n))) by lia.
    rewrite (range_empty (Z.of_nat n + 1)) by lia. cbn [rev app].
    rewrite IH.
    rewrite (CountFacts.range_cons 0 (Z.of_nat (S n))) by lia. cbn [map].
    f_equal; [lia|].
    replace (Z.of_nat (S n)) with (Z.of_nat n + 1)%Z by lia.
    rewrite (range_shift 0 (Z.of_nat n)), map_map.
    apply map_ext. intros i. lia.
Qed.

Lemma filter_map {A B} (p : B -> bool) (f : A -> B) (l : list A) :
  filter p (map f l) = map f (filter (fun x => p (f x)) l).
Proof.
  induction l as [|x l IH]; simpl; [reflexivity|].
  destruct (p (f x)); simpl; now rewrite IH.
Qed.

(** The levels of the reversed columns are the levels in reverse, for a
    rule that looks the same from both ends. *)
Lemma levels_rev (rule : list float -> Z -> bool) (L : list float)
    (T : list string) :
  length T = length L ->
  (forall i, (0 <= i < Z.of_nat (length L))%Z ->
             rule (rev L) i = rule L (Z.of_nat (length L) - 1 - i)%Z) ->
  map (level (rev L) (rev T))
    (filter (rule (rev L)) (range 0 (Z.of_nat (length L))))
  = rev (map (level L T) (filter (rule L) (range 0 (Z.of_nat (length L))))).
Proof.
  intros HT Hrule. set (n := Z.of_nat (length L)).
  set (m := fun i => (n - 1 - i)%Z).
  assert (HR : range 0 n = map m (rev (range 0 n))).
  { rewrite map_rev. unfold m, n. rewrite <- rev_range.
    now rewrite rev_involutive. }
  rewrite HR at 1. rewrite filter_map, filter_rev, map_map, map_rev.
  f_equal.
  rewrite (filter_ext_in (fun x => rule (rev L) (m x)) (rule L)).
  - apply map_ext_in. intros i Hi. apply filter_In in Hi.
    destruct Hi as [Hi _]. apply in_range in Hi. unfold level, m.
    unfold price_at, timestamp_at.
    rewrite (nth_rev_Z L) by (fold n; lia).
    rewrite (nth_rev_Z T) by (rewrite HT; fold n; lia).
    rewrite HT. fold n.
    now replace (n - 1 - (n - 1 - i))%Z with i by lia.
  - intros i Hi. apply in_range in Hi. unfold m.
    rewrite Hrule by (fold n; lia). fold n.
    now replace (n - 1 - (n - 1 - i))%Z with i by lia.
Qed.

Lemma price_at_rev (L : list float) (i : Z) :
  (0 <= i < Z.of_nat (length L))%Z ->
  price_at (rev L) i = price_at L (Z.of_nat (length L) - 1 - i).
Proof. intros H. unfold price_at. now apply nth_rev_Z. Qed.

Lemma is_support_rev (L : list float) (i : Z) :
  (0 <= i < Z.of_nat (length L))%Z ->
  is_support (rev L) i = is_support L (Z.of_nat (length L) - 1 - i).
Proof.
  intros Hi. unfold is_support. rewrite length_rev.
  set (n := Z.of_nat (length L)) in *.
  destruct (Z_le_dec 2 i) as [H2|H2], (Z_le_dec i (n - 3)) as [H3|H3].
  - replace (2 <=? i)%Z with true by lia.
    replace (i <=? n - 3)%Z with true by lia.
    replace (2 <=? n - 1 - i)%Z with true by lia.
    replace (n - 1 - i <=? n - 3)%Z with true by lia.
    rewrite !price_at_rev by (fold n; lia). fold n.
    replace (n - 1 - (i - 2))%Z with (n - 1 - i + 2)%Z by lia.
    replace (n - 1 - (i - 1))%Z with (n - 1 - i + 1)%Z by lia.
    replace (n - 1 - (i + 1))%Z with (n - 1 - i - 1)%Z by lia.
    replace (n - 1 - (i + 2))%Z with (n - 1 - i - 2)%Z by lia.
    simpl andb.
    destruct (price_at L (n - 1 - i) <? price_at L (n - 1 - i + 2)),
      (price_at L (n - 1 - i) <? price_at L (n - 1 - i + 1)),
      (price_at L (n - 1 - i) <? price_at L (n - 1 - i - 1)),
      (price_at L (n - 1 - i) <? price_at L (n - 1 - i - 2)); reflexivity.
  - replace (i <=? n - 3)%Z with false by lia.
    replace (2 <=? n - 1 - i)%Z with false by lia.
    now rewrite andb_false_r.
  - replace (2 <=? i)%Z with false by lia.
    replace (n - 1 - i <=? n - 3)%Z with false by lia.
    now rewrite andb_false_r.
  - replace (2 <=? i)%Z with false by lia. simpl.
    replace (n - 1 - i <=? n - 3)%Z with false by lia.
    now rewrite andb_false_r.
Qed.

Lemma is_resistance_rev (L : list float) (i : Z) :
  (0 <= i < Z.of_nat (length L))%Z ->
  is_resistance (rev L) i = is_resistance L (Z.of_nat (length L) - 1 - i).
Proof.
  intros Hi. unfold is_resistance. rewrite length_rev.
  set (n := Z.of_nat (length L)) in *.
  destruct (Z_le_dec 2 i) as [H2|H2], (Z_le_dec i (n - 3)) as [H3|H3].
  - replace (2 <=? i)%Z with true by lia.
    replace (i <=? n - 3)%Z with true by lia.
    replace (2 <=? n - 1 - i)%Z with true by lia.
    replace (n - 1 - i <=? n - 3)%Z with true by lia.
    rewrite !price_at_rev by (fold n; lia). fold n.
    replace (n - 1 - (i - 2))%Z with (n - 1 - i + 2)%Z by lia.
    replace (n - 1 - (i - 1))%Z with (n - 1 - i + 1)%Z by lia.
    replace (n - 1 - (i + 1))%Z with (n - 1 - i - 1)%Z by lia.
    replace (n - 1 - (i + 2))%Z with (n - 1 - i - 2)%Z by lia.
    simpl andb.
    destruct (price_at L (n - 1 - i + 2) <? price_at L (n - 1 - i)),
      (price_at L (n - 1 - i + 1) <? price_at L (n - 1 - i)),
      (price_at L (n - 1 - i - 1) <? price_at L (n - 1 - i)),
      (price_at L (n - 1 - i - 2) <? price_at L (n - 1 - i)); reflexivity.
  - replace (i <=? n - 3)%Z with false by lia.
    replace (2 <=? n - 1 - i)%Z with false by lia.
    now rewrite andb_false_r.
  - replace (2 <=? i)%Z with false by lia.
    replace (n - 1 - i <=? n - 3)%Z with false by lia.
    now rewrite andb_false_r.
  - replace (2 <=? i)%Z with false by lia. simpl.
    replace (n - 1 - i <=? n - 3)%Z with false by lia.
    now rewrite andb_false_r.
Qed.

Lemma series_rev (s : batch) : series s = true -> series (rev s) = true.
Proof.
  unfold series. rewrite !forallb_forall. intros H e He.
  apply H. now apply in_rev.
Qed.

Lemma support_levels_rev (s : batch) :
  support_levels (rev s) = rev (support_levels s).
Proof.
  unfold support_levels, support_points, lows, timestamps.
  rewrite !map_rev, length_rev.
  rewrite <- (length_map low_of s).
  apply levels_rev; [now rewrite !length_map|apply is_support_rev].
Qed.

Lemma resistance_levels_rev (s : batch) :
  resistance_levels (rev s) = rev (resistance_levels s).
Proof.
  unfold resistance_levels, resistance_points, highs, timestamps.
  rewrite !map_rev, length_rev.
  rewrite <- (length_map high_of s).
  apply levels_rev; [now rewrite !length_map|apply is_resistance_rev].
Qed.

End ReverseFacts.

(** ** The properties of the specification *)

Import Py State Series Rank.

(** C1. On a processed series of length [n], an index [i] with
    [2 <= i <= n - 3] is flagged as a support point exactly when [low[i]]
    is strictly less than [low[i-2]], [low[i-1]], [low[i+1]] and
    [low[i+2]], so a tie with a neighbour never qualifies; in all-levels
    mode [find_support_levels] returns the (price, timestamp) pairs of
    exactly those indices, in ascending order of index; and whenever the
    lows are 5, 4, 3, 2, 3, 4, 5 the only support point is index 3, at
    price 2. *)
Theorem support_rule_all_levels (s : batch) :
  series s = true ->
  (forall i, 2 <= i <= Z.of_nat (length s) - 3 ->
     support_condition i s = (Ok (is_support (lows s) i), s)
     /\ (is_support (lows s) i = true <->
         (price_at (lows s) i <? price_at (lows s) (i - 2))%float = true
         /\ (price_at (lows s) i <? price_at (lows s) (i - 1))%float = true
         /\ (price_at (lows s) i <? price_at (lows s) (i + 1))%float = true
         /\ (price_at (lows s) i <? price_at (lows s) (i + 2))%float = true))
  /\ (forall i j, is_support (lows s) i = true ->
        j = i - 2 \/ j = i - 1 \/ j = i + 1 \/ j = i + 2 ->
        (price_at (lows s) i =? price_at (lows s) j)%float = false)
  /\ scan_support_levels false s = (Ok (Levels (support_levels s)), s)
  /\ (forall float_of_str int_of_str self now api,
        processed float_of_str int_of_str self now api s ->
        find_support_levels float_of_str int_of_str false self now api
        = Ok (Levels (support_levels s)))
  /\ (lows s = [5; 4; 3; 2; 3; 4; 5]%float ->
      support_points s = [3]
      /\ scan_support_levels false s
         = (Ok (Levels [[VFloat 2; VStr (timestamp_at (timestamps s) 3)]]),
            s)).
Proof.
  intros Hs.
  assert (Hscan : scan_support_levels false s
                  = (Ok (Levels (support_levels s)), s)).
  { unfold scan_support_levels, bind.
    now rewrite (ScanFacts.scan_support_series s Hs). }
  split; [|split; [|split; [exact Hscan|split]]].
  - intros i Hi. split; [now apply ScanFacts.support_condition_rule|].
    unfold is_support. rewrite (ScanFacts.length_lows s).
    replace (2 <=? i) with true by lia.
    replace (i <=? Z.of_nat (length s) - 3) with true by lia.
    simpl. rewrite !andb_true_iff. tauto.
  - intros i j Hi Hj. unfold is_support in Hi. rewrite !andb_true_iff in Hi.
    destruct Hi as (((((_ & _) & H1) & H2) & H3) & H4).
    destruct (price_at (lows s) i =? price_at (lows s) j)%float eqn:E;
      [|reflexivity].
    apply OrderFacts.eqb_iff in E. destruct E as (_ & _ & E).
    assert (H : (price_at (lows s) i <? price_at (lows s) j)%float = true)
      by (destruct Hj as [->|[->|[->| ->]]]; assumption).
    apply OrderFacts.ltb_iff in H. destruct H as (_ & _ & H).
    rewrite E in H. destruct (OrderFacts.lex_lt_irrefl _ H).
  - intros float_of_str int_of_str self now api Hp.
    unfold find_support_levels.
    rewrite (PipelineFacts.find_levels_processed _ _ _ _ _ _ s Hp).
    now rewrite Hscan.
  - intros Hl.
    assert (Hp : support_points s = [3]).
    { unfold support_points. rewrite <- (ScanFacts.length_lows s), Hl.
      reflexivity. }
    split; [exact Hp|]. rewrite Hscan. unfold support_levels.
    rewrite Hp, Hl. reflexivity.
Qed.

Lemma support_rule_all_levels_witness :
  series Sample.valley_and_peak = true
  /\ lows Sample.valley_and_peak = [5; 4; 3; 2; 3; 4; 5]%float
  /\ support_points Sample.valley_and_peak = [3]
  /\ scan_support_levels false Sample.valley_and_peak
     = (Ok (Levels [[VFloat 2; VStr "2024-04-25"]]), Sample.valley_and_peak).
Proof.
  split; [reflexivity|]. split; [reflexivity|].
  exact (proj2 (proj2 (proj2 (proj2
           (support_rule_all_levels Sample.valley_and_peak eq_refl))))
           eq_refl).
Defined.

(** C2. The resistance rule mirrors the support rule: an index [i] with
    [2 <= i <= n - 3] is flagged exactly when [high[i]] is strictly
    greater than its four neighbours; all-levels mode returns the pairs of
    those indices in ascending order; and whenever the highs are
    1, 2, 3, 4, 3, 2, 1 the only resistance point is index 3, at price 4. *)
Theorem resistance_rule_all_levels (s : batch) :
  series s = true ->
  (forall i, 2 <= i <= Z.of_nat (length s) - 3 ->
     resistance_condition i s = (Ok (is_resistance (highs s) i), s)
     /\ (is_resistance (highs s) i = true <->
         (price_at (highs s) (i - 2) <? price_at (highs s) i)%float = true
         /\ (price_at (highs s) (i - 1) <? price_at (highs s) i)%float = true
         /\ (price_at (highs s) (i + 1) <? price_at (highs s) i)%float = true
         /\ (price_at (highs s) (i + 2) <? price_at (highs s) i)%float = true))
  /\ (forall i j, is_resistance (highs s) i = true ->
        j = i - 2 \/ j = i - 1 \/ j = i + 1 \/ j = i + 2 ->
        (price_at (highs s) i =? price_at (highs s) j)%float = false)
  /\ scan_resistance_levels false s = (Ok (Levels (resistance_levels s)), s)
  /\ (forall float_of_str int_of_str self now api,
        processed float_of_str int_of_str self now api s ->
        find_resistance_levels float_of_str int_of_str false self now api
        = Ok (Levels (resistance_levels s)))
  /\ (highs s = [1; 2; 3; 4; 3; 2; 1]%float ->
      resistance_points s = [3]
      /\ scan_resistance_levels false s
         = (Ok (Levels [[VFloat 4; VStr (timestamp_at (timestamps s) 3)]]),
            s)).
Proof.
  intros Hs.
  assert (Hscan : scan_resistance_levels false s
                  = (Ok (Levels (resistance_levels s)), s)).
  { unfold scan_resistance_levels, bind.
    now rewrite (ScanFacts.scan_resistance_series s Hs). }
  split; [|split; [|split; [exact Hscan|split]]].
  - intros i Hi. split; [now apply ScanFacts.resistance_condition_rule|].
    unfold is_resistance. rewrite (ScanFacts.length_highs s).
    replace (2 <=? i) with true by lia.
    replace (i <=? Z.of_nat (length s) - 3) with true by lia.
    simpl. rewrite !andb_true_iff. tauto.
  - intros i j Hi Hj. unfold is_resistance in Hi.
    rewrite !andb_true_iff in Hi.
    destruct Hi as (((((_ & _) & H1) & H2) & H3) & H4).
    destruct (price_at (highs s) i =? price_at (highs s) j)%float eqn:E;
      [|reflexivity].
    apply OrderFacts.eqb_iff in E. destruct E as (_ & _ & E).
    assert (H : (price_at (highs s) j <? price_at (highs s) i)%float = true)
      by (destruct Hj as [->|[->|[->| ->]]]; assumption).
    apply OrderFacts.ltb_iff in H. destruct H as (_ & _ & H).
    rewrite E in H. destruct (OrderFacts.lex_lt_irrefl _ H).
  - intros float_of_str int_of_str self now api Hp.
    unfold find_resistance_levels.
    rewrite (PipelineFacts.find_levels_processed _ _ _ _ _ _ s Hp).
    now rewrite Hscan.
  - intros Hl.
    assert (Hp : resistance_points s = [3]).
    { unfold resistance_points. rewrite <- (ScanFacts.length_highs s), Hl.
      reflexivity. }
    split; [exact Hp|]. rewrite Hscan. unfold resistance_levels.
    rewrite Hp, Hl. reflexivity.
Qed.

Lemma resistance_rule_all_levels_witness :
  series Sample.valley_and_peak = true
  /\ highs Sample.valley_and_peak = [1; 2; 3; 4; 3; 2; 1]%float
  /\ resistance_points Sample.valley_and_peak = [3]
  /\ scan_resistance_levels false Sample.valley_and_peak
     = (Ok (Levels [[VFloat 4; VStr "2024-04-25"]]), Sample.valley_and_peak).
Proof.
  split; [reflexivity|]. split; [reflexivity|].
  exact (proj2 (proj2 (proj2 (proj2
           (resistance_rule_all_levels Sample.valley_and_peak eq_refl))))
           eq_refl).
Defined.

(** C3. In global-only mode on a processed series: when no point
    qualifies the result is [None]; otherwise [find_support_levels]
    returns exactly one qualifying level, whose price is at most the
    price of every qualifying support point and, among those of equal
    price, whose timestamp is the least as text; [find_resistance_levels]
    returns the qualifying level with the greatest price and, among those
    of equal price, the greatest timestamp. *)
Theorem global_only_extremum (s : batch) :
  series s = true ->
  match support_levels s with
  | [] => scan_support_levels true s = (Ok NoLevel, s)
  | _ :: _ =>
      exists p d,
        scan_support_levels true s = (Ok (Level [VFloat p; VStr d]), s)
        /\ In [VFloat p; VStr d] (support_levels s)
        /\ forall p' d', In [VFloat p'; VStr d'] (support_levels s) ->
             (p <=? p')%float = true
             /\ ((p =? p')%float = true -> String.leb d d' = true)
  end
  /\ match resistance_levels s with
     | [] => scan_resistance_levels true s = (Ok NoLevel, s)
     | _ :: _ =>
         exists p d,
           scan_resistance_levels true s = (Ok (Level [VFloat p; VStr d]), s)
           /\ In [VFloat p; VStr d] (resistance_levels s)
           /\ forall p' d', In [VFloat p'; VStr d'] (resistance_levels s) ->
                (p' <=? p)%float = true
                /\ ((p' =? p)%float = true -> String.leb d' d = true)
     end
  /\ forall float_of_str int_of_str self now api,
       processed float_of_str int_of_str self now api s ->
       find_support_levels float_of_str int_of_str true self now api
       = fst (scan_support_levels true s)
       /\ find_resistance_levels float_of_str int_of_str true self now api
          = fst (scan_resistance_levels true s).
Proof.
  intros Hs. split; [|split].
  - assert (H := GlobalFacts.scan_support_global s Hs).
    destruct (support_levels s) as [|l0 ls]; [exact H|].
    destruct H as ([p d] & E & Hin & Hn & Hmin).
    exists p, d. split; [exact E|]. split; [exact Hin|].
    intros p' d' Hin'. destruct (Hmin (p', d') Hin') as [Hn' Hb].
    exact (LevelFacts.not_before_le (p', d') (p, d) Hn' Hn Hb).
  - assert (H := GlobalFacts.scan_resistance_global s Hs).
    destruct (resistance_levels s) as [|l0 ls]; [exact H|].
    destruct H as ([p d] & E & Hin & Hn & Hmax).
    exists p, d. split; [exact E|]. split; [exact Hin|].
    intros p' d' Hin'. destruct (Hmax (p', d') Hin') as [Hn' Hb].
    exact (LevelFacts.not_before_le (p, d) (p', d') Hn Hn' Hb).
  - intros float_of_str int_of_str self now api Hp.
    unfold find_support_levels, find_resistance_levels.
    now rewrite !(PipelineFacts.find_levels_processed _ _ _ _ _ _ s Hp).
Qed.

Lemma global_only_extremum_witness :
  series Sample.double_bottom = true
  /\ support_levels Sample.double_bottom
     = [[VFloat 1; VStr "2024-04-23"]; [VFloat 1; VStr "2024-04-26"]]
  /\ (exists p d,
       scan_support_levels true Sample.double_bottom
       = (Ok (Level [VFloat p; VStr d]), Sample.double_bottom)
       /\ In [VFloat p; VStr d] (support_levels Sample.double_bottom)
       /\ forall p' d',
            In [VFloat p'; VStr d'] (support_levels Sample.double_bottom) ->
            (p <=? p')%float = true
            /\ ((p =? p')%float = true -> String.leb d d' = true))
  /\ resistance_levels Sample.double_bottom
     = [[VFloat 9; VStr "2024-04-23"]; [VFloat 9; VStr "2024-04-26"]]
  /\ exists p d,
       scan_resistance_levels true Sample.double_bottom
       = (Ok (Level [VFloat p; VStr d]), Sample.double_bottom)
       /\ In [VFloat p; VStr d] (resistance_levels Sample.double_bottom)
       /\ forall p' d',
            In [VFloat p'; VStr d'] (resistance_levels Sample.double_bottom)
            -> (p' <=? p)%float = true
               /\ ((p' =? p)%float = true -> String.leb d' d = true).
Proof.
  split; [reflexivity|]. split; [reflexivity|].
  split; [exact (proj1 (global_only_extremum Sample.double_bottom eq_refl))|].
  split; [reflexivity|].
  exact (proj1 (proj2 (global_only_extremum Sample.double_bottom eq_refl))).
Defined.

(** C4. A processed series of fewer than five points yields the empty
    list in all-levels mode and [None] in global-only mode, for support
    and for resistance, and the scan raises nothing. *)
Theorem short_series_no_levels (s : batch) :
  (length s < 5)%nat ->
  scan_support_levels false s = (Ok (Levels []), s)
  /\ scan_support_levels true s = (Ok NoLevel, s)
  /\ scan_resistance_levels false s = (Ok (Levels []), s)
  /\ scan_resistance_levels true s = (Ok NoLevel, s)
  /\ forall float_of_str int_of_str self now api,
       processed float_of_str int_of_str self now api s ->
       find_support_levels float_of_str int_of_str false self now api
       = Ok (Levels [])
       /\ find_support_levels float_of_str int_of_str true self now api
          = Ok NoLevel
       /\ find_resistance_levels float_of_str int_of_str false self now api
          = Ok (Levels [])
       /\ find_resistance_levels float_of_str int_of_str true self now api
          = Ok NoLevel.
Proof.
  intros Hlen.
  assert (H : forall g,
             scan_support_levels g s
             = (Ok (if g then NoLevel else Levels []), s)
             /\ scan_resistance_levels g s
                = (Ok (if g then NoLevel else Levels []), s)).
  { intros g. unfold scan_support_levels, scan_resistance_levels, bind.
    rewrite !(ScanFacts.scan_short _ _ s Hlen). now destruct g. }
  destruct (H false) as [Sf Rf]. destruct (H true) as [St Rt].
  do 4 (split; [assumption|]).
  intros float_of_str int_of_str self now api Hp.
  unfold find_support_levels, find_resistance_levels.
  rewrite !(PipelineFacts.find_levels_processed _ _ _ _ _ _ s Hp).
  now rewrite Sf, St, Rf, Rt.
Qed.

Lemma short_series_no_levels_witness :
  (length Sample.short < 5)%nat
  /\ scan_support_levels false Sample.short = (Ok (Levels []), Sample.short)
  /\ scan_support_levels true Sample.short = (Ok NoLevel, Sample.short)
  /\ scan_resistance_levels false Sample.short
     = (Ok (Levels []), Sample.short)
  /\ scan_resistance_levels true Sample.short = (Ok NoLevel, Sample.short).
Proof.
  assert (H : (length Sample.short < 5)%nat) by (simpl; lia).
  split; [exact H|].
  destruct (short_series_no_levels Sample.short H) as (A & B & C & D & _).
  repeat split; assumption.
Defined.

(** C8. The scan has no side effect: in either mode it leaves every
    record of the processed series as it found it, and what the two
    methods return is determined by the processed series alone, whatever
    the client, the clock and the answer of the data source that led to
    it. *)
Theorem scan_is_read_only (global_only : bool) (s : batch) :
  snd (scan_support_levels global_only s) = s
  /\ snd (scan_resistance_levels global_only s) = s
  /\ forall float_of_str int_of_str self now api
            float_of_str' int_of_str' self' now' api',
       processed float_of_str int_of_str self now api s ->
       processed float_of_str' int_of_str' self' now' api' s ->
       find_support_levels float_of_str int_of_str global_only self now api
       = find_support_levels float_of_str' int_of_str' global_only self'
           now' api'
       /\ find_resistance_levels float_of_str int_of_str global_only self
            now api
          = find_resistance_levels float_of_str' int_of_str' global_only
              self' now' api'.
Proof.
  split; [apply ScanFacts.read_only_scan_support_levels|].
  split; [apply ScanFacts.read_only_scan_resistance_levels|].
  intros fos ios self now api fos' ios' self' now' api' Hp Hp'.
  unfold find_support_levels, find_resistance_levels.
  now rewrite !(PipelineFacts.find_levels_processed _ _ _ _ _ _ s Hp),
    !(PipelineFacts.find_levels_processed _ _ _ _ _ _ s Hp').
Qed.

Lemma scan_is_read_only_witness :
  processed Sample.float_of_str Sample.int_of_str Sample.apple Sample.now
    (ApiData (Some Sample.raw_data)) Sample.processed_data
  /\ processed Sample.float_of_str Sample.int_of_str Sample.apple Sample.now
       (ApiData (Some Sample.raw_respelled)) Sample.processed_data
  /\ snd (scan_support_levels true Sample.processed_data)
     = Sample.processed_data
  /\ find_support_levels Sample.float_of_str Sample.int_of_str true
       Sample.apple Sample.now (ApiData (Some Sample.raw_data))
     = find_support_levels Sample.float_of_str Sample.int_of_str true
         Sample.apple Sample.now (ApiData (Some Sample.raw_respelled)).
Proof.
  assert (H1 : processed Sample.float_of_str Sample.int_of_str Sample.apple
                 Sample.now (ApiData (Some Sample.raw_data))
                 Sample.processed_data) by reflexivity.
  assert (H2 : processed Sample.float_of_str Sample.int_of_str Sample.apple
                 Sample.now (ApiData (Some Sample.raw_respelled))
                 Sample.processed_data) by reflexivity.
  split; [exact H1|]. split; [exact H2|].
  destruct (scan_is_read_only true Sample.processed_data) as (A & _ & C).
  split; [exact A|]. exact (proj1 (C _ _ _ _ _ _ _ _ _ _ H1 H2)).
Defined.

(** C9. On any series, two distinct indices that are both flagged as
    support points are at least three places apart, and so are two
    distinct indices flagged as resistance points. *)
Theorem flagged_indices_three_apart (s : batch) (i j : Z) :
  i <> j ->
  (fst (support_condition i s) = Ok true ->
   fst (support_condition j s) = Ok true -> 3 <= Z.abs (i - j))
  /\ (fst (resistance_condition i s) = Ok true ->
      fst (resistance_condition j s) = Ok true -> 3 <= Z.abs (i - j)).
Proof.
  intros Hij. split; intros Hi Hj.
  - exact (GlobalFacts.support_apart s i j Hi Hj Hij).
  - exact (GlobalFacts.resistance_apart s i j Hi Hj Hij).
Qed.

Lemma flagged_indices_three_apart_witness :
  2 <> 5
  /\ fst (support_condition 2 Sample.double_bottom) = Ok true
  /\ fst (support_condition 5 Sample.double_bottom) = Ok true
  /\ fst (resistance_condition 2 Sample.double_bottom) = Ok true
  /\ fst (resistance_condition 5 Sample.double_bottom) = Ok true
  /\ 3 <= Z.abs (2 - 5).
Proof.
  assert (H : 2 <> 5) by discriminate.
  split; [exact H|]. do 4 (split; [reflexivity|]).
  exact (proj1 (flagged_indices_three_apart Sample.double_bottom 2 5 H)
           eq_refl eq_refl).
Defined.

(** C5. [get_processed_data] raises a validation error ([ValueError])
    exactly when the data source answered [None], an empty batch, or a
    batch in which some field of some record is empty text or [None]; the
    check comes before any coercion and rejects the batch as a whole: on
    such an error the fetched records are left as they were fetched. *)
Theorem validation_error_iff (float_of_str : string -> option float)
    (int_of_str : string -> option Z) (self : getStockTimeSeries)
    (now : string) (api : api_answer) :
  (is_ValueError
     (fst (get_processed_data float_of_str int_of_str self now api)) = true
   <-> api = ApiData None \/ api = ApiData (Some [])
       \/ exists raw e v, api = ApiData (Some raw) /\ In e raw
                          /\ In v (values e) /\ missing v)
  /\ (is_ValueError
        (fst (get_processed_data float_of_str int_of_str self now api)) = true
      -> snd (get_processed_data float_of_str int_of_str self now api)
         = match api with ApiData fetched => fetched | ApiError _ => None end)
  /\ (forall raw e v,
        api = ApiData (Some raw) -> In e raw -> In v (values e) ->
        missing v ->
        get_processed_data float_of_str int_of_str self now api
        = (Raise (ValueError "Empty data found in the dataset."), Some raw)).
Proof.
  assert (Hmiss : forall raw e v,
             In e raw -> In v (values e) -> missing v ->
             get_processed_data float_of_str int_of_str self now
               (ApiData (Some raw))
             = (Raise (ValueError "Empty data found in the dataset."),
                Some raw)).
  { intros raw e v He Hv Hm.
    assert (Hemp : has_empty_value e = true)
      by (apply NormalizeFacts.has_empty_value_iff; eauto).
    destruct (PipelineFacts.get_processed_data_cases float_of_str int_of_str
                self now raw) as [[-> _]|[(_ & _ & E)|(_ & Hok & _)]].
    - destruct He.
    - exact E.
    - rewrite (Hok e He) in Hemp. discriminate. }
  destruct api as [why|[raw|]].
  - split; [|split].
    + split; [discriminate|].
      intros [H|[H|(raw & e & v & H & _)]]; discriminate.
    + discriminate.
    + intros raw e v H. discriminate.
  - destruct (PipelineFacts.get_processed_data_cases float_of_str int_of_str
                self now raw)
      as [[-> E]|[(Hne & (e & He & Hemp) & E)|(Hne & Hok & E)]].
    + rewrite E. split; [|split].
      * split; auto.
      * reflexivity.
      * intros raw e v [= <-] [].
    + rewrite E. split; [|split].
      * split; [|reflexivity]. intros _. right. right.
        apply NormalizeFacts.has_empty_value_iff in Hemp.
        destruct Hemp as (v & Hv & Hm). exists raw, e, v. auto.
      * reflexivity.
      * intros raw' e' v' [= <-] _ _ _. reflexivity.
    + split; [|split].
      * rewrite E. simpl fst.
        rewrite NormalizeFacts.convert_no_ValueError. split; [discriminate|].
        intros [H|[H|(raw' & e & v & H & He & Hv & Hm)]].
        -- discriminate.
        -- injection H as ->. now destruct Hne.
        -- injection H as <-.
           assert (has_empty_value e = true)
             by (apply NormalizeFacts.has_empty_value_iff; eauto).
           rewrite (Hok e He) in *. discriminate.
      * rewrite E. simpl fst.
        rewrite NormalizeFacts.convert_no_ValueError. discriminate.
      * intros raw' e v [= <-]. apply Hmiss.
  - split; [|split].
    + split; auto.
    + reflexivity.
    + intros raw e v H. discriminate.
Qed.

Lemma validation_error_iff_witness :
  get_processed_data Sample.float_of_str Sample.int_of_str Sample.apple
    Sample.now (ApiData (Some Sample.raw_with_gap))
  = (Raise (ValueError "Empty data found in the dataset."),
     Some Sample.raw_with_gap).
Proof.
  refine (proj2 (proj2 (validation_error_iff Sample.float_of_str
                          Sample.int_of_str Sample.apple Sample.now
                          (ApiData (Some Sample.raw_with_gap))))
            Sample.raw_with_gap
            (Sample.record "2024-04-25" "4.5" "9.5" "4.0" "" "1100")
            (VStr "") eq_refl _ _ _).
  - simpl. auto.
  - simpl. auto 7.
  - left. reflexivity.
Defined.

(** C6. For every record of a batch, normalization first attaches the
    retrieval timestamp (one text for the whole batch) and the requested
    symbol, then replaces the value of every field except the one keyed
    "datetime" by the outcome of the coercion attempt: the float when
    [float] accepts the value, else the integer when [int] accepts it,
    else the value unchanged. The batch is returned in place, with the
    same records in the same order and the same fields. *)
Theorem normalization_coerces_and_attaches
    (float_of_str : string -> option float) (int_of_str : string -> option Z)
    (self : getStockTimeSeries) (now : string) (raw : batch) :
  forallb well_keyed raw = true ->
  forallb coercible_entry raw = true ->
  _convert_prices_to_numeric float_of_str int_of_str self now raw
  = (Ok (normalize float_of_str int_of_str self now raw),
     normalize float_of_str int_of_str self now raw)
  /\ length (normalize float_of_str int_of_str self now raw) = length raw
  /\ (forall i e, nth_error raw i = Some e ->
        exists e',
          nth_error (normalize float_of_str int_of_str self now raw) i
          = Some e'
          /\ keys e' = keys (attach self now e)
          /\ dict_getitem e' "execution_timestamp"
             = Ok (coerced float_of_str int_of_str (VStr now))
          /\ dict_getitem e' "ticker"
             = Ok (coerced float_of_str int_of_str (VStr (symbol self)))
          /\ dict_getitem e' "datetime" = dict_getitem e "datetime"
          /\ forall k v, k <> "datetime" -> k <> "execution_timestamp" ->
               k <> "ticker" -> dict_getitem e k = Ok v ->
               dict_getitem e' k = Ok (coerced float_of_str int_of_str v))
  /\ (forall v f, py_float float_of_str v = Ok f ->
        coerced float_of_str int_of_str v = VFloat f)
  /\ (forall v x z, py_float float_of_str v = Raise x ->
        py_int int_of_str v = Ok z ->
        coerced float_of_str int_of_str v = VInt z)
  /\ (forall v x y, py_float float_of_str v = Raise x ->
        py_int int_of_str v = Raise y ->
        coerced float_of_str int_of_str v = v).
Proof.
  intros Hwk Hc. split; [|split; [|split; [|split; [|split]]]].
  - destruct (NormalizeFacts.convert_run float_of_str int_of_str self now raw
                Hwk) as [E|(_ & _ & E)]; [exact E|congruence].
  - apply length_map.
  - intros i e He. exists (normalize_entry float_of_str int_of_str self now e).
    split; [now apply map_nth_error|].
    split; [apply NormalizeFacts.keys_normalize|].
    unfold normalize_entry. rewrite !NormalizeFacts.getitem_normalized.
    rewrite NormalizeFacts.timestamp_attached, NormalizeFacts.ticker_attached.
    split; [reflexivity|]. split; [reflexivity|]. split.
    + rewrite NormalizeFacts.getitem_attach by discriminate.
      now destruct (dict_getitem e "datetime").
    + intros k v Hk Ht Hs Hv. rewrite NormalizeFacts.getitem_normalized.
      rewrite NormalizeFacts.getitem_attach, Hv by assumption.
      apply String.eqb_neq in Hk. now rewrite Hk.
  - intros v f H. unfold coerced. now rewrite H.
  - intros v x z H1 H2. unfold coerced. now rewrite H1, H2.
  - intros v x y H1 H2. unfold coerced. now rewrite H1, H2.
Qed.

Lemma normalization_coerces_and_attaches_witness :
  forallb well_keyed Sample.raw_data = true
  /\ forallb coercible_entry Sample.raw_data = true
  /\ _convert_prices_to_numeric Sample.float_of_str Sample.int_of_str
       Sample.apple Sample.now Sample.raw_data
     = (Ok Sample.processed_data, Sample.processed_data)
  /\ exists e',
       nth_error Sample.processed_data 0 = Some e'
       /\ dict_getitem e' "execution_timestamp" = Ok (VStr Sample.now)
       /\ dict_getitem e' "ticker" = Ok (VStr "AAPL")
       /\ dict_getitem e' "datetime" = Ok (VStr "2024-04-30")
       /\ dict_getitem e' "low" = Ok (VFloat 5)
       /\ dict_getitem e' "volume" = Ok (VFloat 1000).
Proof.
  split; [reflexivity|]. split; [reflexivity|].
  destruct (normalization_coerces_and_attaches Sample.float_of_str
              Sample.int_of_str Sample.apple Sample.now Sample.raw_data
              eq_refl eq_refl) as (E & _ & H & _).
  split; [exact E|].
  destruct (H 0%nat _ eq_refl) as (e' & He' & _ & Ht & Hs & Hd & Hk).
  exists e'. split; [exact He'|]. split; [exact Ht|]. split; [exact Hs|].
  split; [exact Hd|]. split.
  - refine (Hk "low" (VStr "5.0") _ _ _ eq_refl); discriminate.
  - refine (Hk "volume" (VStr "1000") _ _ _ eq_refl); discriminate.
Defined.

(** C7. When a batch of well-formed records (a text timestamp, a low and
    a high that are numbers or numeric text) is accepted by
    [get_processed_data], the scan of what it returns raises nothing, for
    support and for resistance, in either mode: all-levels mode returns
    the list of qualifying levels, empty when there is none, and
    global-only mode returns [None] when there is none and one qualifying
    level otherwise. *)
Theorem scan_after_normalize_never_raises
    (float_of_str : string -> option float) (int_of_str : string -> option Z)
    (self : getStockTimeSeries) (now : string) (raw p : batch) :
  forallb well_keyed raw = true ->
  forallb (well_formed_record float_of_str) raw = true ->
  processed float_of_str int_of_str self now (ApiData (Some raw)) p ->
  raw <> [] /\ series p = true
  /\ (forall global_only,
        is_ok (find_support_levels float_of_str int_of_str global_only self
                 now (ApiData (Some raw))) = true
        /\ is_ok (find_resistance_levels float_of_str int_of_str global_only
                    self now (ApiData (Some raw))) = true)
  /\ find_support_levels float_of_str int_of_str false self now
       (ApiData (Some raw)) = Ok (Levels (support_levels p))
  /\ find_resistance_levels float_of_str int_of_str false self now
       (ApiData (Some raw)) = Ok (Levels (resistance_levels p))
  /\ (support_levels p = []
        /\ find_support_levels float_of_str int_of_str true self now
             (ApiData (Some raw)) = Ok NoLevel
      \/ exists l, In l (support_levels p)
           /\ find_support_levels float_of_str int_of_str true self now
                (ApiData (Some raw)) = Ok (Level l))
  /\ (resistance_levels p = []
        /\ find_resistance_levels float_of_str int_of_str true self now
             (ApiData (Some raw)) = Ok NoLevel
      \/ exists l, In l (resistance_levels p)
           /\ find_resistance_levels float_of_str int_of_str true self now
                (ApiData (Some raw)) = Ok (Level l)).
Proof.
  intros Hwk Hwf Hp.
  destruct (PipelineFacts.accepted_normalized float_of_str int_of_str self
              now raw p Hwk Hp) as (E & Hne & _).
  assert (Hs : series p = true)
    by (rewrite E; now apply PipelineFacts.normalized_series).
  split; [exact Hne|]. split; [exact Hs|].
  unfold find_support_levels, find_resistance_levels.
  assert (Hf := fun scan_levels =>
    PipelineFacts.find_levels_processed float_of_str int_of_str self now
      scan_levels (ApiData (Some raw)) p Hp).
  rewrite !Hf.
  destruct (PipelineFacts.scan_series_ok p Hs) as (A & B & C & D).
  split; [|now repeat split].
  intros [|]; rewrite !Hf.
  - destruct C as [[_ ->]|(l & _ & ->)], D as [[_ ->]|(l' & _ & ->)];
      now split.
  - now rewrite A, B.
Qed.

Lemma scan_after_normalize_never_raises_witness :
  forallb well_keyed Sample.raw_data = true
  /\ forallb (well_formed_record Sample.float_of_str) Sample.raw_data = true
  /\ processed Sample.float_of_str Sample.int_of_str Sample.apple Sample.now
       (ApiData (Some Sample.raw_data)) Sample.processed_data
  /\ find_support_levels Sample.float_of_str Sample.int_of_str false
       Sample.apple Sample.now (ApiData (Some Sample.raw_data))
     = Ok (Levels [[VFloat 1.5; VStr "2024-04-26"];
                   [VFloat 1.5; VStr "2024-04-23"]]).
Proof.
  split; [reflexivity|]. split; [reflexivity|]. split; [reflexivity|].
  exact (proj1 (proj2 (proj2 (proj2
           (scan_after_normalize_never_raises Sample.float_of_str
              Sample.int_of_str Sample.apple Sample.now Sample.raw_data
              Sample.processed_data eq_refl eq_refl eq_refl))))).
Defined.

(** Without numeric lows the guarantee is lost: a record whose low is
    other text passes the validation, keeps its text, and the comparison
    of text with a float raises [TypeError]. *)
Example text_low_raises :
  is_ok (fst (get_processed_data Sample.float_of_str Sample.int_of_str
                Sample.apple Sample.now
                (ApiData (Some Sample.raw_with_text_low)))) = true
  /\ find_support_levels Sample.float_of_str Sample.int_of_str false
       Sample.apple Sample.now (ApiData (Some Sample.raw_with_text_low))
     = Raise TypeError
  /\ fst (scan_support_levels false Sample.mixed_low) = Raise TypeError.
Proof. repeat split. Qed.

(** C10. The coercion attempt also reaches the two fields that
    normalization adds: when the requested symbol reads as a float, the
    ticker of every normalized record is that float and not the symbol;
    when it reads only as an integer, that integer; the retrieval
    timestamp is treated alike. The field keyed "datetime" is the only
    one left as it was. *)
Theorem provenance_fields_are_coerced
    (float_of_str : string -> option float) (int_of_str : string -> option Z)
    (self : getStockTimeSeries) (now : string) (raw : batch) :
  forallb well_keyed raw = true ->
  forallb coercible_entry raw = true ->
  exists out,
    _convert_prices_to_numeric float_of_str int_of_str self now raw
    = (Ok out, out)
    /\ length out = length raw
    /\ forall i e, nth_error raw i = Some e ->
         exists e', nth_error out i = Some e'
           /\ (forall f, float_of_str (symbol self) = Some f ->
                 dict_getitem e' "ticker" = Ok (VFloat f))
           /\ (forall z, float_of_str (symbol self) = None ->
                 int_of_str (symbol self) = Some z ->
                 dict_getitem e' "ticker" = Ok (VInt z))
           /\ (float_of_str (symbol self) = None ->
               int_of_str (symbol self) = None ->
               dict_getitem e' "ticker" = Ok (VStr (symbol self)))
           /\ dict_getitem e' "execution_timestamp"
              = Ok (coerced float_of_str int_of_str (VStr now))
           /\ dict_getitem e' "datetime" = dict_getitem e "datetime"
           /\ forall k v, k <> "datetime" -> dict_getitem e' k = Ok v ->
                exists w, dict_getitem (attach self now e) k = Ok w
                          /\ v = coerced float_of_str int_of_str w.
Proof.
  intros Hwk Hc. exists (normalize float_of_str int_of_str self now raw).
  split; [|split].
  - destruct (NormalizeFacts.convert_run float_of_str int_of_str self now raw
                Hwk) as [E|(_ & _ & E)]; [exact E|congruence].
  - apply length_map.
  - intros i e He. exists (normalize_entry float_of_str int_of_str self now e).
    split; [now apply map_nth_error|].
    assert (Ht : dict_getitem
                   (normalize_entry float_of_str int_of_str self now e)
                   "ticker"
                 = Ok (coerced float_of_str int_of_str (VStr (symbol self)))).
    { unfold normalize_entry.
      now rewrite NormalizeFacts.getitem_normalized,
        NormalizeFacts.ticker_attached. }
    rewrite Ht. unfold coerced at 1 2 3. simpl py_float. simpl py_int.
    split; [intros f ->; reflexivity|].
    split; [intros z -> ->; reflexivity|].
    split; [intros -> ->; reflexivity|].
    unfold normalize_entry. split; [|split].
    + now rewrite NormalizeFacts.getitem_normalized,
        NormalizeFacts.timestamp_attached.
    + rewrite NormalizeFacts.getitem_normalized.
      rewrite NormalizeFacts.getitem_attach by discriminate.
      now destruct (dict_getitem e "datetime").
    + intros k v Hk. rewrite NormalizeFacts.getitem_normalized.
      apply String.eqb_neq in Hk. rewrite Hk.
      destruct (dict_getitem (attach self now e) k) as [w|];
        [|discriminate].
      intros [= <-]. now exists w.
Qed.

Lemma provenance_fields_are_coerced_witness :
  forallb well_keyed Sample.raw_data = true
  /\ forallb coercible_entry Sample.raw_data = true
  /\ Sample.float_of_str (symbol Sample.informa) = Some infinity
  /\ exists out,
       _convert_prices_to_numeric Sample.float_of_str Sample.int_of_str
         Sample.informa Sample.now Sample.raw_data = (Ok out, out)
       /\ exists e', nth_error out 0 = Some e'
            /\ dict_getitem e' "ticker" = Ok (VFloat infinity)
            /\ dict_getitem e' "datetime" = Ok (VStr "2024-04-30").
Proof.
  split; [reflexivity|]. split; [reflexivity|]. split; [reflexivity|].
  destruct (provenance_fields_are_coerced Sample.float_of_str
              Sample.int_of_str Sample.informa Sample.now Sample.raw_data
              eq_refl eq_refl) as (out & E & _ & H).
  exists out. split; [exact E|].
  destruct (H 0%nat _ eq_refl) as (e' & He' & Hf & _ & _ & _ & Hd & _).
  exists e'. split; [exact He'|]. split; [exact (Hf _ eq_refl)|exact Hd].
Defined.

(** ** Further properties of the code *)

Import Stocks.

(** X1. When both listings arrive and every stock has the four fields
    symbol, name, currency and exchange, [fetch_stocks] returns one
    record per stock, those of the USA before those of the United
    Kingdom, each holding exactly these four fields, in this order, with
    the values of the stock; any other field of a stock is dropped. *)
Theorem fetch_stocks_keeps_four_fields (usa uk : list dict) :
  forallb complete (usa ++ uk) = true ->
  length (fetch_stocks (Listing usa) (Listing uk))
  = (length usa + length uk)%nat
  /\ forall i stock,
       nth_error (usa ++ uk) i = Some stock ->
       exists d,
         nth_error (fetch_stocks (Listing usa) (Listing uk)) i = Some d
         /\ keys d = ["symbol"; "name"; "currency"; "exchange"]
         /\ forall k, In k kept -> dict_getitem d k = dict_getitem stock k.
Proof.
  intros H.
  destruct (StocksFacts.filtered_stocks_complete _ H) as (l' & E & Hlen & Hn).
  unfold fetch_stocks, fetch_stocks_body, get_stocks_list. rewrite E.
  split; [now rewrite Hlen, length_app|exact Hn].
Qed.

Lemma fetch_stocks_keeps_four_fields_witness :
  forallb complete (Listings.usa ++ Listings.uk) = true
  /\ length (fetch_stocks (Listing Listings.usa) (Listing Listings.uk))
     = 3%nat
  /\ exists d,
       nth_error (fetch_stocks (Listing Listings.usa) (Listing Listings.uk)) 2
       = Some d
       /\ keys d = ["symbol"; "name"; "currency"; "exchange"]
       /\ dict_getitem d "symbol" = Ok (VStr "INF").
Proof.
  split; [reflexivity|].
  destruct (fetch_stocks_keeps_four_fields Listings.usa Listings.uk eq_refl)
    as [Hlen Hn].
  split; [exact Hlen|].
  destruct (Hn 2%nat _ eq_refl) as (d & Hd & Hk & Hv).
  exists d. split; [exact Hd|]. split; [exact Hk|].
  exact (Hv "symbol" (or_introl eq_refl)).
Defined.

(** X2. [fetch_stocks] returns all stocks or none: when the listing of
    the USA fails, when that of the United Kingdom fails, or when one
    stock of either lacks one of the four fields, the result is a single
    record whose only field is "error". Its text ends with the text of
    the client's exception (the USA's when both fail) or, for a missing
    field, with the name between quotes of the first field, in the order
    symbol, name, currency, exchange, that the first incomplete stock
    lacks. *)
Theorem fetch_stocks_all_or_nothing (usa uk : listing) :
  match usa, uk with
  | ListingError text, _ | Listing _, ListingError text =>
      fetch_stocks usa uk
      = [[("error", VStr ("An unexpected error occurred: " ++ text)%string)]]
  | Listing us, Listing ks =>
      if forallb complete (us ++ ks)
      then length (fetch_stocks usa uk) = length (us ++ ks)
      else exists good bad rest k,
             us ++ ks = good ++ bad :: rest
             /\ forallb complete good = true
             /\ first_missing bad = Some k
             /\ fetch_stocks usa uk
                = [[("error",
                     VStr ("An unexpected error occurred: '" ++ k ++ "'")
                            %string)]]
  end.
Proof.
  destruct usa as [t|us], uk as [t'|ks]; try reflexivity.
  destruct (forallb complete (us ++ ks)) eqn:H.
  - destruct (StocksFacts.filtered_stocks_complete _ H) as (l' & E & Hlen & _).
    unfold fetch_stocks, fetch_stocks_body, get_stocks_list.
    now rewrite E.
  - destruct (StocksFacts.filtered_stocks_incomplete _ H)
      as (good & bad & rest & k & E & Hg & Hk & _ & Ef).
    exists good, bad, rest, k. repeat split; trivial.
    unfold fetch_stocks, fetch_stocks_body, get_stocks_list.
    now rewrite Ef.
Qed.

Lemma fetch_stocks_all_or_nothing_witness :
  forallb complete (Listings.usa ++ Listings.uk_incomplete) = false
  /\ fetch_stocks (Listing Listings.usa) (Listing Listings.uk_incomplete)
     = [[("error", VStr "An unexpected error occurred: 'name'")]]
  /\ fetch_stocks (ListingError "rate limit") (ListingError "timeout")
     = [[("error", VStr "An unexpected error occurred: rate limit")]].
Proof.
  split; [reflexivity|]. split.
  - assert (H := fetch_stocks_all_or_nothing (Listing Listings.usa)
                   (Listing Listings.uk_incomplete)).
    cbv beta iota in H.
    change (forallb complete (Listings.usa ++ Listings.uk_incomplete))
      with false in H.
    destruct H as (good & bad & rest & k & _ & _ & _ & H). reflexivity.
  - exact (fetch_stocks_all_or_nothing (ListingError "rate limit")
             (ListingError "timeout")).
Defined.

(** X3. The stock selector of [main.py] can be built from whatever
    [fetch_stocks] returned: it offers no option when [fetch_stocks]
    returned its error record, and otherwise one option per stock, in
    order, reading "name (symbol)". *)
Theorem stock_options_of_fetch_stocks (str_of_number : value -> string)
    (usa uk : listing) :
  exists o,
    stock_options str_of_number (fetch_stocks usa uk) = Ok o
    /\ (forall e, fetch_stocks usa uk = [error_record e] -> o = [])
    /\ (forall us ks,
          usa = Listing us -> uk = Listing ks ->
          forallb complete (us ++ ks) = true ->
          length o = length (us ++ ks)
          /\ forall i stock name symbol,
               nth_error (us ++ ks) i = Some stock ->
               dict_getitem stock "name" = Ok name ->
               dict_getitem stock "symbol" = Ok symbol ->
               nth_error o i
               = Some (py_str str_of_number name ++ " ("
                       ++ py_str str_of_number symbol ++ ")")%string).
Proof.
  destruct (StocksFacts.stock_options_total str_of_number
              (fetch_stocks usa uk)) as (o & Eo & _).
  exists o. split; [exact Eo|]. split.
  - intros e He. rewrite He in Eo. simpl in Eo. congruence.
  - intros us ks -> -> H.
    destruct (StocksFacts.filtered_stocks_complete _ H)
      as (l' & E & Hlen & Hn).
    assert (Ef : fetch_stocks (Listing us) (Listing ks) = l').
    { unfold fetch_stocks, fetch_stocks_body, get_stocks_list.
      now rewrite E. }
    rewrite Ef in Eo.
    destruct (StocksFacts.stock_options_complete str_of_number (us ++ ks) l'
                Hlen Hn) as (o' & Eo' & Hlen' & Hlab).
    { intros s Hs. rewrite forallb_forall in H. now apply H. }
    assert (o' = o) as -> by congruence. now split.
Qed.

Lemma stock_options_of_fetch_stocks_witness :
  stock_options Listings.str_of_number
    (fetch_stocks (Listing Listings.usa) (Listing Listings.uk))
  = Ok ["Apple Inc (AAPL)"; "Microsoft Corp (MSFT)"; "Informa plc (INF)"]
  /\ exists o,
       stock_options Listings.str_of_number
         (fetch_stocks (Listing Listings.usa) (Listing Listings.uk_incomplete))
       = Ok o /\ o = [].
Proof.
  split; [reflexivity|].
  destruct (stock_options_of_fetch_stocks Listings.str_of_number
              (Listing Listings.usa) (Listing Listings.uk_incomplete))
    as (o & Eo & Herr & _).
  exists o. split; [exact Eo|]. exact (Herr (MissingKey "name") eq_refl).
Defined.

(** X4. The option of a stock leads back to its symbol: when the name
    holds no parenthesis, the symbol holds no closing parenthesis and has
    no blank at either end, the ticker that [main.py] cuts out of the
    selected option "name (symbol)" is the symbol. *)
Theorem ticker_of_label (str_of_number : value -> string) (d : dict)
    (name symbol : string) :
  dict_getitem d "name" = Ok (VStr name) ->
  dict_getitem d "symbol" = Ok (VStr symbol) ->
  free_of "(" name = true -> free_of ")" name = true ->
  free_of ")" symbol = true -> Str.strip symbol = symbol ->
  stock_options str_of_number [d] = Ok [label_text name symbol]
  /\ ticker (VStr (label_text name symbol)) = Ok symbol.
Proof.
  intros Hn Hs H1 H2 H3 H4. split.
  - simpl. unfold has_key, stock_label. now rewrite Hn, Hs.
  - unfold label_text.
    replace (name ++ " (" ++ symbol ++ ")")%string
      with ((name ++ " ") ++ "(" ++ symbol ++ ")" ++ "")%string
      by (now rewrite StrFacts.append_assoc).
    rewrite StrFacts.ticker_between, H4; trivial;
      rewrite StrFacts.free_of_app; [now rewrite H1|now rewrite H2].
Qed.

Lemma ticker_of_label_witness :
  stock_options Listings.str_of_number
    [Listings.stock "AAPL" "Apple Inc" "USD" "NASDAQ" "Common Stock"]
  = Ok ["Apple Inc (AAPL)"]
  /\ ticker (VStr "Apple Inc (AAPL)") = Ok "AAPL".
Proof.
  exact (ticker_of_label Listings.str_of_number
           (Listings.stock "AAPL" "Apple Inc" "USD" "NASDAQ" "Common Stock")
           "Apple Inc" "AAPL" eq_refl eq_refl eq_refl eq_refl eq_refl eq_refl).
Defined.

(** X5. A name with parentheses of its own hides the symbol: for a name
    "a(b)c", where [a] holds no parenthesis and [b] no closing one, the
    ticker cut out of the option is [b] without its outer blanks,
    whatever the symbol is. *)
Theorem ticker_of_parenthesised_name (a b c symbol : string) :
  free_of "(" a = true -> free_of ")" a = true -> free_of ")" b = true ->
  ticker (VStr (label_text (a ++ "(" ++ b ++ ")" ++ c) symbol))
  = Ok (Str.strip b).
Proof.
  intros H1 H2 H3. unfold label_text.
  rewrite !StrFacts.append_assoc. simpl String.append.
  now apply (StrFacts.ticker_between a b (c ++ " (" ++ symbol ++ ")")).
Qed.

Lemma ticker_of_parenthesised_name_witness :
  ticker (VStr "Foo (Holdings) plc (FOO)") = Ok "Holdings".
Proof.
  exact (ticker_of_parenthesised_name "Foo " "Holdings" " plc" "FOO"
           eq_refl eq_refl eq_refl).
Defined.

(** X6. On a text without an opening parenthesis, without a closing one,
    or whose first closing parenthesis is not beyond the place after its
    first opening one, the ticker is the empty text and nothing is
    raised; a selection that is not text ([None], when the selector has
    no option) raises [TypeError]. *)
Theorem ticker_without_parentheses (selected_stock : value) :
  match selected_stock with
  | VStr s =>
      Str.contains "(" s = false \/ Str.contains ")" s = false
      \/ Str.find s ")" <= Str.find s "(" + 1 ->
      ticker selected_stock = Ok ""%string
  | _ => ticker selected_stock = Raise TypeError
  end.
Proof.
  destruct selected_stock as [|s|z|f]; try reflexivity.
  intros H. unfold ticker.
  destruct (Str.contains "(" s) eqn:E1; [|reflexivity].
  destruct (Str.contains ")" s) eqn:E2; [|reflexivity].
  destruct H as [H|[H|H]]; try discriminate. simpl andb.
  unfold Str.contains in E1, E2.
  rewrite StrFacts.slice_backwards by lia. reflexivity.
Qed.

Lemma ticker_without_parentheses_witness :
  ticker (VStr ")AAPL(") = Ok ""%string
  /\ ticker (VStr "Apple Inc") = Ok ""%string
  /\ ticker VNone = Raise TypeError.
Proof.
  split; [|split].
  - refine (ticker_without_parentheses (VStr ")AAPL(") _).
    right. right. vm_compute. discriminate.
  - refine (ticker_without_parentheses (VStr "Apple Inc") _).
    left. reflexivity.
  - exact (ticker_without_parentheses VNone).
Defined.

(** X7. The two modes of either method agree on any batch: global-only
    mode raises whatever all-levels mode raises; it returns [None]
    exactly when all-levels mode returns the empty list; and when
    all-levels mode returns levels, global-only mode returns one of them,
    unless comparing two of them raises [TypeError]. *)
Theorem global_only_agrees_with_all_levels (s : batch) :
  match fst (scan_support_levels false s) with
  | Raise e => fst (scan_support_levels true s) = Raise e
  | Ok (Levels []) => fst (scan_support_levels true s) = Ok NoLevel
  | Ok (Levels all) =>
      (exists l, fst (scan_support_levels true s) = Ok (Level l) /\ In l all)
      \/ fst (scan_support_levels true s) = Raise TypeError
  | Ok _ => False
  end
  /\ match fst (scan_resistance_levels false s) with
     | Raise e => fst (scan_resistance_levels true s) = Raise e
     | Ok (Levels []) => fst (scan_resistance_levels true s) = Ok NoLevel
     | Ok (Levels all) =>
         (exists l, fst (scan_resistance_levels true s) = Ok (Level l)
                    /\ In l all)
         \/ fst (scan_resistance_levels true s) = Raise TypeError
     | Ok _ => False
     end.
Proof.
  split.
  - assert (Hro := ScanFacts.read_only_scan support_condition "low"
                     ScanFacts.read_only_support_condition).
    assert (H := RaiseFacts.modes_agree (scan support_condition "low")
                   list_lt "min" s Hro RaiseFacts.list_lt_raises).
    cbv zeta in H. unfold scan_support_levels at 1.
    rewrite RaiseFacts.bind_cases by exact Hro.
    destruct (fst (scan support_condition "low" s)) as [[|first rest]|e];
      exact H.
  - assert (Hro := ScanFacts.read_only_scan resistance_condition "high"
                     ScanFacts.read_only_resistance_condition).
    assert (H := RaiseFacts.modes_agree (scan resistance_condition "high")
                   list_gt "max" s Hro RaiseFacts.list_gt_raises).
    cbv zeta in H. unfold scan_resistance_levels at 1.
    rewrite RaiseFacts.bind_cases by exact Hro.
    destruct (fst (scan resistance_condition "high" s)) as [[|first rest]|e];
      exact H.
Qed.

Lemma global_only_agrees_with_all_levels_witness :
  fst (scan_support_levels false Gaps.unlike_timestamps)
  = Ok (Levels [[VFloat 1; VStr "2024-04-23"]; [VFloat 1; VFloat 20240426]])
  /\ fst (scan_support_levels true Gaps.unlike_timestamps) = Raise TypeError
  /\ fst (scan_support_levels true Gaps.no_low) = Raise (KeyError "low").
Proof.
  split; [reflexivity|]. split; [reflexivity|].
  exact (proj1 (global_only_agrees_with_all_levels Gaps.no_low)).
Defined.

(** X8. Whatever the records hold, the scan raises nothing but
    [TypeError] (two values that [<] or [>] cannot compare) and
    [KeyError] for the column it reads ("low" for support, "high" for
    resistance) or for "datetime": the indices stay within the list, and
    [min] and [max] are never given an empty list. *)
Theorem scan_raises_only_benign (global_only : bool) (s : batch) (e : exn) :
  (fst (scan_support_levels global_only s) = Raise e -> benign "low" e)
  /\ (fst (scan_resistance_levels global_only s) = Raise e ->
      benign "high" e).
Proof.
  assert (Hs : forall x, fst (scan support_condition "low" s) = Raise x ->
                         benign "low" x).
  { intros x. apply RaiseFacts.scan_raises.
    - apply ScanFacts.read_only_support_condition.
    - intros i y. apply RaiseFacts.support_condition_raises. }
  assert (Hr : forall x, fst (scan resistance_condition "high" s) = Raise x ->
                         benign "high" x).
  { intros x. apply RaiseFacts.scan_raises.
    - apply ScanFacts.read_only_resistance_condition.
    - intros i y. apply RaiseFacts.resistance_condition_raises. }
  split.
  - unfold scan_support_levels.
    rewrite RaiseFacts.bind_cases
      by (apply ScanFacts.read_only_scan,
            ScanFacts.read_only_support_condition).
    destruct (fst (scan support_condition "low" s)) as [l|x] eqn:E;
      [|intros [= <-]; now apply Hs].
    destruct global_only; [|discriminate].
    destruct l as [|first rest]; [discriminate|].
    unfold bind, lift, ret, min, min_max.
    assert (H := RaiseFacts.min_max_from_cases list_lt rest first).
    destruct (min_max_from list_lt first rest) as [m|y]; [discriminate|].
    destruct H as (v & w & H). intros [= <-]. left.
    exact (RaiseFacts.list_lt_raises v w y H).
  - unfold scan_resistance_levels.
    rewrite RaiseFacts.bind_cases
      by (apply ScanFacts.read_only_scan,
            ScanFacts.read_only_resistance_condition).
    destruct (fst (scan resistance_condition "high" s)) as [l|x] eqn:E;
      [|intros [= <-]; now apply Hr].
    destruct global_only; [|discriminate].
    destruct l as [|first rest]; [discriminate|].
    unfold bind, lift, ret, max, min_max.
    assert (H := RaiseFacts.min_max_from_cases list_gt rest first).
    destruct (min_max_from list_gt first rest) as [m|y]; [discriminate|].
    destruct H as (v & w & H). intros [= <-]. left.
    exact (RaiseFacts.list_gt_raises v w y H).
Qed.

Lemma scan_raises_only_benign_witness :
  fst (scan_support_levels false Gaps.no_datetime)
  = Raise (KeyError "datetime")
  /\ benign "low" (KeyError "datetime")
  /\ fst (scan_support_levels false Sample.mixed_low) = Raise TypeError.
Proof.
  split; [reflexivity|]. split; [|reflexivity].
  exact (proj1 (scan_raises_only_benign false Gaps.no_datetime
                  (KeyError "datetime")) eq_refl).
Defined.



(** X10. After [get_processed_data] accepted a batch, the lookup
    [processed_data[-1]["execution_timestamp"]] of the two chart methods
    raises nothing and yields the retrieval timestamp of the batch as the
    coercion left it; the title they format is then
    "Candlestick Chart for <symbol> (Execution Time: <timestamp>)", with
    the timestamp itself whenever [float] and [int] do not read it. *)
Theorem chart_title_shows_retrieval_time
    (float_of_str : string -> option float) (int_of_str : string -> option Z)
    (str_of_number : value -> string) (gap : string)
    (self : getStockTimeSeries) (now : string) (raw p : batch) :
  forallb well_keyed raw = true ->
  processed float_of_str int_of_str self now (ApiData (Some raw)) p ->
  fst (item (-1) "execution_timestamp" p)
  = Ok (coerced float_of_str int_of_str (VStr now))
  /\ fst (chart_title str_of_number gap self p)
     = Ok ("Candlestick Chart for " ++ symbol self ++ gap
           ++ "(Execution Time: "
           ++ py_str str_of_number (coerced float_of_str int_of_str (VStr now))
           ++ ")")%string
  /\ (float_of_str now = None -> int_of_str now = None ->
      fst (chart_title str_of_number gap self p)
      = Ok ("Candlestick Chart for " ++ symbol self ++ gap
            ++ "(Execution Time: " ++ now ++ ")")%string).
Proof.
  intros Hwk Hp.
  destruct (PipelineFacts.accepted_normalized float_of_str int_of_str self
              now raw p Hwk Hp) as (-> & Hne & _).
  assert (H := TitleFacts.last_execution_timestamp float_of_str int_of_str
                 self now raw Hne).
  assert (T : fst (chart_title str_of_number gap self
                     (normalize float_of_str int_of_str self now raw))
              = Ok ("Candlestick Chart for " ++ symbol self ++ gap
                    ++ "(Execution Time: "
                    ++ py_str str_of_number
                         (coerced float_of_str int_of_str (VStr now))
                    ++ ")")%string).
  { unfold chart_title.
    rewrite RaiseFacts.bind_cases by apply ScanFacts.read_only_item.
    now rewrite H. }
  split; [exact H|]. split; [exact T|].
  intros Hf Hi. rewrite T. unfold coerced. simpl. now rewrite Hf, Hi.
Qed.

Lemma chart_title_shows_retrieval_time_witness :
  forallb well_keyed Sample.raw_data = true
  /\ processed Sample.float_of_str Sample.int_of_str Sample.apple Sample.now
       (ApiData (Some Sample.raw_data)) Sample.processed_data
  /\ fst (chart_title Listings.str_of_number "    " Sample.apple
            Sample.processed_data)
     = Ok ("Candlestick Chart for AAPL    "
           ++ "(Execution Time: 2024-05-01T09:30:00.000000)")%string.
Proof.
  split; [reflexivity|]. split; [reflexivity|].
  exact (proj2 (proj2
           (chart_title_shows_retrieval_time Sample.float_of_str
              Sample.int_of_str Listings.str_of_number "    " Sample.apple
              Sample.now Sample.raw_data Sample.processed_data eq_refl
              eq_refl)) eq_refl eq_refl).
Defined.

(** X11. Whatever the records hold, when all-levels mode returns, a
    batch of [n] records yields at most [(n - 2) / 3] support levels and
    at most as many resistance levels (none below five records). *)
Theorem at_most_a_third_are_levels (s : batch) (all : list (list value)) :
  (fst (scan_support_levels false s) = Ok (Levels all) ->
   3 * Z.of_nat (length all) <= Z.max 0 (Z.of_nat (length s) - 2))
  /\ (fst (scan_resistance_levels false s) = Ok (Levels all) ->
      3 * Z.of_nat (length all) <= Z.max 0 (Z.of_nat (length s) - 2)).
Proof.
  split; intros H.
  - apply (CountFacts.scan_length support_condition "low").
    + apply ScanFacts.read_only_support_condition.
    + unfold flagged. intros i j Hi Hj. apply (GlobalFacts.support_apart s).
      * destruct (fst (support_condition i s)) as [[|]|]; congruence.
      * destruct (fst (support_condition j s)) as [[|]|]; congruence.
    + unfold scan_support_levels in H.
      rewrite RaiseFacts.bind_cases in H
        by (apply ScanFacts.read_only_scan,
              ScanFacts.read_only_support_condition).
      destruct (fst (scan support_condition "low" s)); [|discriminate].
      simpl in H. congruence.
  - apply (CountFacts.scan_length resistance_condition "high").
    + apply ScanFacts.read_only_resistance_condition.
    + unfold flagged. intros i j Hi Hj. apply (GlobalFacts.resistance_apart s).
      * destruct (fst (resistance_condition i s)) as [[|]|]; congruence.
      * destruct (fst (resistance_condition j s)) as [[|]|]; congruence.
    + unfold scan_resistance_levels in H.
      rewrite RaiseFacts.bind_cases in H
        by (apply ScanFacts.read_only_scan,
              ScanFacts.read_only_resistance_condition).
      destruct (fst (scan resistance_condition "high" s)); [|discriminate].
      simpl in H. congruence.
Qed.

Lemma at_most_a_third_are_levels_witness :
  fst (scan_support_levels false Sample.double_bottom)
  = Ok (Levels [[VFloat 1; VStr "2024-04-23"]; [VFloat 1; VStr "2024-04-26"]])
  /\ 3 * Z.of_nat 2 <= Z.max 0 (Z.of_nat (length Sample.double_bottom) - 2).
Proof.
  split; [reflexivity|].
  exact (proj1 (at_most_a_third_are_levels Sample.double_bottom
                  [[VFloat 1; VStr "2024-04-23"];
                   [VFloat 1; VStr "2024-04-26"]]) eq_refl).
Defined.

(** X12. The scan does not depend on the direction of the series: on a
    series of price points given newest first instead of oldest first,
    all-levels mode returns the same support levels and the same
    resistance levels, in the reverse order. *)
Theorem scan_of_reversed_series (s : batch) :
  series s = true ->
  exists supports resistances,
    fst (scan_support_levels false s) = Ok (Levels supports)
    /\ fst (scan_support_levels false (rev s)) = Ok (Levels (rev supports))
    /\ fst (scan_resistance_levels false s) = Ok (Levels resistances)
    /\ fst (scan_resistance_levels false (rev s))
       = Ok (Levels (rev resistances)).
Proof.
  intros Hs. assert (Hr := ReverseFacts.series_rev s Hs).
  exists (support_levels s), (resistance_levels s).
  unfold scan_support_levels, scan_resistance_levels, bind.
  rewrite (ScanFacts.scan_support_series s Hs),
    (ScanFacts.scan_support_series (rev s) Hr),
    (ScanFacts.scan_resistance_series s Hs),
    (ScanFacts.scan_resistance_series (rev s) Hr).
  rewrite ReverseFacts.support_levels_rev, ReverseFacts.resistance_levels_rev.
  repeat split.
Qed.

Lemma scan_of_reversed_series_witness :
  series Sample.processed_data = true
  /\ fst (scan_support_levels false Sample.processed_data)
     = Ok (Levels [[VFloat 1.5; VStr "2024-04-26"];
                   [VFloat 1.5; VStr "2024-04-23"]])
  /\ fst (scan_support_levels false (rev Sample.processed_data))
     = Ok (Levels [[VFloat 1.5; VStr "2024-04-23"];
                   [VFloat 1.5; VStr "2024-04-26"]])
  /\ exists supports resistances,
       fst (scan_support_levels false Sample.processed_data)
       = Ok (Levels supports)
       /\ fst (scan_support_levels false (rev Sample.processed_data))
          = Ok (Levels (rev supports))
       /\ fst (scan_resistance_levels false Sample.processed_data)
          = Ok (Levels resistances)
       /\ fst (scan_resistance_levels false (rev Sample.processed_data))
          = Ok (Levels (rev resistances)).
Proof.
  split; [reflexivity|]. split; [reflexivity|]. split; [reflexivity|].
  exact (scan_of_reversed_series Sample.processed_data eq_refl).
Defined.
